(** * LinkedAuto: the GitHub webhook ingestion pipeline

    A shallow embedding of [app/api/v1/webhooks.py] (the handler
    [github_webhook], [verify_webhook_signature] and
    [process_completed_project]), of the parts of
    [app/services/github_service.py] the handler reaches, and of the
    [WebhookEvent] / [Repository] / [User] rows of [app/models/database.py].

    Conventions.
    - A Python [str] is a Rocq [string] holding its UTF-8 encoding; a Python
      [bytes] is a Rocq [string] holding the bytes themselves.  Hence
      [secret.encode()] is the identity, and a string is ASCII-only exactly
      when every byte is below 128.
    - HMAC-SHA256 and [json.dumps] are written out.  The other library code
      the repository calls but does not contain (the JSON parser, Fernet,
      base64, the HTTP client, the clock) and the randomised summarisation
      engine are fields of the record [env]; every theorem holds for every
      [env].
    - The handler runs in a state-and-exception monad [M]; the state holds
      the database tables and the trace of collaborator calls. *)

From Stdlib Require Import String Ascii List ZArith NArith Bool Lia.
From Stdlib Require Import DecimalString.
Import ListNotations.
Local Open Scope list_scope.
Local Open Scope string_scope.

(* ------------------------------------------------------------------ *)
(** * Strings *)

Module Str.

Definition bytes := string.

(** [c.lower()] on an ASCII letter; any other byte is kept. *)
Definition lower_ascii (c : ascii) : ascii :=
  let n := N_of_ascii c in
  if ((65 <=? n) && (n <=? 90))%N then ascii_of_N (n + 32) else c.

(** [s.lower()].  Python lowers by Unicode tables; on the UTF-8 encoding
    the ASCII letters move and every multi-byte character keeps bytes of
    128 and above, so tests of the form ["readme" in s.lower()], whose
    pattern is a run of the letters r, e, a, d, m, agree with this
    byte-wise version (the two non-ASCII characters whose lower case
    contains an ASCII letter give "k" and "i" followed by a combining
    mark). *)
Fixpoint lower (s : string) : string :=
  match s with
  | EmptyString => EmptyString
  | String c r => String (lower_ascii c) (lower r)
  end.

(** [needle in hay] for two [str]. *)
Fixpoint contains (needle hay : string) : bool :=
  match hay with
  | EmptyString => prefix needle EmptyString
  | String _ r => prefix needle hay || contains needle r
  end.

Definition is_ascii_char (c : ascii) : bool := (N_of_ascii c <? 128)%N.

Fixpoint is_ascii (s : string) : bool :=
  match s with
  | EmptyString => true
  | String c r => is_ascii_char c && is_ascii r
  end.

Definition hex_digit (n : N) : ascii :=
  if (n <? 10)%N then ascii_of_N (48 + n) else ascii_of_N (87 + n).

(** [bytes.hex()]: two lower-case hexadecimal digits per byte. *)
Fixpoint hex (b : bytes) : string :=
  match b with
  | EmptyString => EmptyString
  | String c r =>
      let n := N_of_ascii c in
      String (hex_digit (n / 16)) (String (hex_digit (n mod 16)) (hex r))
  end.

(** [str(n)] for an [int]. *)
Definition of_Z (z : Z) : string := NilZero.string_of_int (Z.to_int z).

(** A byte that continues a multi-byte UTF-8 character ([10xxxxxx]). *)
Definition is_continuation (c : ascii) : bool :=
  let n := N_of_ascii c in ((128 <=? n) && (n <? 192))%N.

(** The characters of a [str], each as a one-character [str]: a new
    character starts at every byte that is not a continuation byte. *)
Fixpoint chars_aux (cur : string) (s : string) : list string :=
  match s with
  | EmptyString => [cur]
  | String c r =>
      if is_continuation c then chars_aux (cur ++ String c EmptyString) r
      else cur :: chars_aux (String c EmptyString) r
  end.

Definition chars (s : string) : list string :=
  match s with
  | EmptyString => []
  | String c r => chars_aux (String c EmptyString) r
  end.

(** The code point of a one-character [str]. *)
Definition lead_bits (n : N) : N :=
  if (n <? 128)%N then n
  else if (n <? 224)%N then N.land n 31
  else if (n <? 240)%N then N.land n 15
  else N.land n 7.

Fixpoint code_point_aux (acc : N) (s : string) : N :=
  match s with
  | EmptyString => acc
  | String c r => code_point_aux (acc * 64 + N.land (N_of_ascii c) 63) r
  end.

Definition code_point (ch : string) : N :=
  match ch with
  | EmptyString => 0
  | String c r => code_point_aux (lead_bits (N_of_ascii c)) r
  end.

(** ['{0:04x}'.format(n)] for [n < 65536]. *)
Definition hex4 (n : N) : string :=
  String (hex_digit (n / 4096 mod 16))
    (String (hex_digit (n / 256 mod 16))
       (String (hex_digit (n / 16 mod 16))
          (String (hex_digit (n mod 16)) EmptyString))).

End Str.
Import Str.

(* ------------------------------------------------------------------ *)
(** * [hashlib.sha256] and [hmac] (FIPS 180-4, RFC 2104), on 32-bit words
      held in [N] *)

Module Hashlib.

Local Open Scope list_scope.
Local Open Scope N_scope.

Definition word (x : N) : N := x mod 4294967296.

Definition rotr (n x : N) : N :=
  N.lor (N.shiftr x n) (word (N.shiftl x (32 - n))).

Definition ch (x y z : N) : N :=
  N.lxor (N.land x y) (N.land (N.lxor x 4294967295) z).

Definition maj (x y z : N) : N :=
  N.lxor (N.lxor (N.land x y) (N.land x z)) (N.land y z).

Definition big_sigma0 (x : N) : N :=
  N.lxor (N.lxor (rotr 2 x) (rotr 13 x)) (rotr 22 x).

Definition big_sigma1 (x : N) : N :=
  N.lxor (N.lxor (rotr 6 x) (rotr 11 x)) (rotr 25 x).

Definition small_sigma0 (x : N) : N :=
  N.lxor (N.lxor (rotr 7 x) (rotr 18 x)) (N.shiftr x 3).

Definition small_sigma1 (x : N) : N :=
  N.lxor (N.lxor (rotr 17 x) (rotr 19 x)) (N.shiftr x 10).

Definition is_prime (p : N) : bool :=
  forallb (fun d => negb (p mod N.of_nat d =? 0)) (seq 2 (N.to_nat p - 2)).

(** The first [n] primes (all below 312). *)
Definition first_primes (n : nat) : list N :=
  firstn n (filter is_prime (map N.of_nat (seq 2 310))).

(** The greatest [r] below [2 ^ bits] with [r ^ k <= n]. *)
Fixpoint root (k n : N) (bits : nat) (r : N) : N :=
  match bits with
  | O => r
  | S b =>
      let r' := r + 2 ^ N.of_nat b in
      if r' ^ k <=? n then root k n b r' else root k n b r
  end.

(** The first 32 bits of the fractional part of the [k]-th root of [p]. *)
Definition fractional_root (k p : N) : N :=
  word (root k (p * 2 ^ (32 * k)) 40 0).

(** FIPS 180-4, 4.2.2: from the cube roots of the first 64 primes. *)
Definition round_constants : list N :=
  Eval vm_compute in map (fractional_root 3) (first_primes 64).

(** FIPS 180-4, 5.3.3: from the square roots of the first 8 primes. *)
Definition initial_hash : list N :=
  Eval vm_compute in map (fractional_root 2) (first_primes 8).

(** [x] on [count] bytes, the most significant first. *)
Definition be_bytes (count : nat) (x : N) : list N :=
  map (fun i => N.shiftr x (8 * N.of_nat i) mod 256) (rev (seq 0 count)).

(** The message followed by the bit 1, zeros, and its length in bits on
    eight bytes. *)
Definition pad (msg : list N) : list N :=
  let len := N.of_nat (length msg) in
  let zeros := N.to_nat ((119 - len mod 64) mod 64) in
  msg ++ [128] ++ repeat 0 zeros ++ be_bytes 8 (8 * len).

Fixpoint words (fuel : nat) (bs : list N) : list N :=
  match fuel, bs with
  | S f, a :: b :: c :: d :: r =>
      (((a * 256 + b) * 256 + c) * 256 + d) :: words f r
  | _, _ => []
  end.

(** [schedule n w] extends the reversed schedule [w] by [n] words. *)
Fixpoint schedule (n : nat) (w : list N) : list N :=
  match n with
  | O => w
  | S n' =>
      let x := word (small_sigma1 (nth 1 w 0) + nth 6 w 0
                     + small_sigma0 (nth 14 w 0) + nth 15 w 0) in
      schedule n' (x :: w)
  end.

Definition round (st : list N) (kw : N * N) : list N :=
  match st with
  | [a; b; c; d; e; f; g; h] =>
      let t1 := h + big_sigma1 e + ch e f g + fst kw + snd kw in
      let t2 := big_sigma0 a + maj a b c in
      [word (t1 + t2); a; b; c; word (d + t1); e; f; g]
  | _ => st
  end.

Definition compress (h : list N) (block : list N) : list N :=
  let w := rev (schedule 48 (rev (words 16 block))) in
  let h' := fold_left round (combine round_constants w) h in
  map (fun p => word (fst p + snd p)) (combine h h').

Fixpoint blocks (fuel : nat) (h : list N) (bs : list N) : list N :=
  match fuel with
  | O => h
  | S f =>
      match bs with
      | [] => h
      | _ => blocks f (compress h (firstn 64 bs)) (skipn 64 bs)
      end
  end.

Definition sha256_bytes (msg : list N) : list N :=
  let p := pad msg in
  flat_map (be_bytes 4) (blocks (length p) initial_hash p).

Definition hmac_sha256_bytes (key msg : list N) : list N :=
  let k := if (64 <? N.of_nat (length key)) then sha256_bytes key else key in
  let k := k ++ repeat 0 (64 - length k) in
  sha256_bytes (map (N.lxor 92) k ++ sha256_bytes (map (N.lxor 54) k ++ msg)).

Definition to_bytes (s : bytes) : list N := map N_of_ascii (list_ascii_of_string s).

Definition of_bytes (l : list N) : bytes := string_of_list_ascii (map ascii_of_N l).

(** [hashlib.sha256(msg).digest()]. *)
Definition sha256 (msg : bytes) : bytes := of_bytes (sha256_bytes (to_bytes msg)).

(** [hmac.new(key, msg, hashlib.sha256).digest()]. *)
Definition hmac_sha256 (key msg : bytes) : bytes :=
  of_bytes (hmac_sha256_bytes (to_bytes key) (to_bytes msg)).

End Hashlib.

(* ------------------------------------------------------------------ *)
(** * Python values and exceptions *)

#[local] Set Warnings "-register-all".

(** What [json.loads] produces.  A [float] is carried by its [repr]; a
    [dict] keeps its keys in insertion order. *)
Inductive value : Type :=
| VNone
| VBool (b : bool)
| VInt (z : Z)
| VFloat (repr : string)
| VStr (s : string)
| VList (items : list value)
| VDict (entries : list (string * value)).

(** [str(e)] is the second component of [PyExc]. *)
Inductive exn : Type :=
| HTTPException (status_code : Z) (detail : string)
| PyExc (cls : string) (msg : string).

Inductive outcome (A : Type) : Type :=
| Ret (a : A)
| Raise (e : exn).
Arguments Ret {A} a.
Arguments Raise {A} e.

Module Py.

Definition type_name (v : value) : string :=
  match v with
  | VNone => "NoneType" | VBool _ => "bool" | VInt _ => "int"
  | VFloat _ => "float" | VStr _ => "str" | VList _ => "list"
  | VDict _ => "dict"
  end.

(** [bool(v)]. *)
Definition truthy (v : value) : bool :=
  match v with
  | VNone => false
  | VBool b => b
  | VInt z => negb (z =? 0)%Z
  | VFloat r => negb ((r =? "0.0") || (r =? "-0.0"))
  | VStr s => negb (s =? "")
  | VList l => match l with [] => false | _ => true end
  | VDict d => match d with [] => false | _ => true end
  end.

Fixpoint lookup (k : string) (d : list (string * value)) : option value :=
  match d with
  | [] => None
  | (k', v) :: r => if k' =? k then Some v else lookup k r
  end.

Definition no_attribute {A} (v : value) (attr : string) : outcome A :=
  Raise (PyExc "AttributeError"
           ("'" ++ type_name v ++ "' object has no attribute '" ++ attr ++ "'")).

(** [v.get(k, default)]. *)
Definition get (v : value) (k : string) (default : value) : outcome value :=
  match v with
  | VDict d => Ret (match lookup k d with Some x => x | None => default end)
  | _ => no_attribute v "get"
  end.

(** [v[k]] for a string key. *)
Definition getitem (v : value) (k : string) : outcome value :=
  match v with
  | VDict d =>
      match lookup k d with
      | Some x => Ret x
      | None => Raise (PyExc "KeyError" ("'" ++ k ++ "'"))
      end
  | VList _ =>
      Raise (PyExc "TypeError" "list indices must be integers or slices, not str")
  | VStr _ =>
      Raise (PyExc "TypeError" "string indices must be integers, not 'str'")
  | _ =>
      Raise (PyExc "TypeError" ("'" ++ type_name v ++ "' object is not subscriptable"))
  end.

(** The elements [for x in v] visits. *)
Definition iter (v : value) : outcome (list value) :=
  match v with
  | VList l => Ret l
  | VDict d => Ret (map (fun kv => VStr (fst kv)) d)
  | VStr s => Ret (map VStr (chars s))
  | _ => Raise (PyExc "TypeError" ("'" ++ type_name v ++ "' object is not iterable"))
  end.

(** [v[:n]]. *)
Definition slice_to (n : nat) (v : value) : outcome value :=
  match v with
  | VList l => Ret (VList (firstn n l))
  | VStr s => Ret (VStr (String.concat "" (firstn n (chars s))))
  | VDict _ => Raise (PyExc "TypeError" "unhashable type: 'slice'")
  | _ =>
      Raise (PyExc "TypeError" ("'" ++ type_name v ++ "' object is not subscriptable"))
  end.

(** [v.lower()]. *)
Definition lower (v : value) : outcome string :=
  match v with
  | VStr s => Ret (Str.lower s)
  | _ => no_attribute v "lower"
  end.

(** [str(v)]; [repr_container] renders a [list] or a [dict]. *)
Definition str (repr_container : value -> string) (v : value) : string :=
  match v with
  | VNone => "None"
  | VBool true => "True"
  | VBool false => "False"
  | VInt z => of_Z z
  | VFloat r => r
  | VStr s => s
  | _ => repr_container v
  end.

(** [str(e)] for an exception. *)
Definition exn_str (e : exn) : string :=
  match e with
  | HTTPException c d => of_Z c ++ ": " ++ d
  | PyExc _ m => m
  end.

(** [hmac.compare_digest(a, b)] on two [str]: only ASCII strings are
    accepted. *)
Definition compare_digest (a b : string) : outcome bool :=
  if is_ascii a && is_ascii b then Ret (a =? b)
  else Raise (PyExc "TypeError"
                "comparing strings with non-ASCII characters is not supported").

End Py.

(* ------------------------------------------------------------------ *)
(** * [json.dumps] with its default arguments *)

Module Json.

Definition dquote : string := String (ascii_of_N 34) EmptyString.

(** One character of a [str], as [py_encode_basestring_ascii] writes it. *)
Definition escape_char (ch : string) : string :=
  let n := code_point ch in
  if (n =? 34)%N then "\" ++ dquote
  else if (n =? 92)%N then "\\"
  else if (n =? 10)%N then "\n"
  else if (n =? 13)%N then "\r"
  else if (n =? 9)%N then "\t"
  else if (n =? 8)%N then "\b"
  else if (n =? 12)%N then "\f"
  else if ((32 <=? n) && (n <=? 126))%N then ch
  else if (n <? 65536)%N then "\u" ++ hex4 n
  else
    let m := (n - 65536)%N in
    "\u" ++ hex4 (55296 + N.land (m / 1024) 1023)
         ++ "\u" ++ hex4 (56320 + N.land m 1023).

Definition quote (s : string) : string :=
  dquote ++ String.concat "" (map escape_char (chars s)) ++ dquote.

Definition float_text (r : string) : string :=
  if r =? "nan" then "NaN"
  else if r =? "inf" then "Infinity"
  else if r =? "-inf" then "-Infinity"
  else r.

Fixpoint dumps (v : value) : string :=
  match v with
  | VNone => "null"
  | VBool true => "true"
  | VBool false => "false"
  | VInt z => of_Z z
  | VFloat r => float_text r
  | VStr s => quote s
  | VList l =>
      "[" ++ String.concat ", " (map dumps l) ++ "]"
  | VDict d =>
      "{" ++ String.concat ", "
               (map (fun kv => quote (fst kv) ++ ": " ++ dumps (snd kv)) d)
          ++ "}"
  end.

End Json.

(* ------------------------------------------------------------------ *)
(** * Database rows ([app/models/database.py]) *)

Module User.
Record row : Type :=
  { id : Z;
    github_access_token : option string }.
End User.

Module Repository.
Record row : Type :=
  { id : Z;
    user_id : option Z;
    github_repo_id : string;
    full_name : string;
    is_monitored : bool }.
End Repository.

Module WebhookEvent.
Record row : Type :=
  { id : Z;
    repository_id : Z;
    event_type : string;
    payload : string;
    processed : bool;
    created_at : Z }.
End WebhookEvent.

Record database : Type :=
  { users : list User.row;
    repositories : list Repository.row;
    webhook_events : list WebhookEvent.row;
    webhook_events_seq : Z }.

(* ------------------------------------------------------------------ *)
(** * Collaborators, the trace of their calls, and the monad *)

Module Response.
(** An [httpx.Response] as [_make_request] reads it. *)
Record t : Type :=
  { status_code : Z;
    text : string;
    content : bytes;
    raise_for_status : option exn;
    json : outcome value }.
End Response.

(** What a run leaves behind, in order: the HMAC it computes, its
    database statements, and its calls to Fernet, to GitHub, to the
    summarisation service and to [print]. *)
Inductive event : Type :=
| HmacSha256 (key msg : bytes)
| DbQueryRepository (github_repo_id : string)
| DbCommit (row : WebhookEvent.row)
| DbLoadUser (user_id : option Z)
| DecryptToken (encrypted : string)
| HttpRequest (method url access_token : string)
| Summarize (metadata : value) (tone : string)
| Print (line : string).

(** Configuration ([settings]) and the code behind the handler's calls:
    [bytes.decode], [json.loads], [str] of a list or dict,
    [token_encryptor.decrypt_token], [base64.b64decode], the request an
    [httpx.AsyncClient] sends (method, URL, bearer token),
    [FreeSummarizationService.summarize_repository] (it draws a template at
    random) and [datetime.utcnow].  The collaborators whose answer may
    change from call to call read the trace so far. *)
Record env : Type :=
  { WEBHOOK_SECRET : string;
    GITHUB_API_URL : string;
    utf8_decode : bytes -> outcome string;
    json_loads : string -> outcome value;
    repr_container : value -> string;
    decrypt_token : string -> outcome string;
    b64decode : value -> outcome bytes;
    http_send : list event -> string -> string -> string -> outcome Response.t;
    summarize_repository : list event -> value -> string -> outcome string;
    utcnow : list event -> Z }.

Record state : Type :=
  { db : database;
    trace : list event }.

Definition M (A : Type) : Type := state -> outcome A * state.

Definition ret {A} (a : A) : M A := fun s => (Ret a, s).

Definition raise {A} (e : exn) : M A := fun s => (Raise e, s).

Definition bind {A B} (m : M A) (k : A -> M B) : M B :=
  fun s =>
    match m s with
    | (Ret a, s') => k a s'
    | (Raise e, s') => (Raise e, s')
    end.

Definition lift {A} (o : outcome A) : M A := fun s => (o, s).

(** [try: body  except Exception as e: handler(e)]. *)
Definition try_except {A} (body : M A) (handler : exn -> M A) : M A :=
  fun s =>
    match body s with
    | (Ret a, s') => (Ret a, s')
    | (Raise e, s') => handler e s'
    end.

(** [try: body  except cls: handler]; any other exception goes through. *)
Definition try_except_class {A} (cls : string) (body : M A) (handler : M A) : M A :=
  try_except body
    (fun e =>
       match e with
       | PyExc c _ => if c =? cls then handler else raise e
       | _ => raise e
       end).

Definition emit (e : event) : M unit :=
  fun s => (Ret tt, {| db := db s; trace := trace s ++ [e] |}).

Definition get_trace : M (list event) := fun s => (Ret (trace s), s).

Definition get_db : M database := fun s => (Ret (db s), s).

Definition put_db (d : database) : M unit :=
  fun s => (Ret tt, {| db := d; trace := trace s |}).

Declare Scope monad_scope.
Delimit Scope monad_scope with monad.
Notation "x <- m ;; k" := (bind m (fun x => k))
  (at level 61, m at next level, right associativity) : monad_scope.
Notation "m ;; k" := (bind m (fun _ => k))
  (at level 61, right associativity) : monad_scope.
Local Open Scope monad_scope.

(** [print(line)]. *)
Definition print (line : string) : M unit := emit (Print line).

(** Sequencing for computations that only return or raise. *)
Definition obind {A B} (o : outcome A) (k : A -> outcome B) : outcome B :=
  match o with
  | Ret a => k a
  | Raise e => Raise e
  end.

Notation "x <~ o ;; k" := (obind o (fun x => k))
  (at level 61, o at next level, right associativity) : monad_scope.
Notation "o >>= k" := (obind o k) (at level 50, left associativity) : monad_scope.

Fixpoint omap {A B} (f : A -> outcome B) (l : list A) : outcome (list B) :=
  match l with
  | [] => Ret []
  | x :: r => y <~ f x;; ys <~ omap f r;; Ret (y :: ys)
  end.

(** [s.split(sep)] for a one-character separator. *)
Fixpoint split_aux (sep : ascii) (cur : string) (s : string) : list string :=
  match s with
  | EmptyString => [cur]
  | String c r =>
      if Ascii.eqb c sep then cur :: split_aux sep EmptyString r
      else split_aux sep (cur ++ String c EmptyString) r
  end.

Definition split (sep : ascii) (s : string) : list string :=
  split_aux sep EmptyString s.

(* ------------------------------------------------------------------ *)
(** * [app/services/github_service.py] *)

Module GitHubService.
Section WithEnv.

Variable E : env.

(** Lines 35-40 of [_make_request]: what is made of the response. *)
Definition check_response (response : Response.t) : outcome value :=
  if (Response.status_code response =? 403)%Z
     && contains "rate limit" (lower (Response.text response))
  then Raise (PyExc "Exception" "GitHub API rate limit exceeded")
  else
    match Response.raise_for_status response with
    | Some e => Raise e
    | None =>
        if Response.content response =? EmptyString then Ret (VDict [])
        else Response.json response
    end.

(** [_make_request(endpoint, access_token)], with the defaults
    [method="GET"] and [data=None] every caller below uses. *)
Definition _make_request (endpoint access_token : string) : M value :=
  let url := GITHUB_API_URL E ++ endpoint in
  tr <- get_trace;;
  emit (HttpRequest "GET" url access_token);;
  response <- lift (http_send E tr "GET" url access_token);;
  lift (check_response response).

Definition get_repo_details (access_token repo_id : string) : M value :=
  _make_request ("/repositories/" ++ repo_id) access_token.

(** Lines 88-90: the body of the [try] of [get_repo_readme]. *)
Definition get_repo_readme_body (access_token full_name : string) : M string :=
  response <- _make_request ("/repos/" ++ full_name ++ "/readme") access_token;;
  content <- lift (Py.getitem response "content");;
  raw <- lift (b64decode E content);;
  lift (utf8_decode E raw).

Definition get_repo_readme (access_token full_name : string) : M string :=
  try_except (get_repo_readme_body access_token full_name)
    (fun _ => ret EmptyString).

Definition get_repo_languages (access_token full_name : string) : M value :=
  _make_request ("/repos/" ++ full_name ++ "/languages") access_token.

Definition format_commit (commit : value) : outcome value :=
  sha <~ Py.getitem commit "sha";;
  c1 <~ Py.getitem commit "commit";;
  message <~ Py.getitem c1 "message";;
  c2 <~ Py.getitem commit "commit";;
  a2 <~ Py.getitem c2 "author";;
  author <~ Py.getitem a2 "name";;
  c3 <~ Py.getitem commit "commit";;
  a3 <~ Py.getitem c3 "author";;
  date <~ Py.getitem a3 "date";;
  Ret (VDict [("sha", sha); ("message", message); ("author", author); ("date", date)]).

(** [get_repo_commits(access_token, full_name)], [limit] at its default 10. *)
Definition get_repo_commits (access_token full_name : string) : M value :=
  commits <- _make_request ("/repos/" ++ full_name ++ "/commits?per_page=10") access_token;;
  lift (items <~ Py.iter commits;;
        formatted_commits <~ omap format_commit items;;
        Ret (VList formatted_commits)).

Definition format_contributor (contributor : value) : outcome value :=
  login <~ Py.getitem contributor "login";;
  contributions <~ Py.getitem contributor "contributions";;
  avatar_url <~ Py.getitem contributor "avatar_url";;
  Ret (VDict [("login", login); ("contributions", contributions);
              ("avatar_url", avatar_url)]).

Definition get_repo_contributors (access_token full_name : string) : M value :=
  contributors <- _make_request ("/repos/" ++ full_name ++ "/contributors") access_token;;
  lift (top <~ Py.slice_to 10 contributors;;
        items <~ Py.iter top;;
        formatted_contributors <~ omap format_contributor items;;
        Ret (VList formatted_contributors)).

Definition get_repo_metadata (access_token full_name : string) : M value :=
  try_except
    (repo_name <- match nth_error (split "/" full_name) 1 with
                  | Some n => ret n
                  | None => raise (PyExc "IndexError" "list index out of range")
                  end;;
     repo_info <- get_repo_details access_token repo_name;;
     readme <- get_repo_readme access_token full_name;;
     languages <- get_repo_languages access_token full_name;;
     commits <- get_repo_commits access_token full_name;;
     contributors <- get_repo_contributors access_token full_name;;
     lift (name <~ Py.getitem repo_info "name";;
           full <~ Py.getitem repo_info "full_name";;
           description <~ Py.get repo_info "description" (VStr EmptyString);;
           url <~ Py.getitem repo_info "html_url";;
           language <~ Py.get repo_info "language" VNone;;
           stars <~ Py.getitem repo_info "stargazers_count";;
           forks <~ Py.getitem repo_info "forks_count";;
           Ret (VDict [("name", name); ("full_name", full);
                       ("description", description); ("url", url);
                       ("language", language); ("languages", languages);
                       ("stars", stars); ("forks", forks);
                       ("readme", VStr readme); ("commits", commits);
                       ("contributors", contributors)])))
    (fun e => raise (PyExc "Exception"
                       ("Failed to get repo metadata: " ++ Py.exn_str e))).

End WithEnv.
End GitHubService.

(* ------------------------------------------------------------------ *)
(** * [app/api/v1/webhooks.py] *)

Module Request.
(** The raw body and the headers as Starlette hands them over: names are
    matched without regard to case, values are [str]. *)
Record t : Type :=
  { body : bytes;
    headers : list (string * string) }.

(** [request.headers.get(name)]. *)
Fixpoint headers_get (name : string) (hs : list (string * string)) : option string :=
  match hs with
  | [] => None
  | (k, v) :: r => if lower k =? lower name then Some v else headers_get name r
  end.
End Request.

Section Webhooks.

Variable E : env.

(** Lines 22-26: ["sha256=" + hmac.new(...).hexdigest()]. *)
Definition expected_signature (request_body : bytes) (secret : string) : string :=
  "sha256=" ++ hex (Hashlib.hmac_sha256 secret request_body).

Definition verify_webhook_signature
    (request_body : bytes) (signature secret : string) : M bool :=
  emit (HmacSha256 secret request_body);;
  lift (Py.compare_digest (expected_signature request_body secret) signature).

Definition process_completed_project
    (repo : Repository.row) (access_token : string) : M unit :=
  try_except
    (metadata <- GitHubService.get_repo_metadata E access_token
                   (Repository.full_name repo);;
     tr <- get_trace;;
     emit (Summarize metadata "professional");;
     summary <- lift (summarize_repository E tr metadata "professional");;
     print ("Generated summary for " ++ Repository.full_name repo ++ ": " ++ summary))
    (fun e =>
       print ("Error processing completed project: " ++ Py.exn_str e);;
       raise e).

Definition signature_header (request : Request.t) : option string :=
  Request.headers_get "X-Hub-Signature-256" (Request.headers request).

(** Lines 40-42: the signature check. *)
Definition signature_gate (request : Request.t) : M unit :=
  let body := Request.body request in
  let signature := signature_header request in
  match signature with
  | Some sig =>
      if negb (sig =? EmptyString) then
        valid <- verify_webhook_signature body sig (WEBHOOK_SECRET E);;
        if negb valid then raise (HTTPException 401 "Invalid signature")
        else ret tt
      else ret tt
  | None => ret tt
  end.

(** Lines 83-87: the paths the commits touch. *)
Fixpoint extend_modified_files
    (modified_files : list value) (commits : list value) : outcome (list value) :=
  match commits with
  | [] => Ret modified_files
  | commit :: rest =>
      modified <~ Py.get commit "modified" (VList []);;
      ms <~ Py.iter modified;;
      added <~ Py.get commit "added" (VList []);;
      adds <~ Py.iter added;;
      extend_modified_files (modified_files ++ ms ++ adds)%list rest
  end.

Definition files_touched (payload : value) : outcome (list value) :=
  commits <~ Py.get payload "commits" (VList []);;
  commit_list <~ Py.iter commits;;
  extend_modified_files [] commit_list.

(** Line 89: [any("readme" in file.lower() for file in modified_files)]. *)
Fixpoint readme_touched (modified_files : list value) : outcome bool :=
  match modified_files with
  | [] => Ret false
  | file :: rest =>
      l <~ Py.lower file;;
      if contains "readme" l then Ret true else readme_touched rest
  end.

(** Line 107: ["Completed" in readme_content]. *)
Definition is_completed (readme_content : string) : bool :=
  contains "Completed" readme_content.

(** [repo.user]: the row of [users] the foreign key points to. *)
Definition repo_user (d : database) (repo : Repository.row) : option User.row :=
  match Repository.user_id repo with
  | Some uid => find (fun u => (User.id u =? uid)%Z) (users d)
  | None => None
  end.

Definition load_user (repo : Repository.row) : M (option User.row) :=
  emit (DbLoadUser (Repository.user_id repo));;
  d <- get_db;;
  ret (repo_user d repo).

(** Lines 96-113: the body of the [try]. *)
Definition completion_body (repo : Repository.row) (repo_full_name : value) : M value :=
  user <- load_user repo;;
  token <- match user with
           | Some u => ret (User.github_access_token u)
           | None => lift (Py.no_attribute VNone "github_access_token")
           end;;
  match token with
  | Some (String c r as encrypted) =>
      emit (DecryptToken encrypted);;
      access_token <- lift (decrypt_token E encrypted);;
      readme_content <- GitHubService.get_repo_readme E access_token
                          (Py.str (repr_container E) repo_full_name);;
      if negb (is_completed readme_content) then
        ret (VDict [("status", VStr "processed"); ("completed_keyword", VBool false)])
      else
        process_completed_project repo access_token;;
        ret (VDict [("status", VStr "processed");
                    ("action", VStr "summarization_triggered")])
  | _ => ret (VDict [("status", VStr "error"); ("reason", VStr "no github token")])
  end.

(** Lines 95-118: the [try] with its [except Exception]. *)
Definition completion_check (repo : Repository.row) (repo_full_name : value) : M value :=
  try_except (completion_body repo repo_full_name)
    (fun e =>
       print ("Error processing webhook: " ++ Py.exn_str e);;
       ret (VDict [("status", VStr "error"); ("error", VStr (Py.exn_str e))])).

(** Lines 73-80: the event log entry. *)
Definition log_webhook_event
    (repo : Repository.row) (event_type : string) (payload : value) : M unit :=
  d <- get_db;;
  tr <- get_trace;;
  let webhook_event :=
    {| WebhookEvent.id := webhook_events_seq d;
       WebhookEvent.repository_id := Repository.id repo;
       WebhookEvent.event_type := event_type;
       WebhookEvent.payload := Json.dumps payload;
       WebhookEvent.processed := false;
       WebhookEvent.created_at := utcnow E tr |} in
  put_db {| users := users d;
            repositories := repositories d;
            webhook_events := (webhook_events d ++ [webhook_event])%list;
            webhook_events_seq := (webhook_events_seq d + 1)%Z |};;
  emit (DbCommit webhook_event).

(** Lines 65-68: the first monitored repository with that GitHub id. *)
Definition monitored_repository
    (d : database) (repo_github_id : string) : option Repository.row :=
  find (fun r => (Repository.github_repo_id r =? repo_github_id)
                 && Repository.is_monitored r)
       (repositories d).

Definition find_monitored (repo_github_id : string) : M (option Repository.row) :=
  emit (DbQueryRepository repo_github_id);;
  d <- get_db;;
  ret (monitored_repository d repo_github_id).

(** Lines 82-118: what follows the event log entry. *)
Definition readme_stage
    (repo : Repository.row) (repo_full_name payload : value) : M value :=
  modified_files <- lift (files_touched payload);;
  readme_modified <- lift (readme_touched modified_files);;
  if negb readme_modified then
    ret (VDict [("status", VStr "processed"); ("readme_modified", VBool false)])
  else completion_check repo repo_full_name.

(** Lines 56-118, for a push event. *)
Definition handle_push (event_type : string) (payload : value) : M value :=
  repo_data <- lift (Py.get payload "repository" (VDict []));;
  repo_full_name <- lift (Py.get repo_data "full_name" VNone);;
  id <- lift (Py.get repo_data "id" (VStr EmptyString));;
  let repo_github_id := Py.str (repr_container E) id in
  if negb (Py.truthy repo_full_name) || (repo_github_id =? EmptyString) then
    raise (HTTPException 400 "Missing repository information")
  else
    found <- find_monitored repo_github_id;;
    match found with
    | None =>
        ret (VDict [("status", VStr "ignored");
                    ("reason", VStr "repository not monitored")])
    | Some repo =>
        log_webhook_event repo event_type payload;;
        readme_stage repo repo_full_name payload
    end.

(** Lines 44-118: everything after the signature check. *)
Definition handle_payload (request : Request.t) : M value :=
  payload <- try_except_class "JSONDecodeError"
               (text <- lift (utf8_decode E (Request.body request));;
                lift (json_loads E text))
               (raise (HTTPException 400 "Invalid JSON payload"));;
  match Request.headers_get "X-GitHub-Event" (Request.headers request) with
  | Some event_type =>
      if event_type =? "push" then handle_push event_type payload
      else ret (VDict [("status", VStr "ignored"); ("event", VStr event_type)])
  | None => ret (VDict [("status", VStr "ignored"); ("event", VNone)])
  end.

Definition github_webhook (request : Request.t) : M value :=
  signature_gate request;;
  handle_payload request.

End Webhooks.

(** The status line FastAPI answers with. *)
Definition status_code (o : outcome value) : Z :=
  match o with
  | Ret _ => 200
  | Raise (HTTPException c _) => c
  | Raise (PyExc _ _) => 500
  end.

(* ------------------------------------------------------------------ *)
(** * Vocabulary of the statements *)

Section Statements.

Variable E : env.

(** The events the signature check leaves in the trace. *)
Definition gate_events (request : Request.t) : list event :=
  match signature_header request with
  | Some (String _ _) => [HmacSha256 (WEBHOOK_SECRET E) (Request.body request)]
  | _ => []
  end.

(** The request gets through lines 40-42. *)
Definition passes_signature (request : Request.t) : Prop :=
  match signature_header request with
  | Some (String c r) =>
      String c r = expected_signature (Request.body request) (WEBHOOK_SECRET E)
  | _ => True
  end.

(** The body decodes and parses to [payload]. *)
Definition parses_to (request : Request.t) (payload : value) : Prop :=
  exists text,
    utf8_decode E (Request.body request) = Ret text /\ json_loads E text = Ret payload.

Definition is_push (request : Request.t) : Prop :=
  Request.headers_get "X-GitHub-Event" (Request.headers request) = Some "push".

(** An authenticated, well-formed push event: the handler gets to line 56
    with [payload]. *)
Definition push_event (request : Request.t) (payload : value) : Prop :=
  passes_signature request /\ parses_to request payload /\ is_push request.

(** Lines 57-62 let the event through with these two values. *)
Definition repository_info
    (payload repo_full_name : value) (repo_github_id : string) : Prop :=
  exists repo_data id,
    Py.get payload "repository" (VDict []) = Ret repo_data /\
    Py.get repo_data "full_name" VNone = Ret repo_full_name /\
    Py.get repo_data "id" (VStr EmptyString) = Ret id /\
    Py.truthy repo_full_name = true /\
    repo_github_id = Py.str (repr_container E) id /\
    repo_github_id <> EmptyString.

(** A push event for the monitored repository [repo]. *)
Definition accepted_push
    (request : Request.t) (d : database) (payload repo_full_name : value)
    (repo_github_id : string) (repo : Repository.row) : Prop :=
  push_event request payload /\
  repository_info payload repo_full_name repo_github_id /\
  monitored_repository d repo_github_id = Some repo.

(** The trace once the repository has been looked up. *)
Definition lookup_trace
    (request : Request.t) (st : state) (repo_github_id : string) : list event :=
  (trace st ++ gate_events request ++ [DbQueryRepository repo_github_id])%list.

(** The row lines 74-80 write. *)
Definition logged_row
    (request : Request.t) (st : state) (repo_github_id : string)
    (repo : Repository.row) (payload : value) : WebhookEvent.row :=
  {| WebhookEvent.id := webhook_events_seq (db st);
     WebhookEvent.repository_id := Repository.id repo;
     WebhookEvent.event_type := "push";
     WebhookEvent.payload := Json.dumps payload;
     WebhookEvent.processed := false;
     WebhookEvent.created_at := utcnow E (lookup_trace request st repo_github_id) |}.

(** The state after line 80. *)
Definition logged_state
    (request : Request.t) (st : state) (repo_github_id : string)
    (repo : Repository.row) (payload : value) : state :=
  let row := logged_row request st repo_github_id repo payload in
  {| db := {| users := users (db st);
              repositories := repositories (db st);
              webhook_events := (webhook_events (db st) ++ [row])%list;
              webhook_events_seq := (webhook_events_seq (db st) + 1)%Z |};
     trace := (lookup_trace request st repo_github_id ++ [DbCommit row])%list |}.

Definition readme_url (full_name : string) : string :=
  GITHUB_API_URL E ++ "/repos/" ++ full_name ++ "/readme".

(** What lines 88-90 of [get_repo_readme] come to when the trace is [tr]. *)
Definition readme_fetch (tr : list event) (access_token full_name : string)
    : outcome string :=
  response <~ http_send E tr "GET" (readme_url full_name) access_token;;
  checked <~ GitHubService.check_response response;;
  content <~ Py.getitem checked "content";;
  raw <~ b64decode E content;;
  utf8_decode E raw.

(** The README as [get_repo_readme] hands it over. *)
Definition readme_text (tr : list event) (access_token full_name : string) : string :=
  match readme_fetch tr access_token full_name with
  | Ret text => text
  | Raise _ => EmptyString
  end.

(** The owner of [repo] has the stored token [encrypted], which decrypts
    to [access_token]. *)
Definition token_ready
    (d : database) (repo : Repository.row) (encrypted access_token : string) : Prop :=
  exists u,
    repo_user d repo = Some u /\
    User.github_access_token u = Some encrypted /\
    encrypted <> EmptyString /\
    decrypt_token E encrypted = Ret access_token.

(** The commits of [payload] touch a README: lines 83-89 end with
    [readme_modified = b]. *)
Definition readme_modified (payload : value) (b : bool) : Prop :=
  exists modified_files,
    files_touched payload = Ret modified_files /\
    readme_touched modified_files = Ret b.

(** The state in which the README is requested. *)
Definition fetching_state
    (request : Request.t) (st : state) (repo_github_id : string)
    (repo : Repository.row) (payload : value) (encrypted : string) : state :=
  let s1 := logged_state request st repo_github_id repo payload in
  {| db := db s1;
     trace := (trace s1 ++ [DbLoadUser (Repository.user_id repo);
                            DecryptToken encrypted])%list |}.

End Statements.

(** From [s] to [s'] the database moves along [R] and the trace grows by
    events that satisfy [P]. *)
Definition step (R : database -> database -> Prop) (P : event -> Prop)
    (s s' : state) : Prop :=
  R (db s) (db s') /\ exists evs, trace s' = (trace s ++ evs)%list /\ Forall P evs.

(** Every run of [m] is such a step. *)
Definition steps {A} (R : database -> database -> Prop) (P : event -> Prop)
    (m : M A) : Prop :=
  forall s, step R P s (snd (m s)).

(** A computation that leaves the database alone and emits only events
    that satisfy [P]. *)
Definition quiet {A} (P : event -> Prop) (m : M A) : Prop := steps eq P m.

(** The event log only grows, by rows that are not marked processed; the
    other tables stay. *)
Definition log_grows (d d' : database) : Prop :=
  users d' = users d /\ repositories d' = repositories d /\
  exists rows,
    webhook_events d' = (webhook_events d ++ rows)%list /\
    Forall (fun r => WebhookEvent.processed r = false) rows.

Definition is_network_call (e : event) : Prop :=
  match e with
  | HttpRequest _ _ _ => True
  | _ => False
  end.

Definition is_collaborator_call (e : event) : Prop :=
  match e with
  | HttpRequest _ _ _ | DecryptToken _ | Summarize _ _ => True
  | _ => False
  end.

Definition is_hmac (e : event) : Prop :=
  match e with
  | HmacSha256 _ _ => True
  | _ => False
  end.

(** What lines 82-118 may do: read the owner, decrypt, call GitHub,
    summarise, print. *)
Definition is_downstream (e : event) : Prop :=
  match e with
  | DbLoadUser _ | DecryptToken _ | HttpRequest _ _ _ | Summarize _ _ | Print _ => True
  | _ => False
  end.

Definition is_db_write (e : event) : Prop :=
  match e with
  | DbCommit _ => True
  | _ => False
  end.

(** ** The payload as the specification reads it *)










(** [env] with another webhook secret. *)
Definition with_secret (E : env) (secret : string) : env :=
  {| WEBHOOK_SECRET := secret;
     GITHUB_API_URL := GITHUB_API_URL E;
     utf8_decode := utf8_decode E;
     json_loads := json_loads E;
     repr_container := repr_container E;
     decrypt_token := decrypt_token E;
     b64decode := b64decode E;
     http_send := http_send E;
     summarize_repository := summarize_repository E;
     utcnow := utcnow E |}.

(* ------------------------------------------------------------------ *)
(** * A concrete deployment, for the worked examples *)

Module Scenario.

Definition q (s : string) : string := Json.dquote ++ s ++ Json.dquote.

(** A push that modifies [README.md] in repository 123. *)
Definition payload_readme : value :=
  VDict [("repository", VDict [("id", VInt 123); ("full_name", VStr "u/r")]);
         ("commits", VList [VDict [("modified", VList [VStr "README.md"])];
                            VDict [("added", VList [VStr "src/a.go"])]])].

(** A push that leaves the README alone. *)
Definition payload_source : value :=
  VDict [("repository", VDict [("id", VInt 123); ("full_name", VStr "u/r")]);
         ("commits", VList [VDict [("modified", VList [VStr "src/a.go"])]])].

(** A push with no [full_name]. *)
Definition payload_anonymous : value :=
  VDict [("repository", VDict [("id", VInt 123)])].

(** [payload_source] as a client may send it, without blanks. *)
Definition compact_body : bytes :=
  "{" ++ q "repository" ++ ":{" ++ q "id" ++ ":123," ++ q "full_name" ++ ":"
      ++ q "u/r" ++ "}," ++ q "commits" ++ ":[{" ++ q "modified" ++ ":["
      ++ q "src/a.go" ++ "]}]}".

(** The parser, on the bodies used below. *)
Definition loads (text : string) : outcome value :=
  if text =? Json.dumps payload_readme then Ret payload_readme
  else if text =? Json.dumps payload_source then Ret payload_source
  else if text =? compact_body then Ret payload_source
  else if text =? Json.dumps payload_anonymous then Ret payload_anonymous
  else Raise (PyExc "JSONDecodeError" "Expecting value: line 1 column 1 (char 0)").

Definition readme_response (text : string) : Response.t :=
  {| Response.status_code := 200;
     Response.text := text;
     Response.content := text;
     Response.raise_for_status := None;
     Response.json := Ret (VDict [("content", VStr text)]) |}.

(** The stand-ins below keep the README as plain text and mark an
    encrypted token by a prefix. *)
Definition decode_content (v : value) : outcome bytes :=
  match v with
  | VStr s => Ret s
  | _ => Raise (PyExc "TypeError"
                  "argument should be a bytes-like object or ASCII string")
  end.

Definition decrypt (encrypted : string) : outcome string :=
  if prefix "enc:" encrypted then Ret (substring 4 (String.length encrypted - 4) encrypted)
  else Raise (PyExc "InvalidToken" EmptyString).

Definition deployment
    (http : string -> outcome Response.t) : env :=
  {| WEBHOOK_SECRET := "your-webhook-secret";
     GITHUB_API_URL := "https://api.github.com";
     utf8_decode := fun b => Ret b;
     json_loads := loads;
     repr_container := fun _ => "[]";
     decrypt_token := decrypt;
     b64decode := decode_content;
     http_send := fun _ _ url _ => http url;
     summarize_repository := fun _ _ _ => Ret "Just finished r.";
     utcnow := fun tr => Z.of_nat (List.length tr) |}.

(** GitHub serves a README that is still in progress. *)
Definition E_draft : env :=
  deployment (fun _ => Ret (readme_response "# r: work in progress, not completed")).

(** GitHub cannot be reached. *)
Definition E_offline : env :=
  deployment (fun _ => Raise (PyExc "ConnectError" "All connection attempts failed")).

(** GitHub serves a README that announces completion; every other
    endpoint answers 404. *)
Definition E_done : env :=
  deployment (fun url =>
    if contains "/readme" url then Ret (readme_response "# r: Project Completed")
    else Ret {| Response.status_code := 404;
                Response.text := "Not Found";
                Response.content := "Not Found";
                Response.raise_for_status :=
                  Some (PyExc "HTTPStatusError" "Client error '404 Not Found'");
                Response.json := Ret VNone |}).

Definition json_response (v : value) : Response.t :=
  {| Response.status_code := 200;
     Response.text := Json.dumps v;
     Response.content := Json.dumps v;
     Response.raise_for_status := None;
     Response.json := Ret v |}.

(** GitHub answers every request of the pipeline. *)
Definition E_live : env :=
  deployment (fun url =>
    if contains "/readme" url then Ret (readme_response "# r: Project Completed")
    else if contains "/languages" url then Ret (json_response (VDict [("Go", VInt 100)]))
    else if contains "/commits" url then Ret (json_response (VList []))
    else if contains "/contributors" url then Ret (json_response (VList []))
    else Ret (json_response
                (VDict [("name", VStr "r"); ("full_name", VStr "u/r");
                        ("html_url", VStr "https://github.com/u/r");
                        ("stargazers_count", VInt 0); ("forks_count", VInt 0)]))).

Definition monitored : Repository.row :=
  {| Repository.id := 7;
     Repository.user_id := Some 1%Z;
     Repository.github_repo_id := "123";
     Repository.full_name := "u/r";
     Repository.is_monitored := true |}.

Definition db_with (token : option string) (is_monitored : bool) : database :=
  {| users := [{| User.id := 1; User.github_access_token := token |}];
     repositories :=
       [{| Repository.id := 7;
           Repository.user_id := Some 1%Z;
           Repository.github_repo_id := "123";
           Repository.full_name := "u/r";
           Repository.is_monitored := is_monitored |}];
     webhook_events := [];
     webhook_events_seq := 1 |}.

Definition start (d : database) : state := {| db := d; trace := [] |}.

(** A monitored repository whose owner has a usable token. *)
Definition st_ready : state := start (db_with (Some "enc:ghp_abc") true).

(** The same, with a stored token that does not decrypt. *)
Definition st_corrupt : state := start (db_with (Some "garbage") true).

(** The repository is known but not monitored. *)
Definition st_unmonitored : state := start (db_with (Some "enc:ghp_abc") false).

(** An unsigned push delivery. *)
Definition unsigned (body : bytes) : Request.t :=
  {| Request.body := body;
     Request.headers := [("content-type", "application/json");
                         ("x-github-event", "push")] |}.

(** A push delivery that carries a signature header. *)
Definition signed (body : bytes) (signature : string) : Request.t :=
  {| Request.body := body;
     Request.headers := [("x-hub-signature-256", signature);
                         ("x-github-event", "push")] |}.

End Scenario.

(* ------------------------------------------------------------------ *)
(** * The rest of [app/services/github_service.py] *)

(** [s.replace(old, new)]: every occurrence of [old], from the left and
    without overlap; [skip] counts the bytes of an occurrence still to be
    dropped. *)
Fixpoint replace_aux (old new : string) (skip : nat) (s : string) : string :=
  match s with
  | EmptyString => EmptyString
  | String c r =>
      match skip with
      | S k => replace_aux old new k r
      | O =>
          if prefix old s then new ++ replace_aux old new (String.length old - 1) r
          else String c (replace_aux old new 0 r)
      end
  end.

(** With an empty [old], [new] goes before every character and at the
    end. *)
Fixpoint intersperse (new s : string) : string :=
  match s with
  | EmptyString => new
  | String c r => new ++ String c (intersperse new r)
  end.

Definition replace (old new s : string) : string :=
  match old with
  | EmptyString => intersperse new s
  | _ => replace_aux old new 0 s
  end.

(** [d[k] = v] on a [dict]: in place when the key is there, at the end
    otherwise. *)
Fixpoint set_entry (k : string) (v : value) (d : list (string * value))
    : list (string * value) :=
  match d with
  | [] => [(k, v)]
  | (k', v') :: r => if k' =? k then (k, v) :: r else (k', v') :: set_entry k v r
  end.

Module GitHubApi.
Section WithEnv.

Variable E : env.

(** What a POST sends ([json=data]) is answered by [http_post]; the
    webhook address is derived from [settings.GITHUB_REDIRECT_URI]. *)
Variable http_post : list event -> string -> string -> option value -> outcome Response.t.
Variable GITHUB_REDIRECT_URI : string.

(** Lines 16-40: [_make_request] with all its arguments. *)
Definition _make_request
    (endpoint access_token method : string) (data : option value) : M value :=
  let url := GITHUB_API_URL E ++ endpoint in
  tr <- get_trace;;
  response <-
    (if method =? "GET" then
       emit (HttpRequest "GET" url access_token);;
       lift (http_send E tr "GET" url access_token)
     else if method =? "POST" then
       emit (HttpRequest "POST" url access_token);;
       lift (http_post tr url access_token data)
     else if method =? "DELETE" then
       emit (HttpRequest "DELETE" url access_token);;
       lift (http_send E tr "DELETE" url access_token)
     else raise (PyExc "ValueError" ("Unsupported method: " ++ method)));;
  lift (GitHubService.check_response response).

(** Line 48. *)
Definition repos_endpoint (page : Z) : string :=
  "/user/repos?page=" ++ of_Z page ++ "&per_page=100&sort=updated&affiliation=owner".

(** Lines 47-59, the [while True] loop; [fuel] bounds the number of
    turns. *)
Fixpoint fetch_pages
    (fuel : nat) (access_token : string) (page : Z) (repos : list value)
    : M (list value) :=
  match fuel with
  | O => ret repos
  | S fuel' =>
      page_repos <- GitHubService._make_request E (repos_endpoint page) access_token;;
      if negb (Py.truthy page_repos) then ret repos
      else
        items <- lift (Py.iter page_repos);;
        let repos := (repos ++ items)%list in
        if (1000 <=? List.length repos)%nat then ret repos
        else fetch_pages fuel' access_token (page + 1)%Z repos
  end.

(** Lines 64-75. *)
Definition format_repo (repo : value) : outcome value :=
  id <~ Py.getitem repo "id";;
  name <~ Py.getitem repo "name";;
  full_name <~ Py.getitem repo "full_name";;
  description <~ Py.get repo "description" VNone;;
  url <~ Py.getitem repo "html_url";;
  private <~ Py.getitem repo "private";;
  language <~ Py.get repo "language" VNone;;
  stars <~ Py.getitem repo "stargazers_count";;
  forks <~ Py.getitem repo "forks_count";;
  updated_at <~ Py.getitem repo "updated_at";;
  Ret (VDict [("id", id); ("name", name); ("full_name", full_name);
              ("description", description); ("url", url); ("private", private);
              ("language", language); ("stars", stars); ("forks", forks);
              ("updated_at", updated_at)]).

(** A thousand turns are enough: see [fetch_pages_enough]. *)
Definition get_user_repos (access_token : string) : M (list value) :=
  repos <- fetch_pages 1000 access_token 1 [];;
  lift (omap format_repo repos).

(** Lines 133-142. *)
Definition webhook_config : value :=
  VDict [("name", VStr "web");
         ("active", VBool true);
         ("events", VList [VStr "push"; VStr "pull_request"]);
         ("config",
          VDict [("url", VStr (replace "/auth/github/callback" "/webhooks/github"
                                 GITHUB_REDIRECT_URI));
                 ("content_type", VStr "json");
                 ("secret", VStr (WEBHOOK_SECRET E))])].


Definition delete_webhook (access_token full_name webhook_id : string) : M unit :=
  _make_request ("/repos/" ++ full_name ++ "/hooks/" ++ webhook_id) access_token
    "DELETE" None;;
  ret tt.

End WithEnv.
End GitHubApi.

(* ------------------------------------------------------------------ *)
(** * [app/api/v1/repos.py]: listing and un-monitoring *)

Module Repos.
Section WithEnv.

Variable E : env.
Variable http_post : list event -> string -> string -> option value -> outcome Response.t.
Variable GITHUB_REDIRECT_URI : string.

(** [db.query(User).filter(User.id == user_id).first()]. *)
Definition query_user (user_id : Z) : M (option User.row) :=
  emit (DbLoadUser (Some user_id));;
  d <- get_db;;
  ret (find (fun u => (User.id u =? user_id)%Z) (users d)).

(** [not user.github_access_token]. *)
Definition no_token (user : User.row) : bool :=
  match User.github_access_token user with
  | Some (String _ _) => false
  | _ => true
  end.

Definition stored_token (user : User.row) : string :=
  match User.github_access_token user with
  | Some t => t
  | None => EmptyString
  end.

(** [user.repos]: the rows whose foreign key is the user. *)
Definition user_repos (d : database) (user : User.row) : list Repository.row :=
  filter (fun r => match Repository.user_id r with
                   | Some uid => (uid =? User.id user)%Z
                   | None => false
                   end)
         (repositories d).

(** Line 35: the set of the GitHub ids of the user's monitored rows. *)
Definition monitored_repo_ids (d : database) (user : User.row) : list string :=
  map Repository.github_repo_id (filter Repository.is_monitored (user_repos d user)).

(** Line 39: [repo["is_monitored"] = str(repo["id"]) in monitored_repo_ids]. *)
Definition mark_monitored (ids : list string) (repo : value) : outcome value :=
  id <~ Py.getitem repo "id";;
  match repo with
  | VDict d =>
      Ret (VDict (set_entry "is_monitored"
                    (VBool (existsb (String.eqb (Py.str (repr_container E) id)) ids)) d))
  | _ =>
      Raise (PyExc "TypeError"
               ("'" ++ Py.type_name repo ++ "' object does not support item assignment"))
  end.

(** Lines 17-44. *)
Definition list_repositories (user_id : Z) : M value :=
  found <- query_user user_id;;
  match found with
  | None => raise (HTTPException 404 "User not found")
  | Some user =>
      if no_token user then raise (HTTPException 400 "GitHub not connected")
      else
        try_except
          (emit (DecryptToken (stored_token user));;
           access_token <- lift (decrypt_token E (stored_token user));;
           repos <- GitHubApi.get_user_repos E access_token;;
           d <- get_db;;
           marked <- lift (omap (mark_monitored (monitored_repo_ids d user)) repos);;
           ret (VDict [("repositories", VList marked)]))
          (fun e =>
             raise (HTTPException 400
                      ("Failed to fetch repositories: " ++ Py.exn_str e)))
  end.

(** Lines 136-154; the answer is the list under "repositories". *)
Definition get_monitored_repositories (user_id : Z) : M (list Repository.row) :=
  found <- query_user user_id;;
  match found with
  | None => raise (HTTPException 404 "User not found")
  | Some user =>
      d <- get_db;;
      ret (filter (fun r => match Repository.user_id r with
                            | Some uid => (uid =? User.id user)%Z
                            | None => false
                            end && Repository.is_monitored r)
                  (repositories d))
  end.

(** The tables together with the column [webhook_id] of [repositories],
    by primary key. *)
Record store : Type :=
  { app : state;
    webhook_id : Z -> option string }.

(** [repo.is_monitored = False], written by primary key. *)
Definition unmonitor (id : Z) (d : database) : database :=
  {| users := users d;
     repositories :=
       map (fun r =>
              if (Repository.id r =? id)%Z then
                {| Repository.id := Repository.id r;
                   Repository.user_id := Repository.user_id r;
                   Repository.github_repo_id := Repository.github_repo_id r;
                   Repository.full_name := Repository.full_name r;
                   Repository.is_monitored := false |}
              else r)
           (repositories d);
     webhook_events := webhook_events d;
     webhook_events_seq := webhook_events_seq d |}.

(** [db.query(Repository).filter(Repository.user_id == user.id,
    Repository.github_repo_id == repo_id).first()]. *)
Definition query_repository (d : database) (user : User.row) (repo_id : string)
    : option Repository.row :=
  find (fun r => match Repository.user_id r with
                 | Some uid => (uid =? User.id user)%Z
                 | None => false
                 end && (Repository.github_repo_id r =? repo_id))
       (repositories d).

(** Lines 123-128: the webhook is removed when there is one and a token;
    a failure is passed over. *)
Definition remove_webhook
    (user : User.row) (repo : Repository.row) (hook : option string) : M unit :=
  match hook with
  | Some (String _ _ as hook_id) =>
      if no_token user then ret tt
      else
        try_except
          (emit (DecryptToken (stored_token user));;
           access_token <- lift (decrypt_token E (stored_token user));;
           GitHubApi.delete_webhook E http_post access_token
             (Repository.full_name repo) hook_id)
          (fun _ => ret tt)
  | _ => ret tt
  end.

(** Lines 105-133. *)
Definition stop_monitoring_repository (repo_id : string) (user_id : Z) (s : store)
    : outcome value * store :=
  match query_user user_id (app s) with
  | (Raise e, s1) => (Raise e, {| app := s1; webhook_id := webhook_id s |})
  | (Ret None, s1) =>
      (Raise (HTTPException 404 "User not found"),
       {| app := s1; webhook_id := webhook_id s |})
  | (Ret (Some user), s1) =>
      match query_repository (db s1) user repo_id with
      | None =>
          (Raise (HTTPException 404 "Repository not found"),
           {| app := s1; webhook_id := webhook_id s |})
      | Some repo =>
          match remove_webhook user repo (webhook_id s (Repository.id repo)) s1 with
          | (Raise e, s2) => (Raise e, {| app := s2; webhook_id := webhook_id s |})
          | (Ret _, s2) =>
              (Ret (VDict [("message", VStr "Repository monitoring disabled")]),
               {| app := {| db := unmonitor (Repository.id repo) (db s2);
                            trace := trace s2 |};
                  webhook_id := fun id => if (id =? Repository.id repo)%Z then None
                                          else webhook_id s id |})
          end
      end
  end.

End WithEnv.
End Repos.

(* ------------------------------------------------------------------ *)
(** * Vocabulary of the further statements *)

(** Every value [m] returns satisfies [P]. *)
Definition returns {A} (P : A -> Prop) (m : M A) : Prop :=
  forall s a s', m s = (Ret a, s') -> P a.

(** The "status" entry of an answer. *)
Definition answer_status (v : value) : option value :=
  match v with
  | VDict d => Py.lookup "status" d
  | _ => None
  end.

(** What a request comes to when the trace is [tr]. *)
Definition request_result (E : env) (tr : list event) (endpoint access_token : string)
    : outcome value :=
  response <~ http_send E tr "GET" (GITHUB_API_URL E ++ endpoint) access_token;;
  GitHubService.check_response response.

(** The request for [endpoint]. *)
Definition get_request (E : env) (endpoint access_token : string) : event :=
  HttpRequest "GET" (GITHUB_API_URL E ++ endpoint) access_token.

(** The five requests of [get_repo_metadata], for the part [segment] of
    the name. *)
Definition metadata_requests (E : env) (access_token full_name segment : string)
    : list event :=
  [get_request E ("/repositories/" ++ segment) access_token;
   get_request E ("/repos/" ++ full_name ++ "/readme") access_token;
   get_request E ("/repos/" ++ full_name ++ "/languages") access_token;
   get_request E ("/repos/" ++ full_name ++ "/commits?per_page=10") access_token;
   get_request E ("/repos/" ++ full_name ++ "/contributors") access_token].

(** The request for page [page] of the user's repositories. *)
Definition page_request (E : env) (access_token : string) (page : nat) : event :=
  get_request E (GitHubApi.repos_endpoint (Z.of_nat page)) access_token.

(** GitHub honours [per_page=100]: no answer holds more than a hundred
    items. *)
Definition page_size_honoured (E : env) : Prop :=
  forall tr endpoint access_token v items,
    request_result E tr endpoint access_token = Ret v ->
    Py.iter v = Ret items ->
    (List.length items <= 100)%nat.

(** The entry [k] of the "config" of a hook description. *)
Definition config_entry (k : string) (hook : value) : outcome value :=
  config <~ Py.getitem hook "config";;
  Py.getitem config k.



(** The user [user_id] has a monitored row for the GitHub id
    [github_repo_id]. *)
Definition monitors (d : database) (user_id : Z) (github_repo_id : string) : Prop :=
  exists row,
    In row (repositories d) /\
    Repository.user_id row = Some user_id /\
    Repository.is_monitored row = true /\
    Repository.github_repo_id row = github_repo_id.

(** The row of [users] with this primary key. *)
Definition user_row (d : database) (user_id : Z) : option User.row :=
  find (fun u => (User.id u =? user_id)%Z) (users d).

(** The request that removes the hook [hook_id] of [full_name]. *)
Definition unhook_request (E : env) (access_token full_name hook_id : string) : event :=
  HttpRequest "DELETE"
    (GITHUB_API_URL E ++ "/repos/" ++ full_name ++ "/hooks/" ++ hook_id) access_token.

(** The answer of the webhook handler to a push it does not follow. *)
Definition not_monitored : value :=
  VDict [("status", VStr "ignored"); ("reason", VStr "repository not monitored")].

(** No two rows of [repositories] have the same primary key, nor the
    same [github_repo_id] (the column is declared unique). *)
Definition repositories_keyed (d : database) : Prop :=
  NoDup (map Repository.id (repositories d)) /\
  NoDup (map Repository.github_repo_id (repositories d)).

(* ------------------------------------------------------------------ *)
(** * Further deployments, for the worked examples *)

Module Cases.

(** A delivery of another event. *)
Definition delivery (event_type : string) (body : bytes) : Request.t :=
  {| Request.body := body;
     Request.headers := [("x-github-event", event_type)] |}.

(** A monitored repository that has lost its owner. *)
Definition st_orphan : state :=
  Scenario.start
    {| users := [];
       repositories :=
         [{| Repository.id := 7;
             Repository.user_id := None;
             Repository.github_repo_id := "123";
             Repository.full_name := "u/r";
             Repository.is_monitored := true |}];
       webhook_events := [];
       webhook_events_seq := 1 |}.

(** The owner never connected GitHub. *)
Definition st_no_token : state := Scenario.start (Scenario.db_with None true).

(** The bytes of the body are not UTF-8. *)
Definition E_latin : env :=
  {| WEBHOOK_SECRET := WEBHOOK_SECRET Scenario.E_live;
     GITHUB_API_URL := GITHUB_API_URL Scenario.E_live;
     utf8_decode :=
       fun _ => Raise (PyExc "UnicodeDecodeError"
                         "'utf-8' codec can't decode byte 0xe9 in position 0");
     json_loads := json_loads Scenario.E_live;
     repr_container := repr_container Scenario.E_live;
     decrypt_token := decrypt_token Scenario.E_live;
     b64decode := b64decode Scenario.E_live;
     http_send := http_send Scenario.E_live;
     summarize_repository := summarize_repository Scenario.E_live;
     utcnow := utcnow Scenario.E_live |}.

Definition repo_a : value :=
  VDict [("id", VInt 123); ("name", VStr "r"); ("full_name", VStr "u/r");
         ("description", VNone); ("html_url", VStr "https://github.com/u/r");
         ("private", VBool false); ("language", VStr "Go");
         ("stargazers_count", VInt 3); ("forks_count", VInt 0);
         ("updated_at", VStr "2024-05-01T10:00:00Z")].

Definition repo_b : value :=
  VDict [("id", VInt 456); ("name", VStr "q"); ("full_name", VStr "u/q");
         ("html_url", VStr "https://github.com/u/q");
         ("private", VBool true);
         ("stargazers_count", VInt 0); ("forks_count", VInt 0);
         ("updated_at", VStr "2024-04-01T10:00:00Z")].

(** What [get_user_repos] makes of them. *)
Definition formatted_a : list (string * value) :=
  [("id", VInt 123); ("name", VStr "r"); ("full_name", VStr "u/r");
   ("description", VNone); ("url", VStr "https://github.com/u/r");
   ("private", VBool false); ("language", VStr "Go");
   ("stars", VInt 3); ("forks", VInt 0);
   ("updated_at", VStr "2024-05-01T10:00:00Z")].

Definition formatted_b : list (string * value) :=
  [("id", VInt 456); ("name", VStr "q"); ("full_name", VStr "u/q");
   ("description", VNone); ("url", VStr "https://github.com/u/q");
   ("private", VBool true); ("language", VNone);
   ("stars", VInt 0); ("forks", VInt 0);
   ("updated_at", VStr "2024-04-01T10:00:00Z")].

(** The account has two repositories, both on the first page. *)
Definition E_account : env :=
  Scenario.deployment (fun url =>
    if contains "page=1&" url then
      Ret (Scenario.json_response (VList [repo_a; repo_b]))
    else Ret (Scenario.json_response (VList []))).

(** The tables of [Scenario.st_ready], with the hook 4711 on the row. *)
Definition hooked (s : state) : Repos.store :=
  {| Repos.app := s;
     Repos.webhook_id := fun id => if (id =? 7)%Z then Some "4711" else None |}.

(** A second user, who owns nothing. *)
Definition st_shared : state :=
  Scenario.start
    {| users := [{| User.id := 1; User.github_access_token := Some "enc:ghp_abc" |};
                 {| User.id := 2; User.github_access_token := Some "enc:ghp_xyz" |}];
       repositories := [Scenario.monitored];
       webhook_events := [];
       webhook_events_seq := 1 |}.

(** [settings.GITHUB_REDIRECT_URI] as [config.py] has it. *)
Definition redirect_uri : string :=
  "https://your-backend.railway.app/api/v1/auth/github/callback".

(** GitHub answers a registration with the new hook. *)
Definition post_hook (tr : list event) (url access_token : string) (data : option value)
    : outcome Response.t :=
  Ret (Scenario.json_response (VDict [("id", VInt 4711); ("active", VBool true)])).

(** A contributor of [u/r]. *)
Definition contributor (n : nat) : value :=
  VDict [("login", VStr ("dev" ++ of_Z (Z.of_nat n)));
         ("contributions", VInt (Z.of_nat (100 - n)));
         ("avatar_url", VStr "https://avatars.githubusercontent.com/u/1");
         ("type", VStr "User")].

(** GitHub lists twelve contributors. *)
Definition E_team : env :=
  Scenario.deployment (fun _ =>
    Ret (Scenario.json_response (VList (map contributor (seq 1 12))))).

End Cases.

(* ------------------------------------------------------------------ *)
(** * Vocabulary of the statements on failures *)

(** The handler answers a failure [e] softly: status 200, the body
    [{status: "error", error: str(e)}], and the event log still ends with
    [row]. *)
Definition answered_softly
    (E : env) (request : Request.t) (st : state) (row : WebhookEvent.row) (e : exn)
    : Prop :=
  fst (github_webhook E request st)
  = Ret (VDict [("status", VStr "error"); ("error", VStr (Py.exn_str e))]) /\
  status_code (fst (github_webhook E request st)) = 200%Z /\
  webhook_events (db (snd (github_webhook E request st)))
  = (webhook_events (db st) ++ [row])%list.

(** The state in which the metadata are requested: the README has been
    fetched. *)
Definition orchestrating_state
    (E : env) (request : Request.t) (st : state) (repo_github_id : string)
    (repo : Repository.row) (payload repo_full_name : value)
    (encrypted access_token : string) : state :=
  let s2 := fetching_state E request st repo_github_id repo payload encrypted in
  {| db := db s2;
     trace := (trace s2
                 ++ [HttpRequest "GET"
                       (readme_url E (Py.str (repr_container E) repo_full_name))
                       access_token])%list |}.


(** Lines 158-179 of [get_repo_metadata]: the body of its [try]. *)
Definition get_repo_metadata_body (E : env) (access_token full_name : string) : M value :=
  repo_name <- match nth_error (split "/" full_name) 1 with
               | Some n => ret n
               | None => raise (PyExc "IndexError" "list index out of range")
               end;;
  repo_info <- GitHubService.get_repo_details E access_token repo_name;;
  readme <- GitHubService.get_repo_readme E access_token full_name;;
  languages <- GitHubService.get_repo_languages E access_token full_name;;
  commits <- GitHubService.get_repo_commits E access_token full_name;;
  contributors <- GitHubService.get_repo_contributors E access_token full_name;;
  lift (name <~ Py.getitem repo_info "name";;
        full <~ Py.getitem repo_info "full_name";;
        description <~ Py.get repo_info "description" (VStr EmptyString);;
        url <~ Py.getitem repo_info "html_url";;
        language <~ Py.get repo_info "language" VNone;;
        stars <~ Py.getitem repo_info "stargazers_count";;
        forks <~ Py.getitem repo_info "forks_count";;
        Ret (VDict [("name", name); ("full_name", full);
                    ("description", description); ("url", url);
                    ("language", language); ("languages", languages);
                    ("stars", stars); ("forks", forks);
                    ("readme", VStr readme); ("commits", commits);
                    ("contributors", contributors)])).

(** The exception line 181 raises for the cause [e]. *)
Definition metadata_failure (e : exn) : exn :=
  PyExc "Exception" ("Failed to get repo metadata: " ++ Py.exn_str e).

(** The exception line 44 of [repos.py] raises for the cause [e]. *)
Definition listing_failure (e : exn) : exn :=
  HTTPException 400 ("Failed to fetch repositories: " ++ Py.exn_str e).

(** The state in which [list_repositories] asks GitHub: the user has been
    read and the token decrypted. *)
Definition listing_state (user_id : Z) (user : User.row) (s : state) : state :=
  {| db := db s;
     trace := (trace s ++ [DbLoadUser (Some user_id);
                           DecryptToken (Repos.stored_token user)])%list |}.

(** Payloads with a [null] where a value is expected. *)
Module Malformed.

Definition payload_null_id : value :=
  VDict [("repository", VDict [("id", VNone); ("full_name", VStr "u/r")])].

Definition payload_null_name : value :=
  VDict [("repository", VDict [("id", VInt 123); ("full_name", VNone)])].

Definition payload_null_repository : value :=
  VDict [("repository", VNone)].

(** The parser, on these bodies as well. *)
Definition loads (text : string) : outcome value :=
  if text =? Json.dumps payload_null_id then Ret payload_null_id
  else if text =? Json.dumps payload_null_name then Ret payload_null_name
  else if text =? Json.dumps payload_null_repository then Ret payload_null_repository
  else Scenario.loads text.



End Malformed.

(* ================================================================== *)
(** * Properties *)

(** ** Strings *)





Lemma is_ascii_app (a b : string) :
  is_ascii (a ++ b) = is_ascii a && is_ascii b.
Proof.
  induction a as [|c a IH]; simpl; [reflexivity|].
  now rewrite IH, andb_assoc.
Qed.

Lemma is_ascii_hex_digit (n : N) : (n < 16)%N -> is_ascii_char (hex_digit n) = true.
Proof.
  intros H. unfold hex_digit, is_ascii_char.
  destruct (N.ltb_spec n 10);
    (rewrite N_ascii_embedding by lia); apply N.ltb_lt; lia.
Qed.

Lemma is_ascii_hex (b : bytes) : is_ascii (hex b) = true.
Proof.
  induction b as [|c b IH]; simpl; [reflexivity|].
  pose proof (N_ascii_bounded c) as Hc.
  rewrite !is_ascii_hex_digit, IH; try reflexivity.
  - apply N.mod_upper_bound; lia.
  - apply N.Div0.div_lt_upper_bound; lia.
Qed.

(** ** The library models against known values *)

Example sha256_abc :
  hex (Hashlib.sha256 "abc")
  = "ba7816bf8f01cfea414140de5dae2223b00361a396177a9cb410ff61f20015ad".
Proof. vm_compute. reflexivity. Qed.

Example sha256_two_blocks :
  hex (Hashlib.sha256 "abcdbcdecdefdefgefghfghighijhijkijkljklmklmnlmnomnopnopq")
  = "248d6a61d20638b8e5c026930c3e6039a33ce45964ff2167f6ecedd419db06c1".
Proof. vm_compute. reflexivity. Qed.

(** RFC 4231, test case 2. *)
Example hmac_sha256_jefe :
  hex (Hashlib.hmac_sha256 "Jefe" "what do ya want for nothing?")
  = "5bdcc146bf60754e6a042426089575c75a003f089d2739839dec58b964ec3843".
Proof. vm_compute. reflexivity. Qed.

Example dumps_separators :
  Json.dumps (VDict [("a", VList [VInt (-3); VFloat "1.5"; VNone; VBool true])])
  = "{" ++ Scenario.q "a" ++ ": [-3, 1.5, null, true]}".
Proof. reflexivity. Qed.

(** A two-byte character, a line feed and a character outside the basic
    plane. *)
Example dumps_escapes :
  Json.dumps (VStr (String (ascii_of_N 195) (String (ascii_of_N 169)
               (String (ascii_of_N 10)
                  (String (ascii_of_N 240) (String (ascii_of_N 159)
                     (String (ascii_of_N 152) (String (ascii_of_N 128) "x"))))))))
  = Scenario.q "\u00e9\n\ud83d\ude00x".
Proof. reflexivity. Qed.

Example lower_readme : lower "docs/README.md" = "docs/readme.md".
Proof. reflexivity. Qed.

Example str_of_values :
  Py.str (fun _ => "[]") (VInt (-42)) = "-42" /\
  Py.str (fun _ => "[]") VNone = "None" /\
  Py.str (fun _ => "[]") (VBool true) = "True".
Proof. repeat split; reflexivity. Qed.

(** ** Running the monad *)

Lemma bind_ret_run {A B} (m : M A) (k : A -> M B) s a s' :
  m s = (Ret a, s') -> bind m k s = k a s'.
Proof. intros H; unfold bind; now rewrite H. Qed.

Lemma bind_raise_run {A B} (m : M A) (k : A -> M B) s e s' :
  m s = (Raise e, s') -> bind m k s = (Raise e, s').
Proof. intros H; unfold bind; now rewrite H. Qed.

Lemma state_eta (s : state) : {| db := db s; trace := trace s |} = s.
Proof. now destruct s. Qed.

(** ** Steps compose *)

Section Steps.

Variable R : database -> database -> Prop.
Variable P : event -> Prop.
Hypothesis R_refl : forall d, R d d.
Hypothesis R_trans : forall d1 d2 d3, R d1 d2 -> R d2 d3 -> R d1 d3.

Lemma step_refl s : step R P s s.
Proof.
  split; [apply R_refl|]. exists []; split; [now rewrite app_nil_r | constructor].
Qed.

Lemma step_trans s1 s2 s3 : step R P s1 s2 -> step R P s2 s3 -> step R P s1 s3.
Proof.
  intros [Hd1 (e1 & Ht1 & HP1)] [Hd2 (e2 & Ht2 & HP2)]. split.
  - eapply R_trans; eassumption.
  - exists (e1 ++ e2)%list; split.
    + now rewrite Ht2, Ht1, app_assoc.
    + apply Forall_app; auto.
Qed.

Lemma steps_ret {A} (a : A) : steps R P (ret a).
Proof. intros s; apply step_refl. Qed.

Lemma steps_raise {A} e : steps R P (@raise A e).
Proof. intros s; apply step_refl. Qed.

Lemma steps_lift {A} (o : outcome A) : steps R P (lift o).
Proof. intros s; apply step_refl. Qed.

Lemma steps_get_trace : steps R P get_trace.
Proof. intros s; apply step_refl. Qed.

Lemma steps_get_db : steps R P get_db.
Proof. intros s; apply step_refl. Qed.

Lemma steps_emit e : P e -> steps R P (emit e).
Proof.
  intros He s; split; [apply R_refl|].
  exists [e]; split; [reflexivity | now constructor].
Qed.

Lemma steps_bind {A B} (m : M A) (k : A -> M B) :
  steps R P m -> (forall a, steps R P (k a)) -> steps R P (bind m k).
Proof.
  intros Hm Hk s. unfold bind.
  specialize (Hm s). destruct (m s) as [[a|e] s1]; simpl in *.
  - eapply step_trans; [exact Hm | apply Hk].
  - exact Hm.
Qed.

Lemma steps_try_except {A} (body : M A) (handler : exn -> M A) :
  steps R P body -> (forall e, steps R P (handler e)) ->
  steps R P (try_except body handler).
Proof.
  intros Hm Hk s. unfold try_except.
  specialize (Hm s). destruct (body s) as [[a|e] s1]; simpl in *.
  - exact Hm.
  - eapply step_trans; [exact Hm | apply Hk].
Qed.

Lemma steps_of_quiet {A} (Q : event -> Prop) (m : M A) :
  (forall e, Q e -> P e) -> quiet Q m -> steps R P m.
Proof.
  intros HQP Hm s. destruct (Hm s) as [Hd (evs & Ht & HQ)].
  split; [rewrite <- Hd; apply R_refl|]. exists evs; split; [exact Ht|].
  eapply Forall_impl; [exact HQP | exact HQ].
Qed.

End Steps.

Lemma log_grows_refl d : log_grows d d.
Proof.
  repeat split. exists []; split; [now rewrite app_nil_r | constructor].
Qed.

Lemma log_grows_trans d1 d2 d3 : log_grows d1 d2 -> log_grows d2 d3 -> log_grows d1 d3.
Proof.
  intros (Hu1 & Hr1 & rows1 & Hw1 & Hp1) (Hu2 & Hr2 & rows2 & Hw2 & Hp2).
  split; [congruence|]. split; [congruence|].
  exists (rows1 ++ rows2)%list; split.
  - now rewrite Hw2, Hw1, app_assoc.
  - apply Forall_app; auto.
Qed.

(** Breaks a goal [steps R P m] down along the shape of [m]. *)
Ltac steps_with known :=
  repeat first
    [ known
    | match goal with
      | |- forall d : database, _ =>
          first [intros ?; reflexivity | exact log_grows_refl]
      | |- forall d1 d2 d3 : database, _ =>
          first [exact (@eq_trans database) | exact log_grows_trans]
      | |- forall _, steps _ _ _ => intros ?
      | |- steps _ _ (let _ := _ in _) => cbv zeta
      | |- steps _ _ (match ?x with _ => _ end) => destruct x
      | |- steps _ _ (if ?x then _ else _) => destruct x
      end
    | apply steps_ret | apply steps_raise | apply steps_lift
    | apply steps_get_trace | apply steps_get_db | apply steps_emit
    | apply steps_bind | apply steps_try_except
    | solve [simpl; tauto] ].

Ltac steps_tac := steps_with fail.

Ltac quiet_tac := unfold quiet; steps_tac.

(** ** What each stage may do *)

Section Stages.

Variable E : env.

Lemma get_repo_readme_quiet access_token full_name :
  quiet is_network_call (GitHubService.get_repo_readme E access_token full_name).
Proof. quiet_tac. Qed.

Lemma get_repo_metadata_quiet access_token full_name :
  quiet is_network_call (GitHubService.get_repo_metadata E access_token full_name).
Proof. quiet_tac. Qed.

Lemma process_completed_project_quiet repo access_token :
  quiet is_downstream (process_completed_project E repo access_token).
Proof. quiet_tac. Qed.

Lemma completion_check_quiet repo repo_full_name :
  quiet is_downstream (completion_check E repo repo_full_name).
Proof. quiet_tac. Qed.

Lemma readme_stage_quiet repo repo_full_name payload :
  quiet is_downstream (readme_stage E repo repo_full_name payload).
Proof. quiet_tac. Qed.

Lemma signature_gate_quiet request : quiet is_hmac (signature_gate E request).
Proof. unfold signature_gate. quiet_tac. Qed.

Lemma log_webhook_event_steps repo event_type payload :
  steps log_grows is_db_write (log_webhook_event E repo event_type payload).
Proof.
  intros s; split; simpl.
  - repeat split. eexists; split; [reflexivity|]. repeat constructor.
  - eexists; split; [reflexivity|]. repeat constructor.
Qed.

Lemma handle_payload_steps request :
  steps log_grows (fun e => ~ is_hmac e) (handle_payload E request).
Proof.
  unfold handle_payload, try_except_class, handle_push.
  steps_with ltac:(
    idtac;
    match goal with
    | |- steps _ _ (log_webhook_event _ ?r ?et ?p) =>
        intros s0; destruct (log_webhook_event_steps r et p s0) as [Hd (evs & Ht & He)];
        split; [exact Hd|]; exists evs; split; [exact Ht|];
        eapply Forall_impl; [|exact He]; intros []; simpl; tauto
    | |- steps _ _ (readme_stage _ _ _ _) =>
        apply steps_of_quiet with (Q := is_downstream);
        [apply log_grows_refl | intros []; simpl; tauto | apply readme_stage_quiet]
    end).
Qed.

Lemma github_webhook_steps request :
  steps log_grows (fun _ => True) (github_webhook E request).
Proof.
  unfold github_webhook. apply steps_bind; [exact log_grows_trans | |intros _].
  - apply steps_of_quiet with (Q := is_hmac);
      [apply log_grows_refl | tauto | apply signature_gate_quiet].
  - intros s. destruct (handle_payload_steps request s) as [Hd (evs & Ht & _)].
    split; [exact Hd|]. exists evs; split; [exact Ht|].
    apply Forall_forall; tauto.
Qed.

End Stages.

(** ** The handler, stage by stage *)

Section Runs.

Variable E : env.

Lemma expected_signature_ascii body secret :
  is_ascii (expected_signature body secret) = true.
Proof.
  unfold expected_signature. rewrite is_ascii_app, is_ascii_hex. reflexivity.
Qed.

Lemma verify_webhook_signature_run body signature secret st :
  verify_webhook_signature body signature secret st
  = (Py.compare_digest (expected_signature body secret) signature,
     {| db := db st; trace := (trace st ++ [HmacSha256 secret body])%list |}).
Proof. reflexivity. Qed.

Lemma compare_digest_same (a : string) :
  is_ascii a = true -> Py.compare_digest a a = Ret true.
Proof.
  intros Ha. unfold Py.compare_digest. now rewrite Ha, String.eqb_refl.
Qed.

Lemma compare_digest_differ (a b : string) :
  is_ascii a = true -> is_ascii b = true -> a <> b ->
  Py.compare_digest a b = Ret false.
Proof.
  intros Ha Hb Hab. unfold Py.compare_digest. rewrite Ha, Hb; simpl.
  now apply String.eqb_neq in Hab as ->.
Qed.

Lemma signature_gate_run request st :
  passes_signature E request ->
  signature_gate E request st
  = (Ret tt, {| db := db st; trace := (trace st ++ gate_events E request)%list |}).
Proof.
  unfold passes_signature, signature_gate, gate_events.
  destruct (signature_header request) as [[|c r]|]; simpl; intros H.
  - unfold ret. now rewrite app_nil_r, state_eta.
  - unfold bind. rewrite verify_webhook_signature_run, H.
    unfold lift. rewrite compare_digest_same by apply expected_signature_ascii.
    reflexivity.
  - unfold ret. now rewrite app_nil_r, state_eta.
Qed.

Lemma handle_payload_run request payload s :
  parses_to E request payload -> is_push request ->
  handle_payload E request s = handle_push E "push" payload s.
Proof.
  intros (text & Hd & Hl) Hp. unfold handle_payload, is_push in *.
  rewrite Hp. unfold try_except_class, try_except, bind, lift.
  rewrite Hd, Hl. reflexivity.
Qed.

Lemma handle_push_run payload repo_full_name repo_github_id s :
  repository_info E payload repo_full_name repo_github_id ->
  handle_push E "push" payload s
  = let s1 := {| db := db s;
                 trace := (trace s ++ [DbQueryRepository repo_github_id])%list |} in
    match monitored_repository (db s) repo_github_id with
    | None =>
        (Ret (VDict [("status", VStr "ignored");
                     ("reason", VStr "repository not monitored")]), s1)
    | Some repo =>
        (log_webhook_event E repo "push" payload;;
         readme_stage E repo repo_full_name payload) s1
    end.
Proof.
  intros (repo_data & id & Hr & Hf & Hi & Ht & -> & Hne).
  unfold handle_push, bind, lift. rewrite Hr, Hf, Hi, Ht.
  apply String.eqb_neq in Hne. rewrite Hne. simpl.
  destruct (monitored_repository (db s) _); reflexivity.
Qed.

Lemma push_event_run request payload st :
  push_event E request payload ->
  github_webhook E request st
  = handle_push E "push" payload
      {| db := db st; trace := (trace st ++ gate_events E request)%list |}.
Proof.
  intros (Hs & Hp & He). unfold github_webhook.
  erewrite bind_ret_run by (apply signature_gate_run; exact Hs).
  now apply handle_payload_run.
Qed.

Lemma accepted_push_run request st payload repo_full_name repo_github_id repo :
  accepted_push E request (db st) payload repo_full_name repo_github_id repo ->
  github_webhook E request st
  = readme_stage E repo repo_full_name payload
      (logged_state E request st repo_github_id repo payload).
Proof.
  intros (Hp & Hi & Hm).
  rewrite (push_event_run _ _ _ Hp), (handle_push_run _ _ _ _ Hi).
  cbv zeta. simpl db. rewrite Hm.
  unfold logged_state, logged_row, lookup_trace.
  cbn. rewrite <- !app_assoc. reflexivity.
Qed.


Lemma readme_stage_touched repo repo_full_name payload s :
  readme_modified payload true ->
  readme_stage E repo repo_full_name payload s
  = completion_check E repo repo_full_name s.
Proof.
  intros (files & Hf & Ht). unfold readme_stage, bind, lift. now rewrite Hf, Ht.
Qed.

Lemma get_repo_readme_body_run access_token full_name s :
  GitHubService.get_repo_readme_body E access_token full_name s
  = (readme_fetch E (trace s) access_token full_name,
     {| db := db s;
        trace := (trace s ++ [HttpRequest "GET" (readme_url E full_name)
                                access_token])%list |}).
Proof.
  unfold GitHubService.get_repo_readme_body, GitHubService._make_request,
    readme_fetch, readme_url, bind, lift, get_trace, emit. cbn.
  destruct (http_send E _ _ _ _) as [response|e]; cbn; [|reflexivity].
  destruct (GitHubService.check_response response) as [checked|e]; cbn; [|reflexivity].
  destruct (Py.getitem checked "content") as [content|e]; cbn; [|reflexivity].
  destruct (b64decode E content) as [raw|e]; cbn; [|reflexivity].
  reflexivity.
Qed.

Lemma get_repo_readme_run access_token full_name s :
  GitHubService.get_repo_readme E access_token full_name s
  = (Ret (readme_text E (trace s) access_token full_name),
     {| db := db s;
        trace := (trace s ++ [HttpRequest "GET" (readme_url E full_name)
                                access_token])%list |}).
Proof.
  unfold GitHubService.get_repo_readme, try_except, readme_text.
  rewrite get_repo_readme_body_run.
  destruct (readme_fetch E (trace s) access_token full_name); reflexivity.
Qed.

(** Lines 97-105: from the owner's token to the README. *)
Lemma completion_body_run repo repo_full_name encrypted access_token s :
  token_ready E (db s) repo encrypted access_token ->
  let s2 := {| db := db s;
               trace := (trace s ++ [DbLoadUser (Repository.user_id repo);
                                     DecryptToken encrypted])%list |} in
  let name := Py.str (repr_container E) repo_full_name in
  let s3 := {| db := db s;
               trace := (trace s2 ++ [HttpRequest "GET" (readme_url E name)
                                        access_token])%list |} in
  completion_body E repo repo_full_name s
  = if is_completed (readme_text E (trace s2) access_token name) then
      (process_completed_project E repo access_token;;
       ret (VDict [("status", VStr "processed");
                   ("action", VStr "summarization_triggered")])) s3
    else
      (Ret (VDict [("status", VStr "processed"); ("completed_keyword", VBool false)]),
       s3).
Proof.
  intros (u & Hu & Htok & Hne & Hdec). cbv zeta.
  unfold completion_body, load_user.
  unfold bind at 1 2 3 4. unfold emit, get_db, ret at 1. cbn [db trace fst snd].
  rewrite Hu. unfold ret at 1. cbn [db trace fst snd]. rewrite Htok.
  destruct encrypted as [|c r]; [contradiction|].
  unfold bind at 1 2 3. unfold emit, lift. cbn [db trace fst snd].
  rewrite Hdec. rewrite get_repo_readme_run. cbn [db trace fst snd].
  rewrite <- app_assoc. cbn [app].
  destruct (is_completed _); reflexivity.
Qed.

Lemma decrypt_failure_raises repo repo_full_name encrypted e u s :
  repo_user (db s) repo = Some u ->
  User.github_access_token u = Some encrypted ->
  encrypted <> EmptyString ->
  decrypt_token E encrypted = Raise e ->
  fst (completion_body E repo repo_full_name s) = Raise e.
Proof.
  intros Hu Htok Hne Hdec.
  unfold completion_body, load_user.
  unfold bind at 1 2 3 4. unfold emit, get_db, ret at 1. cbn [db trace fst snd].
  rewrite Hu. unfold ret at 1. cbn [db trace fst snd]. rewrite Htok.
  destruct encrypted as [|c r]; [contradiction|].
  unfold bind at 1 2 3. unfold emit, lift. cbn [db trace fst snd].
  now rewrite Hdec.
Qed.

Lemma orchestrator_failure_raises repo repo_full_name encrypted access_token e s s' :
  token_ready E (db s) repo encrypted access_token ->
  let s2 := {| db := db s;
               trace := (trace s ++ [DbLoadUser (Repository.user_id repo);
                                     DecryptToken encrypted])%list |} in
  let name := Py.str (repr_container E) repo_full_name in
  let s3 := {| db := db s;
               trace := (trace s2 ++ [HttpRequest "GET" (readme_url E name)
                                        access_token])%list |} in
  is_completed (readme_text E (trace s2) access_token name) = true ->
  process_completed_project E repo access_token s3 = (Raise e, s') ->
  completion_body E repo repo_full_name s = (Raise e, s').
Proof.
  intros Hready s2 name s3 Hc Hp.
  rewrite (completion_body_run _ repo_full_name _ _ _ Hready). cbv zeta.
  fold s2 name s3. rewrite Hc. now apply bind_raise_run.
Qed.

End Runs.

(* ------------------------------------------------------------------ *)
(** ** Signature verification *)

(** What becomes of a signature that is not pure ASCII: the comparison
    raises, and the request ends as a server error rather than as 401. *)
Lemma non_ascii_signature_raises body signature secret st :
  is_ascii signature = false ->
  fst (verify_webhook_signature body signature secret st)
  = Raise (PyExc "TypeError"
             "comparing strings with non-ASCII characters is not supported").
Proof.
  intros H. rewrite verify_webhook_signature_run. simpl.
  unfold Py.compare_digest. now rewrite H, andb_false_r.
Qed.

Lemma non_ascii_signature_status (E : env) request signature st :
  signature_header request = Some signature ->
  is_ascii signature = false ->
  status_code (fst (github_webhook E request st)) = 500%Z.
Proof.
  intros Hh Ha. unfold github_webhook, signature_gate. rewrite Hh.
  destruct signature as [|c r]; [discriminate|]. simpl negb. cbv iota.
  unfold bind at 1 2. rewrite verify_webhook_signature_run.
  unfold lift, Py.compare_digest. now rewrite Ha, andb_false_r.
Qed.

Lemma invalid_signature_run (E : env) request signature st :
  signature_header request = Some signature ->
  signature <> EmptyString ->
  is_ascii signature = true ->
  signature <> expected_signature (Request.body request) (WEBHOOK_SECRET E) ->
  fst (github_webhook E request st) = Raise (HTTPException 401 "Invalid signature").
Proof.
  intros Hheader Hnonempty Ha Hne.
  unfold github_webhook, signature_gate. rewrite Hheader.
  destruct signature as [|c r]; [contradiction|]. simpl negb. cbv iota.
  unfold bind at 1 2. rewrite verify_webhook_signature_run.
  unfold lift. rewrite compare_digest_differ; auto using expected_signature_ascii.
Qed.

(** C1, as the code has it.  For every body [B] and secret [S] the
    signature ["sha256=" ++ hex (HMAC-SHA256 S B)] verifies, and every
    ASCII signature other than that one does not; when the header carries
    such a signature and it is not empty, the handler answers 401 with
    detail "Invalid signature". *)
Theorem C1_signature_verification (E : env) (B : bytes) (S : string) :
  let expected := "sha256=" ++ hex (Hashlib.hmac_sha256 S B) in
  (forall st, fst (verify_webhook_signature B expected S st) = Ret true) /\
  (forall signature st,
      is_ascii signature = true -> signature <> expected ->
      fst (verify_webhook_signature B signature S st) = Ret false) /\
  (forall signature request st,
      is_ascii signature = true -> signature <> expected ->
      signature <> EmptyString ->
      Request.body request = B -> WEBHOOK_SECRET E = S ->
      signature_header request = Some signature ->
      fst (github_webhook E request st) = Raise (HTTPException 401 "Invalid signature")
      /\ status_code (fst (github_webhook E request st)) = 401%Z).
Proof.
  intros expected. fold (expected_signature B S) in expected.
  pose proof (expected_signature_ascii B S) as He.
  split; [|split].
  - intros st. rewrite verify_webhook_signature_run. simpl.
    now apply compare_digest_same.
  - intros signature st Ha Hne. rewrite verify_webhook_signature_run. simpl.
    now apply compare_digest_differ.
  - intros signature request st Ha Hne Hnonempty Hbody Hsecret Hheader.
    rewrite (invalid_signature_run E request signature st); auto.
    now rewrite Hbody, Hsecret.
Qed.

Lemma C1_signature_verification_witness :
  let B := Json.dumps Scenario.payload_readme in
  let S := "your-webhook-secret" in
  let request := Scenario.signed B "sha256=00" in
  fst (verify_webhook_signature B ("sha256=" ++ hex (Hashlib.hmac_sha256 S B)) S
         Scenario.st_ready) = Ret true /\
  fst (verify_webhook_signature B "sha256=00" S Scenario.st_ready) = Ret false /\
  status_code (fst (github_webhook Scenario.E_draft request Scenario.st_ready)) = 401%Z.
Proof.
  intros B S request.
  assert (Hne : "sha256=00" <> "sha256=" ++ hex (Hashlib.hmac_sha256 S B))
    by (vm_compute; discriminate).
  destruct (C1_signature_verification Scenario.E_draft B S) as (H1 & H2 & H3).
  split; [apply H1|]. split; [now apply H2|].
  apply (H3 "sha256=00" request Scenario.st_ready); try reflexivity; try assumption.
  discriminate.
Defined.

(** C1 as stated fails.  A signature header is present, the signature in
    it does not verify, and yet the handler does not answer 401: an empty
    header value skips the check, like an absent header.  And on a
    signature that differs from the expected one by a character outside
    ASCII (here e with an acute accent) the verification does not return
    false, it raises. *)
Lemma C1_counterexample :
  let request := Scenario.signed (Json.dumps Scenario.payload_source) EmptyString in
  let accented := String (ascii_of_N 195) (String (ascii_of_N 169) EmptyString) in
  (signature_header request = Some EmptyString /\
   fst (verify_webhook_signature (Request.body request) EmptyString
          (WEBHOOK_SECRET Scenario.E_draft) Scenario.st_ready) = Ret false /\
   fst (github_webhook Scenario.E_draft request Scenario.st_ready)
   = Ret (VDict [("status", VStr "processed"); ("readme_modified", VBool false)]) /\
   status_code (fst (github_webhook Scenario.E_draft request Scenario.st_ready))
   <> 401%Z) /\
  fst (verify_webhook_signature (Request.body request) accented
         (WEBHOOK_SECRET Scenario.E_draft) Scenario.st_ready)
  = Raise (PyExc "TypeError"
             "comparing strings with non-ASCII characters is not supported").
Proof.
  cbv zeta. repeat split; try (vm_compute; reflexivity).
  vm_compute. discriminate.
Qed.

(* ------------------------------------------------------------------ *)
(** ** Requests without a signature header *)

(** C2.  When the [X-Hub-Signature-256] header is absent the handler is
    exactly the processing that starts with JSON parsing: no HMAC is
    computed, and neither the body nor the configured secret has a say. *)
Theorem C2_unsigned_request_skips_verification (E : env) (request : Request.t) (st : state) :
  signature_header request = None ->
  github_webhook E request st = handle_payload E request st /\
  (exists evs,
      trace (snd (github_webhook E request st)) = (trace st ++ evs)%list /\
      Forall (fun e => ~ is_hmac e) evs) /\
  (forall secret,
      github_webhook (with_secret E secret) request st = github_webhook E request st).
Proof.
  intros Hh.
  assert (Hrun : forall E', github_webhook E' request st = handle_payload E' request st).
  { intros E'. unfold github_webhook, signature_gate. rewrite Hh.
    unfold bind, ret. reflexivity. }
  split; [apply Hrun|]. split.
  - rewrite Hrun. destruct (handle_payload_steps E request st) as [_ H]. exact H.
  - intros secret. rewrite !Hrun. reflexivity.
Qed.

Lemma C2_unsigned_request_skips_verification_witness :
  let request := Scenario.unsigned (Json.dumps Scenario.payload_source) in
  github_webhook Scenario.E_draft request Scenario.st_ready
  = handle_payload Scenario.E_draft request Scenario.st_ready /\
  (exists evs,
      trace (snd (github_webhook Scenario.E_draft request Scenario.st_ready))
      = (trace Scenario.st_ready ++ evs)%list /\
      Forall (fun e => ~ is_hmac e) evs) /\
  (forall secret,
      github_webhook (with_secret Scenario.E_draft secret) request Scenario.st_ready
      = github_webhook Scenario.E_draft request Scenario.st_ready).
Proof.
  intros request.
  exact (C2_unsigned_request_skips_verification Scenario.E_draft request
           Scenario.st_ready eq_refl).
Defined.

(* ------------------------------------------------------------------ *)
(** ** The event log *)

Lemma monitored_repository_none (d : database) (repo_github_id : string) :
  monitored_repository d repo_github_id = None <->
  (forall r, In r (repositories d) ->
             Repository.github_repo_id r = repo_github_id ->
             Repository.is_monitored r = false).
Proof.
  unfold monitored_repository. split.
  - intros H r Hin Hid.
    pose proof (find_none _ _ H r Hin) as Hf. simpl in Hf.
    apply String.eqb_eq in Hid. rewrite Hid in Hf. exact Hf.
  - intros H. induction (repositories d) as [|r l IH]; simpl; [reflexivity|].
    destruct (String.eqb_spec (Repository.github_repo_id r) repo_github_id) as [Heq|Hneq];
      simpl.
    + rewrite (H r (or_introl eq_refl) Heq). apply IH.
      intros r' Hin; apply H; now right.
    + apply IH. intros r' Hin; apply H; now right.
Qed.

Lemma accepted_push_log
    (E : env) (request : Request.t) (st : state)
    (payload repo_full_name : value) (repo_github_id : string)
    (repo : Repository.row) :
  accepted_push E request (db st) payload repo_full_name repo_github_id repo ->
  webhook_events (db (snd (github_webhook E request st)))
  = (webhook_events (db st)
       ++ [logged_row E request st repo_github_id repo payload])%list.
Proof.
  intros Hacc. rewrite (accepted_push_run _ _ _ _ _ _ _ Hacc).
  destruct (readme_stage_quiet E repo repo_full_name payload
              (logged_state E request st repo_github_id repo payload)) as [Hd _].
  now rewrite <- Hd.
Qed.

(** C7, as the code has it.  For every accepted push event of a monitored
    repository the run appends exactly one row to the event log, keyed to
    the matched repository, with event type "push" and, as payload, the
    parsed payload serialised again by [json.dumps]; the write comes first:
    before it there is only the signature check and the repository lookup,
    after it only reads, collaborator calls and prints. *)
Theorem C7_event_logged_once
    (E : env) (request : Request.t) (st : state)
    (payload repo_full_name : value) (repo_github_id : string)
    (repo : Repository.row) :
  accepted_push E request (db st) payload repo_full_name repo_github_id repo ->
  let st' := snd (github_webhook E request st) in
  let row := logged_row E request st repo_github_id repo payload in
  webhook_events (db st') = (webhook_events (db st) ++ [row])%list /\
  WebhookEvent.repository_id row = Repository.id repo /\
  WebhookEvent.event_type row = "push" /\
  WebhookEvent.payload row = Json.dumps payload /\
  Forall is_hmac (gate_events E request) /\
  exists evs,
    trace st' = (trace st ++ gate_events E request
                   ++ [DbQueryRepository repo_github_id; DbCommit row] ++ evs)%list /\
    Forall is_downstream evs.
Proof.
  intros Hacc st' row. subst st'.
  rewrite (accepted_push_run _ _ _ _ _ _ _ Hacc).
  destruct (readme_stage_quiet E repo repo_full_name payload
              (logged_state E request st repo_github_id repo payload))
    as [Hd (evs & Ht & Hev)].
  rewrite <- Hd. repeat split.
  - unfold gate_events. destruct (signature_header request) as [[|c r]|];
      repeat constructor.
  - exists evs. split; [|exact Hev]. rewrite Ht.
    unfold logged_state, lookup_trace. cbn [trace].
    now rewrite <- !app_assoc.
Qed.

Lemma C7_event_logged_once_witness :
  let request := Scenario.unsigned Scenario.compact_body in
  let st' := snd (github_webhook Scenario.E_draft request Scenario.st_ready) in
  let row := logged_row Scenario.E_draft request Scenario.st_ready "123"
               Scenario.monitored Scenario.payload_source in
  webhook_events (db st') = (webhook_events (db Scenario.st_ready) ++ [row])%list /\
  WebhookEvent.repository_id row = Repository.id Scenario.monitored /\
  WebhookEvent.event_type row = "push" /\
  WebhookEvent.payload row = Json.dumps Scenario.payload_source /\
  Forall is_hmac (gate_events Scenario.E_draft request) /\
  exists evs,
    trace st' = (trace Scenario.st_ready ++ gate_events Scenario.E_draft request
                   ++ [DbQueryRepository "123"; DbCommit row] ++ evs)%list /\
    Forall is_downstream evs.
Proof.
  intros request.
  apply (C7_event_logged_once Scenario.E_draft request Scenario.st_ready
           Scenario.payload_source (VStr "u/r") "123" Scenario.monitored).
  repeat split.
  - exists Scenario.compact_body. split; reflexivity.
  - exists (VDict [("id", VInt 123); ("full_name", VStr "u/r")]), (VInt 123).
    repeat split. discriminate.
Defined.

(** C7 as stated fails: the stored payload is not the inbound body byte
    for byte.  The body below is accepted and logged, and the payload of
    the logged row differs from it (the separators are written with a
    blank). *)
Lemma C7_counterexample :
  let request := Scenario.unsigned Scenario.compact_body in
  let st' := snd (github_webhook Scenario.E_draft request Scenario.st_ready) in
  exists row,
    webhook_events (db st') = [row] /\
    WebhookEvent.payload row = Json.dumps Scenario.payload_source /\
    WebhookEvent.payload row <> Request.body request.
Proof.
  cbv zeta. eexists. split; [vm_compute; reflexivity|].
  split; [vm_compute; reflexivity|]. vm_compute. discriminate.
Qed.

(** C8.  A push event whose repository id has no monitored entry is
    answered 200 with the "ignored" body; the run consists of the signature
    check and the lookup alone, so it calls no collaborator and writes no
    row. *)
Theorem C8_not_monitored_is_ignored
    (E : env) (request : Request.t) (st : state)
    (payload repo_full_name : value) (repo_github_id : string) :
  push_event E request payload ->
  repository_info E payload repo_full_name repo_github_id ->
  (forall r, In r (repositories (db st)) ->
             Repository.github_repo_id r = repo_github_id ->
             Repository.is_monitored r = false) ->
  let out := fst (github_webhook E request st) in
  let st' := snd (github_webhook E request st) in
  out = Ret (VDict [("status", VStr "ignored");
                    ("reason", VStr "repository not monitored")]) /\
  status_code out = 200%Z /\
  db st' = db st /\
  trace st' = (trace st ++ gate_events E request
                 ++ [DbQueryRepository repo_github_id])%list /\
  Forall (fun e => ~ is_collaborator_call e /\ ~ is_db_write e)
         (gate_events E request ++ [DbQueryRepository repo_github_id])%list.
Proof.
  intros Hp Hi Hnone out st'. subst out st'.
  apply monitored_repository_none in Hnone.
  rewrite (push_event_run _ _ _ _ Hp), (handle_push_run _ _ _ _ _ Hi).
  cbv zeta. simpl db. rewrite Hnone. cbn [fst snd db trace status_code].
  repeat split.
  - now rewrite <- app_assoc.
  - apply Forall_app; split.
    + unfold gate_events. destruct (signature_header request) as [[|c r]|];
        repeat constructor; simpl; tauto.
    + repeat constructor; simpl; tauto.
Qed.

Lemma C8_not_monitored_is_ignored_witness :
  let request := Scenario.unsigned (Json.dumps Scenario.payload_readme) in
  let out := fst (github_webhook Scenario.E_live request Scenario.st_unmonitored) in
  let st' := snd (github_webhook Scenario.E_live request Scenario.st_unmonitored) in
  out = Ret (VDict [("status", VStr "ignored");
                    ("reason", VStr "repository not monitored")]) /\
  status_code out = 200%Z /\
  db st' = db Scenario.st_unmonitored /\
  trace st' = (trace Scenario.st_unmonitored ++ gate_events Scenario.E_live request
                 ++ [DbQueryRepository "123"])%list /\
  Forall (fun e => ~ is_collaborator_call e /\ ~ is_db_write e)
         (gate_events Scenario.E_live request ++ [DbQueryRepository "123"])%list.
Proof.
  intros request.
  apply (C8_not_monitored_is_ignored Scenario.E_live request Scenario.st_unmonitored
           Scenario.payload_readme (VStr "u/r") "123").
  - repeat split. exists (Json.dumps Scenario.payload_readme). split; reflexivity.
  - exists (VDict [("id", VInt 123); ("full_name", VStr "u/r")]), (VInt 123).
    repeat split. discriminate.
  - intros r [<-|[]] _. reflexivity.
Defined.

(** C10.  Whatever the request, the run touches the database only by
    appending to the event log, and every row it appends has
    [processed = False]: the rows that were there are still there,
    unchanged and in place, and the other tables are as they were.  For an
    accepted push event the log ends as the old rows followed by the one row
    lines 74-80 wrote, still with [processed = False], whatever the rest of
    the run did. *)
Theorem C10_logged_events_stay_unprocessed
    (E : env) (request : Request.t) (st : state) :
  let st' := snd (github_webhook E request st) in
  users (db st') = users (db st) /\
  repositories (db st') = repositories (db st) /\
  (exists rows,
      webhook_events (db st') = (webhook_events (db st) ++ rows)%list /\
      Forall (fun r => WebhookEvent.processed r = false) rows) /\
  (forall payload repo_full_name repo_github_id repo,
      accepted_push E request (db st) payload repo_full_name repo_github_id repo ->
      let row := logged_row E request st repo_github_id repo payload in
      webhook_events (db st') = (webhook_events (db st) ++ [row])%list /\
      WebhookEvent.processed row = false).
Proof.
  intros st'. subst st'.
  destruct (github_webhook_steps E request st) as [(Hu & Hr & Hrows) _].
  repeat split; try assumption.
  eapply accepted_push_log; eassumption.
Qed.

Lemma C10_logged_events_stay_unprocessed_witness :
  let request := Scenario.unsigned (Json.dumps Scenario.payload_readme) in
  let run := github_webhook Scenario.E_live request Scenario.st_ready in
  fst run = Ret (VDict [("status", VStr "processed");
                        ("action", VStr "summarization_triggered")]) /\
  map WebhookEvent.processed (webhook_events (db (snd run))) = [false].
Proof.
  intros request run. split; [vm_compute; reflexivity|].
  destruct (C10_logged_events_stay_unprocessed Scenario.E_live request Scenario.st_ready)
    as (_ & _ & _ & H).
  destruct (H Scenario.payload_readme (VStr "u/r") "123" Scenario.monitored) as [Hw Hp].
  - repeat split.
    + exists (Json.dumps Scenario.payload_readme). split; reflexivity.
    + exists (VDict [("id", VInt 123); ("full_name", VStr "u/r")]), (VInt 123).
      repeat split. discriminate.
  - subst run. rewrite Hw. reflexivity.
Defined.

(* ------------------------------------------------------------------ *)
(** ** Downstream failures *)

(** Lines 115-118: what the [except] clause makes of an exception that
    leaves the [try]. *)
Lemma caught_failure_run
    (E : env) (request : Request.t) (st : state)
    (payload repo_full_name : value) (repo_github_id : string)
    (repo : Repository.row) (e : exn) (s2 : state) :
  accepted_push E request (db st) payload repo_full_name repo_github_id repo ->
  readme_modified payload true ->
  completion_body E repo repo_full_name
    (logged_state E request st repo_github_id repo payload) = (Raise e, s2) ->
  answered_softly E request st (logged_row E request st repo_github_id repo payload) e /\
  trace (snd (github_webhook E request st))
  = (trace s2 ++ [Print ("Error processing webhook: " ++ Py.exn_str e)])%list.
Proof.
  intros Hacc Hmod Hbody. unfold answered_softly.
  pose proof (accepted_push_log _ _ _ _ _ _ _ Hacc) as Hlog.
  revert Hlog.
  rewrite (accepted_push_run _ _ _ _ _ _ _ Hacc).
  rewrite (readme_stage_touched _ _ _ _ _ Hmod).
  unfold completion_check, try_except. rewrite Hbody.
  intros Hlog. repeat split. exact Hlog.
Qed.

Lemma caught_failure
    (E : env) (request : Request.t) (st : state)
    (payload repo_full_name : value) (repo_github_id : string)
    (repo : Repository.row) (e : exn) :
  accepted_push E request (db st) payload repo_full_name repo_github_id repo ->
  readme_modified payload true ->
  fst (completion_body E repo repo_full_name
         (logged_state E request st repo_github_id repo payload)) = Raise e ->
  answered_softly E request st (logged_row E request st repo_github_id repo payload) e.
Proof.
  intros Hacc Hmod Hbody.
  destruct (completion_body E repo repo_full_name
              (logged_state E request st repo_github_id repo payload))
    as [o s2] eqn:Hrun.
  cbn [fst] in Hbody. subst o.
  exact (proj1 (caught_failure_run E request st payload repo_full_name repo_github_id
                  repo e s2 Hacc Hmod Hrun)).
Qed.

(** Lines 123-139: [process_completed_project] passes on what the
    metadata fetch or the summarisation raises. *)
Lemma metadata_failure_is_passed_on (E : env) repo access_token e s :
  fst (GitHubService.get_repo_metadata E access_token (Repository.full_name repo) s)
  = Raise e ->
  fst (process_completed_project E repo access_token s) = Raise e.
Proof.
  intros H. unfold process_completed_project, try_except. unfold bind at 1.
  destruct (GitHubService.get_repo_metadata E access_token (Repository.full_name repo) s)
    as [o s1].
  cbn [fst] in H. subst o. reflexivity.
Qed.

Lemma summarization_failure_is_passed_on (E : env) repo access_token metadata e s s4 :
  GitHubService.get_repo_metadata E access_token (Repository.full_name repo) s
  = (Ret metadata, s4) ->
  summarize_repository E (trace s4) metadata "professional" = Raise e ->
  fst (process_completed_project E repo access_token s) = Raise e.
Proof.
  intros Hm Hs. unfold process_completed_project, try_except. unfold bind at 1.
  rewrite Hm. unfold bind, get_trace, emit, lift. cbn [fst snd trace db].
  rewrite Hs. reflexivity.
Qed.

Lemma orchestration_failure_is_caught
    (E : env) (request : Request.t) (st : state)
    (payload repo_full_name : value) (repo_github_id : string)
    (repo : Repository.row) (encrypted access_token : string) (e : exn) :
  accepted_push E request (db st) payload repo_full_name repo_github_id repo ->
  readme_modified payload true ->
  token_ready E (db st) repo encrypted access_token ->
  is_completed
    (readme_text E
       (trace (fetching_state E request st repo_github_id repo payload encrypted))
       access_token (Py.str (repr_container E) repo_full_name)) = true ->
  fst (process_completed_project E repo access_token
         (orchestrating_state E request st repo_github_id repo payload repo_full_name
            encrypted access_token)) = Raise e ->
  answered_softly E request st (logged_row E request st repo_github_id repo payload) e.
Proof.
  intros Hacc Hmod Hready Hc Hp.
  apply (caught_failure E request st payload repo_full_name repo_github_id repo e Hacc Hmod).
  destruct (process_completed_project E repo access_token
              (orchestrating_state E request st repo_github_id repo payload
                 repo_full_name encrypted access_token)) as [o s'] eqn:Hrun.
  cbn [fst] in Hp. subst o.
  rewrite (orchestrator_failure_raises E repo repo_full_name encrypted access_token e
             (logged_state E request st repo_github_id repo payload) s').
  - reflexivity.
  - exact Hready.
  - exact Hc.
  - exact Hrun.
Qed.

(** C3.  For an accepted push event whose commits touch a README, an
    exception that leaves the [try] of lines 95-113 is caught: the handler
    answers 200 with [{status: "error", error: str(e)}], after printing the
    message, and the event log still ends with the row written before.
    That is what happens when the token decryption raises, when the
    metadata fetch raises and when the summarisation raises.  A failure of
    the README fetch does not leave the [try]: see [C9]. *)
Theorem C3_downstream_failure_is_soft
    (E : env) (request : Request.t) (st : state)
    (payload repo_full_name : value) (repo_github_id : string)
    (repo : Repository.row) :
  accepted_push E request (db st) payload repo_full_name repo_github_id repo ->
  readme_modified payload true ->
  let row := logged_row E request st repo_github_id repo payload in
  (forall e s2,
      completion_body E repo repo_full_name
        (logged_state E request st repo_github_id repo payload) = (Raise e, s2) ->
      answered_softly E request st row e /\
      trace (snd (github_webhook E request st))
      = (trace s2 ++ [Print ("Error processing webhook: " ++ Py.exn_str e)])%list) /\
  (forall u encrypted e,
      repo_user (db st) repo = Some u ->
      User.github_access_token u = Some encrypted ->
      encrypted <> EmptyString ->
      decrypt_token E encrypted = Raise e ->
      answered_softly E request st row e) /\
  (forall encrypted access_token,
      token_ready E (db st) repo encrypted access_token ->
      is_completed
        (readme_text E
           (trace (fetching_state E request st repo_github_id repo payload encrypted))
           access_token (Py.str (repr_container E) repo_full_name)) = true ->
      let s3 := orchestrating_state E request st repo_github_id repo payload
                  repo_full_name encrypted access_token in
      (forall e,
          fst (GitHubService.get_repo_metadata E access_token
                 (Repository.full_name repo) s3) = Raise e ->
          answered_softly E request st row e) /\
      (forall metadata s4 e,
          GitHubService.get_repo_metadata E access_token (Repository.full_name repo) s3
          = (Ret metadata, s4) ->
          summarize_repository E (trace s4) metadata "professional" = Raise e ->
          answered_softly E request st row e)).
Proof.
  intros Hacc Hmod row. subst row. split; [|split].
  - intros e s2 Hbody.
    exact (caught_failure_run E request st payload repo_full_name repo_github_id repo
             e s2 Hacc Hmod Hbody).
  - intros u encrypted e Hu Htok Hne Hdec.
    apply (caught_failure E request st payload repo_full_name repo_github_id repo e
             Hacc Hmod).
    now apply (decrypt_failure_raises E repo repo_full_name encrypted e u).
  - intros encrypted access_token Hready Hc s3. subst s3. split.
    + intros e He.
      apply (orchestration_failure_is_caught E request st payload repo_full_name
               repo_github_id repo encrypted access_token e Hacc Hmod Hready Hc).
      now apply metadata_failure_is_passed_on.
    + intros metadata s4 e Hm Hs.
      apply (orchestration_failure_is_caught E request st payload repo_full_name
               repo_github_id repo encrypted access_token e Hacc Hmod Hready Hc).
      now apply (summarization_failure_is_passed_on E repo access_token metadata e _ s4).
Qed.

Lemma C3_downstream_failure_is_soft_witness :
  let request := Scenario.unsigned (Json.dumps Scenario.payload_readme) in
  let out := fst (github_webhook Scenario.E_done request Scenario.st_ready) in
  let st' := snd (github_webhook Scenario.E_done request Scenario.st_ready) in
  out = Ret (VDict [("status", VStr "error");
                    ("error", VStr "Failed to get repo metadata: Client error '404 Not Found'")])
  /\ status_code out = 200%Z
  /\ map WebhookEvent.repository_id (webhook_events (db st')) = [7%Z].
Proof.
  intros request.
  destruct (C3_downstream_failure_is_soft Scenario.E_done request Scenario.st_ready
              Scenario.payload_readme (VStr "u/r") "123" Scenario.monitored)
    as (_ & _ & H).
  - repeat split.
    + exists (Json.dumps Scenario.payload_readme). split; reflexivity.
    + exists (VDict [("id", VInt 123); ("full_name", VStr "u/r")]), (VInt 123).
      repeat split. discriminate.
  - exists [VStr "README.md"; VStr "src/a.go"]. split; reflexivity.
  - destruct (H "enc:ghp_abc" "ghp_abc") as [Hm _].
    + exists {| User.id := 1; User.github_access_token := Some "enc:ghp_abc" |}.
      repeat split. discriminate.
    + reflexivity.
    + destruct (Hm (PyExc "Exception"
                      "Failed to get repo metadata: Client error '404 Not Found'"))
        as (H1 & H2 & H3); [vm_compute; reflexivity|].
      split; [exact H1|]. split; [exact H2|]. rewrite H3. reflexivity.
Defined.

(** The README fetch is the exception among the four steps: when the
    request fails, [get_repo_readme] returns the empty text, nothing
    reaches the [except] clause, and the answer is not an error. *)
Lemma C3_counterexample :
  let request := Scenario.unsigned (Json.dumps Scenario.payload_readme) in
  let out := fst (github_webhook Scenario.E_offline request Scenario.st_ready) in
  accepted_push Scenario.E_offline request (db Scenario.st_ready)
    Scenario.payload_readme (VStr "u/r") "123" Scenario.monitored /\
  readme_modified Scenario.payload_readme true /\
  fst (GitHubService.get_repo_readme_body Scenario.E_offline "ghp_abc" "u/r"
         (fetching_state Scenario.E_offline request Scenario.st_ready "123"
            Scenario.monitored Scenario.payload_readme "enc:ghp_abc"))
  = Raise (PyExc "ConnectError" "All connection attempts failed") /\
  out = Ret (VDict [("status", VStr "processed"); ("completed_keyword", VBool false)]) /\
  out <> Ret (VDict [("status", VStr "error");
                     ("error", VStr "All connection attempts failed")]).
Proof.
  cbv zeta. split; [|split; [|split; [|split]]].
  - repeat split.
    + exists (Json.dumps Scenario.payload_readme). split; reflexivity.
    + exists (VDict [("id", VInt 123); ("full_name", VStr "u/r")]), (VInt 123).
      repeat split. discriminate.
  - exists [VStr "README.md"; VStr "src/a.go"]. split; reflexivity.
  - reflexivity.
  - vm_compute. reflexivity.
  - vm_compute. discriminate.
Qed.

(* ------------------------------------------------------------------ *)
(** ** Completion gating *)





(* ------------------------------------------------------------------ *)
(** ** The README fetch fails soft *)



(* ------------------------------------------------------------------ *)
(** ** README-touch detection *)









Example readme_touched_examples :
  (files_touched Scenario.payload_readme >>= readme_touched) = Ret true /\
  readme_touched [VStr "Readme.MD"] = Ret true /\
  readme_touched [VStr "docs/README"] = Ret true /\
  readme_touched [VStr "src/a.go"] = Ret false.
Proof. repeat split; reflexivity. Qed.

(* ------------------------------------------------------------------ *)
(** ** Missing repository information *)







(* ------------------------------------------------------------------ *)
(** ** Worked runs *)

(** The scenario of the specification: a monitored repository, a commit
    that modifies [README.md], a README that says "Project Completed". *)
Example end_to_end :
  let request := Scenario.unsigned (Json.dumps Scenario.payload_readme) in
  let run := github_webhook Scenario.E_live request Scenario.st_ready in
  fst run = Ret (VDict [("status", VStr "processed");
                        ("action", VStr "summarization_triggered")]) /\
  List.length (webhook_events (db (snd run))) = 1 /\
  List.length (filter (fun e => match e with Summarize _ _ => true | _ => false end)
                 (trace (snd run))) = 1.
Proof. cbv zeta. repeat split; vm_compute; reflexivity. Qed.

(** A correctly signed delivery goes through the signature check. *)
Example signed_delivery :
  let body := Json.dumps Scenario.payload_source in
  let request :=
    Scenario.signed body
      ("sha256=" ++ hex (Hashlib.hmac_sha256 "your-webhook-secret" body)) in
  fst (github_webhook Scenario.E_live request Scenario.st_ready)
  = Ret (VDict [("status", VStr "processed"); ("readme_modified", VBool false)]).
Proof. vm_compute. reflexivity. Qed.

(** A stored token that does not decrypt: the failure is reported in the
    body of a 200 answer. *)
Example corrupt_token :
  let request := Scenario.unsigned (Json.dumps Scenario.payload_readme) in
  fst (github_webhook Scenario.E_live request Scenario.st_corrupt)
  = Ret (VDict [("status", VStr "error"); ("error", VStr EmptyString)]).
Proof. vm_compute. reflexivity. Qed.

(** A signature header holding a character outside ASCII (here e with an
    acute accent): the comparison raises and the answer is 500. *)
Example non_ascii_signature :
  let request :=
    Scenario.signed (Json.dumps Scenario.payload_source)
      (String (ascii_of_N 195) (String (ascii_of_N 169) EmptyString)) in
  status_code (fst (github_webhook Scenario.E_live request Scenario.st_ready)) = 500%Z.
Proof. vm_compute. reflexivity. Qed.

(** The payload is read as it comes.  A [null] id is turned into the text
    "None" and looked up; a [null] repository has no [get]; a [null]
    commit list is iterated outside the [try], after the event has been
    logged. *)
Example null_repository_id :
  let payload := VDict [("repository", VDict [("id", VNone); ("full_name", VStr "u/r")])] in
  snd (handle_push Scenario.E_live "push" payload Scenario.st_ready)
  = {| db := db Scenario.st_ready; trace := [DbQueryRepository "None"] |}.
Proof. vm_compute. reflexivity. Qed.

Example null_repository :
  let payload := VDict [("repository", VNone)] in
  handle_push Scenario.E_live "push" payload Scenario.st_ready
  = (Raise (PyExc "AttributeError" "'NoneType' object has no attribute 'get'"),
     Scenario.st_ready).
Proof. vm_compute. reflexivity. Qed.

Example null_commit_list :
  let payload := VDict [("repository", VDict [("id", VInt 123); ("full_name", VStr "u/r")]);
                        ("commits", VNone)] in
  let run := handle_push Scenario.E_live "push" payload Scenario.st_ready in
  fst run = Raise (PyExc "TypeError" "'NoneType' object is not iterable") /\
  status_code (fst run) = 500%Z /\
  List.length (webhook_events (db (snd run))) = 1.
Proof. cbv zeta. repeat split; vm_compute; reflexivity. Qed.

(* ================================================================== *)
(** * Further properties of the webhook handler *)

(** X1.  A delivery that gets through the signature check and parses,
    but whose event type is not exactly "push" (or is missing), is answered
    200 with the "ignored" body that echoes the event type; the database is
    not consulted. *)
Theorem other_events_are_ignored
    (E : env) (request : Request.t) (st : state) (payload : value) :
  passes_signature E request ->
  parses_to E request payload ->
  Request.headers_get "X-GitHub-Event" (Request.headers request) <> Some "push" ->
  github_webhook E request st
  = (Ret (VDict [("status", VStr "ignored");
                 ("event",
                  match Request.headers_get "X-GitHub-Event" (Request.headers request) with
                  | Some event_type => VStr event_type
                  | None => VNone
                  end)]),
     {| db := db st; trace := (trace st ++ gate_events E request)%list |}).
Proof.
  intros Hs (text & Hd & Hl) Hev. unfold github_webhook.
  erewrite bind_ret_run by (apply signature_gate_run; exact Hs).
  unfold handle_payload, try_except_class, try_except, bind, lift.
  rewrite Hd, Hl.
  destruct (Request.headers_get "X-GitHub-Event" (Request.headers request))
    as [event_type|]; [|reflexivity].
  destruct (String.eqb_spec event_type "push") as [->|_]; [contradiction|reflexivity].
Qed.

Lemma other_events_are_ignored_witness :
  github_webhook Scenario.E_live
    (Cases.delivery "pull_request" (Json.dumps Scenario.payload_readme)) Scenario.st_ready
  = (Ret (VDict [("status", VStr "ignored"); ("event", VStr "pull_request")]),
     Scenario.st_ready).
Proof.
  rewrite (other_events_are_ignored Scenario.E_live _ Scenario.st_ready
             Scenario.payload_readme).
  - reflexivity.
  - exact I.
  - exists (Json.dumps Scenario.payload_readme). split; reflexivity.
  - discriminate.
Defined.

(** X2.  A body that does not parse is refused with 400 "Invalid JSON
    payload" whatever the event type, before the database is touched; any
    other failure of decoding or parsing (bytes that are not UTF-8, say) is
    not caught and ends the request as a server error. *)
Theorem unparsable_body_is_rejected
    (E : env) (request : Request.t) (st : state) :
  passes_signature E request ->
  let s1 := {| db := db st; trace := (trace st ++ gate_events E request)%list |} in
  (forall text msg,
      utf8_decode E (Request.body request) = Ret text ->
      json_loads E text = Raise (PyExc "JSONDecodeError" msg) ->
      github_webhook E request st
      = (Raise (HTTPException 400 "Invalid JSON payload"), s1)) /\
  (forall cls msg,
      cls <> "JSONDecodeError" ->
      utf8_decode E (Request.body request) = Raise (PyExc cls msg)
      \/ (exists text, utf8_decode E (Request.body request) = Ret text /\
                       json_loads E text = Raise (PyExc cls msg)) ->
      github_webhook E request st = (Raise (PyExc cls msg), s1) /\
      status_code (fst (github_webhook E request st)) = 500%Z).
Proof.
  intros Hs s1.
  assert (Hrun : github_webhook E request st = handle_payload E request s1).
  { unfold github_webhook.
    now erewrite bind_ret_run by (apply signature_gate_run; exact Hs). }
  rewrite Hrun. split.
  - intros text msg Hd Hl.
    unfold handle_payload, try_except_class, try_except, bind, lift.
    now rewrite Hd, Hl.
  - intros cls msg Hcls H.
    apply String.eqb_neq in Hcls.
    assert (Hp : handle_payload E request s1 = (Raise (PyExc cls msg), s1)).
    { unfold handle_payload, try_except_class, try_except, bind, lift.
      destruct H as [Hd|(text & Hd & Hl)].
      - rewrite Hd. simpl. now rewrite Hcls.
      - rewrite Hd, Hl. simpl. now rewrite Hcls. }
    now rewrite Hp.
Qed.

Lemma unparsable_body_is_rejected_witness :
  fst (github_webhook Scenario.E_live (Cases.delivery "ping" "not json") Scenario.st_ready)
  = Raise (HTTPException 400 "Invalid JSON payload") /\
  status_code
    (fst (github_webhook Cases.E_latin (Cases.delivery "push" "not utf-8")
            Scenario.st_ready)) = 500%Z.
Proof.
  split.
  - destruct (unparsable_body_is_rejected Scenario.E_live
                (Cases.delivery "ping" "not json") Scenario.st_ready I) as [H _].
    now rewrite (H "not json" "Expecting value: line 1 column 1 (char 0)").
  - destruct (unparsable_body_is_rejected Cases.E_latin
                (Cases.delivery "push" "not utf-8") Scenario.st_ready I) as [_ H].
    apply (H "UnicodeDecodeError" "'utf-8' codec can't decode byte 0xe9 in position 0").
    + discriminate.
    + left; reflexivity.
Defined.

(** ** The owner's token *)

Lemma completion_body_without_owner (E : env) repo repo_full_name s :
  repo_user (db s) repo = None ->
  completion_body E repo repo_full_name s
  = (Raise (PyExc "AttributeError"
              "'NoneType' object has no attribute 'github_access_token'"),
     {| db := db s;
        trace := (trace s ++ [DbLoadUser (Repository.user_id repo)])%list |}).
Proof.
  intros Hu. unfold completion_body, load_user.
  unfold bind at 1 2 3 4. unfold emit, get_db, ret at 1. cbn [db trace fst snd].
  rewrite Hu. reflexivity.
Qed.

Lemma completion_body_without_token (E : env) repo repo_full_name u s :
  repo_user (db s) repo = Some u ->
  User.github_access_token u = None
  \/ User.github_access_token u = Some EmptyString ->
  completion_body E repo repo_full_name s
  = (Ret (VDict [("status", VStr "error"); ("reason", VStr "no github token")]),
     {| db := db s;
        trace := (trace s ++ [DbLoadUser (Repository.user_id repo)])%list |}).
Proof.
  intros Hu Htok. unfold completion_body, load_user.
  unfold bind at 1 2 3 4. unfold emit, get_db, ret at 1. cbn [db trace fst snd].
  rewrite Hu. unfold ret at 1. cbn [db trace fst snd].
  destruct Htok as [-> | ->]; reflexivity.
Qed.

(** X3.  When the owner of the repository has no stored GitHub token
    (none, or an empty one), an accepted push that touches the README is
    answered [{status: "error", reason: "no github token"}] with status
    200: the event is logged, the owner is read, and neither Fernet nor
    GitHub is called. *)
Theorem missing_token_stops_the_run
    (E : env) (request : Request.t) (st : state)
    (payload repo_full_name : value) (repo_github_id : string)
    (repo : Repository.row) (u : User.row) :
  accepted_push E request (db st) payload repo_full_name repo_github_id repo ->
  readme_modified payload true ->
  repo_user (db st) repo = Some u ->
  User.github_access_token u = None
  \/ User.github_access_token u = Some EmptyString ->
  let log := logged_state E request st repo_github_id repo payload in
  github_webhook E request st
  = (Ret (VDict [("status", VStr "error"); ("reason", VStr "no github token")]),
     {| db := db log;
        trace := (trace log ++ [DbLoadUser (Repository.user_id repo)])%list |}).
Proof.
  intros Hacc Hmod Hu Htok log.
  rewrite (accepted_push_run _ _ _ _ _ _ _ Hacc).
  rewrite (readme_stage_touched _ _ _ _ _ Hmod).
  unfold completion_check, try_except.
  now rewrite (completion_body_without_token E repo repo_full_name u).
Qed.

Lemma missing_token_stops_the_run_witness :
  let request := Scenario.unsigned (Json.dumps Scenario.payload_readme) in
  let run := github_webhook Scenario.E_live request Cases.st_no_token in
  fst run = Ret (VDict [("status", VStr "error"); ("reason", VStr "no github token")]) /\
  trace (snd run)
  = [DbQueryRepository "123";
     DbCommit (logged_row Scenario.E_live request Cases.st_no_token "123"
                 Scenario.monitored Scenario.payload_readme);
     DbLoadUser (Some 1%Z)].
Proof.
  intros request run. subst run.
  rewrite (missing_token_stops_the_run Scenario.E_live request Cases.st_no_token
             Scenario.payload_readme (VStr "u/r") "123" Scenario.monitored
             {| User.id := 1; User.github_access_token := None |}).
  - split; reflexivity.
  - repeat split.
    + exists (Json.dumps Scenario.payload_readme). split; reflexivity.
    + exists (VDict [("id", VInt 123); ("full_name", VStr "u/r")]), (VInt 123).
      repeat split. discriminate.
  - exists [VStr "README.md"; VStr "src/a.go"]. split; reflexivity.
  - reflexivity.
  - left; reflexivity.
Defined.

(** X4.  When the monitored repository has no owner row (the foreign key
    is null or dangling), the attribute error raised on [repo.user] is
    caught like any downstream failure: the answer is 200 with
    [{status: "error", error: ...}] carrying the interpreter's message,
    and no collaborator is called. *)
Theorem ownerless_repository_is_a_soft_error
    (E : env) (request : Request.t) (st : state)
    (payload repo_full_name : value) (repo_github_id : string)
    (repo : Repository.row) :
  accepted_push E request (db st) payload repo_full_name repo_github_id repo ->
  readme_modified payload true ->
  repo_user (db st) repo = None ->
  let log := logged_state E request st repo_github_id repo payload in
  let message := "'NoneType' object has no attribute 'github_access_token'" in
  github_webhook E request st
  = (Ret (VDict [("status", VStr "error"); ("error", VStr message)]),
     {| db := db log;
        trace := (trace log ++ [DbLoadUser (Repository.user_id repo);
                                Print ("Error processing webhook: " ++ message)])%list |}).
Proof.
  intros Hacc Hmod Hu log message.
  rewrite (accepted_push_run _ _ _ _ _ _ _ Hacc).
  rewrite (readme_stage_touched _ _ _ _ _ Hmod).
  unfold completion_check, try_except.
  rewrite (completion_body_without_owner E repo repo_full_name) by exact Hu.
  unfold bind, print, emit, ret. cbn [db trace fst snd Py.exn_str].
  now rewrite <- app_assoc.
Qed.

Lemma ownerless_repository_is_a_soft_error_witness :
  let request := Scenario.unsigned (Json.dumps Scenario.payload_readme) in
  fst (github_webhook Scenario.E_live request Cases.st_orphan)
  = Ret (VDict [("status", VStr "error");
                ("error",
                 VStr "'NoneType' object has no attribute 'github_access_token'")]).
Proof.
  intros request.
  rewrite (ownerless_repository_is_a_soft_error Scenario.E_live request Cases.st_orphan
             Scenario.payload_readme (VStr "u/r") "123"
             {| Repository.id := 7;
                Repository.user_id := None;
                Repository.github_repo_id := "123";
                Repository.full_name := "u/r";
                Repository.is_monitored := true |}).
  - reflexivity.
  - repeat split.
    + exists (Json.dumps Scenario.payload_readme). split; reflexivity.
    + exists (VDict [("id", VInt 123); ("full_name", VStr "u/r")]), (VInt 123).
      repeat split. discriminate.
  - exists [VStr "README.md"; VStr "src/a.go"]. split; reflexivity.
  - reflexivity.
Defined.

(** ** What a computation can return *)

Section Returns.

Context {A : Type} (P : A -> Prop).

Lemma returns_ret (a : A) : P a -> returns P (ret a).
Proof. intros Ha s a' s' H. now inversion H; subst. Qed.

Lemma returns_raise e : returns P (raise e).
Proof. intros s a s' H. discriminate. Qed.

Lemma returns_bind {B} (m : M B) (k : B -> M A) :
  (forall b, returns P (k b)) -> returns P (bind m k).
Proof.
  intros Hk s a s' H. unfold bind in H.
  destruct (m s) as [[b|e] s1]; [exact (Hk b _ _ _ H) | discriminate].
Qed.

Lemma returns_try_except (body : M A) (handler : exn -> M A) :
  returns P body -> (forall e, returns P (handler e)) ->
  returns P (try_except body handler).
Proof.
  intros Hb Hh s a s' H. unfold try_except in H.
  destruct (body s) as [[b|e] s1] eqn:Hs.
  - inversion H; subst. exact (Hb _ _ _ Hs).
  - exact (Hh e _ _ _ H).
Qed.

End Returns.

Ltac returns_tac :=
  repeat first
    [ apply returns_raise
    | apply returns_ret
    | apply returns_bind; intros ?
    | apply returns_try_except; [|intros ?]
    | match goal with
      | |- returns _ (match ?x with _ => _ end) => destruct x
      | |- returns _ (if ?x then _ else _) => destruct x
      end ].

(** X5.  Once an accepted push is found to touch the README, the handler
    cannot fail: whatever Fernet, GitHub and the summarisation engine do,
    the answer has status 200 and its "status" entry is "processed" or
    "error". *)
Theorem touched_readme_is_always_answered
    (E : env) (request : Request.t) (st : state)
    (payload repo_full_name : value) (repo_github_id : string)
    (repo : Repository.row) :
  accepted_push E request (db st) payload repo_full_name repo_github_id repo ->
  readme_modified payload true ->
  exists answer,
    fst (github_webhook E request st) = Ret answer /\
    status_code (fst (github_webhook E request st)) = 200%Z /\
    (answer_status answer = Some (VStr "processed")
     \/ answer_status answer = Some (VStr "error")).
Proof.
  intros Hacc Hmod.
  rewrite (accepted_push_run _ _ _ _ _ _ _ Hacc).
  rewrite (readme_stage_touched _ _ _ _ _ Hmod).
  set (s1 := logged_state E request st repo_github_id repo payload).
  assert (Hret : returns (fun v => answer_status v = Some (VStr "processed")
                                   \/ answer_status v = Some (VStr "error"))
                   (completion_check E repo repo_full_name)).
  { unfold completion_check, completion_body. returns_tac; simpl; auto. }
  destruct (completion_check E repo repo_full_name s1) as [[v|e] s2] eqn:Hrun.
  - exists v. repeat split. exact (Hret _ _ _ Hrun).
  - exfalso. unfold completion_check, try_except in Hrun.
    destruct (completion_body E repo repo_full_name s1) as [[v|e'] s3];
      [discriminate|]. unfold bind, print, emit, ret in Hrun. discriminate.
Qed.

Lemma touched_readme_is_always_answered_witness :
  exists answer,
    fst (github_webhook Scenario.E_offline
           (Scenario.unsigned (Json.dumps Scenario.payload_readme)) Scenario.st_corrupt)
    = Ret answer /\
    status_code
      (fst (github_webhook Scenario.E_offline
              (Scenario.unsigned (Json.dumps Scenario.payload_readme))
              Scenario.st_corrupt)) = 200%Z /\
    (answer_status answer = Some (VStr "processed")
     \/ answer_status answer = Some (VStr "error")).
Proof.
  apply (touched_readme_is_always_answered Scenario.E_offline _ Scenario.st_corrupt
           Scenario.payload_readme (VStr "u/r") "123" Scenario.monitored).
  - repeat split.
    + exists (Json.dumps Scenario.payload_readme). split; reflexivity.
    + exists (VDict [("id", VInt 123); ("full_name", VStr "u/r")]), (VInt 123).
      repeat split. discriminate.
  - exists [VStr "README.md"; VStr "src/a.go"]. split; reflexivity.
Defined.

(* ================================================================== *)
(** * Further properties of the GitHub client *)

Section Client.

Variable E : env.

Lemma make_request_run endpoint access_token s :
  GitHubService._make_request E endpoint access_token s
  = (request_result E (trace s) endpoint access_token,
     {| db := db s;
        trace := (trace s ++ [get_request E endpoint access_token])%list |}).
Proof.
  unfold GitHubService._make_request, request_result, get_request,
    bind, lift, get_trace, emit. cbn.
  destruct (http_send E _ _ _ _); reflexivity.
Qed.

Lemma then_lift_run {A B} (m : M A) (f : A -> outcome B) s :
  (x <- m;; lift (f x)) s = (fst (m s) >>= f, snd (m s)).
Proof.
  unfold bind, lift. destruct (m s) as [[a|e] s1]; reflexivity.
Qed.

Lemma get_repo_metadata_run access_token full_name s :
  match nth_error (split "/" full_name) 1 with
  | None =>
      GitHubService.get_repo_metadata E access_token full_name s
      = (Raise (PyExc "Exception"
                  "Failed to get repo metadata: list index out of range"), s)
  | Some segment =>
      let run := GitHubService.get_repo_metadata E access_token full_name s in
      db (snd run) = db s /\
      exists n,
        (1 <= n <= 5)%nat /\
        trace (snd run)
        = (trace s ++ firstn n (metadata_requests E access_token full_name segment))%list /\
        (forall metadata, fst run = Ret metadata -> n = 5%nat)
  end.
Proof.
  destruct (nth_error (split "/" full_name) 1) as [segment|] eqn:Hseg.
  - cbv zeta. unfold GitHubService.get_repo_metadata, try_except. rewrite Hseg.
    unfold GitHubService.get_repo_details, GitHubService.get_repo_languages,
      GitHubService.get_repo_commits, GitHubService.get_repo_contributors.
    unfold bind, ret, raise, lift.
    rewrite make_request_run.
    destruct (request_result E (trace s) _ access_token);
      [|cbn; split; [reflexivity|]; exists 1%nat; repeat split; try lia; discriminate].
    rewrite get_repo_readme_run. rewrite make_request_run. cbn [db trace fst snd].
    destruct (request_result E _ _ access_token);
      [|cbn; split; [reflexivity|]; exists 3%nat; repeat split; try lia;
        [now rewrite <- !app_assoc | discriminate]].
    rewrite make_request_run. cbn [db trace fst snd].
    destruct (request_result E _ _ access_token);
      [|cbn; split; [reflexivity|]; exists 4%nat; repeat split; try lia;
        [now rewrite <- !app_assoc | discriminate]].
    match goal with
    | |- context [match ?o with Ret _ => _ | Raise _ => _ end] =>
        destruct o
    end;
      [|cbn; split; [reflexivity|]; exists 4%nat; repeat split; try lia;
        [now rewrite <- !app_assoc | discriminate]].
    rewrite make_request_run. cbn [db trace fst snd].
    destruct (request_result E _ _ access_token);
      [|cbn; split; [reflexivity|]; exists 5%nat; repeat split; try lia;
        now rewrite <- !app_assoc].
    match goal with
    | |- context [match ?o with Ret _ => _ | Raise _ => _ end] =>
        destruct o
    end;
      [|cbn; split; [reflexivity|]; exists 5%nat; repeat split; try lia;
        now rewrite <- !app_assoc].
    match goal with
    | |- context [match ?o with Ret _ => _ | Raise _ => _ end] =>
        destruct o
    end;
      cbn; (split; [reflexivity|]); exists 5%nat; repeat split; try lia;
      now rewrite <- !app_assoc.
  - unfold GitHubService.get_repo_metadata, try_except. rewrite Hseg. reflexivity.
Qed.

Lemma get_repo_metadata_raises access_token full_name s e s' :
  GitHubService.get_repo_metadata E access_token full_name s = (Raise e, s') ->
  exists cause,
    e = PyExc "Exception" ("Failed to get repo metadata: " ++ Py.exn_str cause).
Proof.
  unfold GitHubService.get_repo_metadata, try_except.
  match goal with
  | |- context [match ?body s with _ => _ end] => destruct (body s) as [[v|cause] s1]
  end; intros H; [discriminate|].
  unfold raise in H. inversion H; subst. now exists cause.
Qed.

End Client.

(** ** [str.split] *)

Lemma string_app_assoc (a b c : string) : (a ++ b) ++ c = a ++ b ++ c.
Proof. induction a as [|x a IH]; simpl; [reflexivity | now rewrite IH]. Qed.

Lemma string_app_nil_r (a : string) : a ++ EmptyString = a.
Proof. induction a as [|x a IH]; simpl; [reflexivity | now rewrite IH]. Qed.

Lemma split_aux_no_sep (sep : ascii) (cur s : string) :
  ~ In sep (list_ascii_of_string s) -> split_aux sep cur s = [cur ++ s].
Proof.
  revert cur; induction s as [|c s IH]; intros cur Hno; simpl.
  - now rewrite string_app_nil_r.
  - destruct (Ascii.eqb_spec c sep) as [->|Hne].
    + exfalso; apply Hno; now left.
    + rewrite IH by (intros H; apply Hno; now right).
      now rewrite string_app_assoc.
Qed.

Lemma split_aux_at_sep (sep : ascii) (cur a b : string) :
  ~ In sep (list_ascii_of_string a) ->
  split_aux sep cur (a ++ String sep b) = (cur ++ a) :: split_aux sep EmptyString b.
Proof.
  revert cur; induction a as [|c a IH]; intros cur Hno; simpl.
  - rewrite Ascii.eqb_refl. now rewrite string_app_nil_r.
  - destruct (Ascii.eqb_spec c sep) as [->|Hne].
    + exfalso; apply Hno; now left.
    + rewrite IH by (intros H; apply Hno; now right).
      now rewrite string_app_assoc.
Qed.

Lemma second_segment (owner name : string) :
  ~ In "/"%char (list_ascii_of_string owner) ->
  ~ In "/"%char (list_ascii_of_string name) ->
  nth_error (split "/" (owner ++ "/" ++ name)) 1 = Some name.
Proof.
  intros Ho Hn. unfold split.
  change (owner ++ "/" ++ name) with (owner ++ String "/" name).
  rewrite split_aux_at_sep by exact Ho.
  now rewrite split_aux_no_sep by exact Hn.
Qed.

Lemma no_second_segment (full_name : string) :
  ~ In "/"%char (list_ascii_of_string full_name) ->
  nth_error (split "/" full_name) 1 = None.
Proof.
  intros Hno. unfold split. now rewrite split_aux_no_sep by exact Hno.
Qed.

(** X6.  For a repository called owner/name, [get_repo_metadata] leaves
    the database alone and asks GitHub at most five things, always in the
    same order and starting with [/repositories/name] (the name, where the
    route of [get_repo_details] takes an id): the requests made are the
    first [n] of details, README, languages, the ten last commits and
    contributors, with [n] at least 1, and all five when it returns. *)
Theorem metadata_requests_are_fixed
    (E : env) (access_token owner name : string) (s : state) :
  ~ In "/"%char (list_ascii_of_string owner) ->
  ~ In "/"%char (list_ascii_of_string name) ->
  let full_name := owner ++ "/" ++ name in
  let run := GitHubService.get_repo_metadata E access_token full_name s in
  db (snd run) = db s /\
  exists n,
    (1 <= n <= 5)%nat /\
    trace (snd run)
    = (trace s ++ firstn n (metadata_requests E access_token full_name name))%list /\
    (forall metadata, fst run = Ret metadata -> n = 5%nat).
Proof.
  intros Ho Hn full_name run.
  pose proof (get_repo_metadata_run E access_token full_name s) as H.
  subst full_name. rewrite (second_segment owner name Ho Hn) in H. exact H.
Qed.

Lemma metadata_requests_are_fixed_witness :
  let run := GitHubService.get_repo_metadata Scenario.E_live "ghp_abc" "u/r"
               Scenario.st_ready in
  db (snd run) = db Scenario.st_ready /\
  exists n,
    (1 <= n <= 5)%nat /\
    trace (snd run)
    = (trace Scenario.st_ready
         ++ firstn n (metadata_requests Scenario.E_live "ghp_abc" "u/r" "r"))%list /\
    (forall metadata, fst run = Ret metadata -> n = 5%nat).
Proof.
  apply (metadata_requests_are_fixed Scenario.E_live "ghp_abc" "u" "r" Scenario.st_ready).
  - simpl. intros [H|[]]. discriminate.
  - simpl. intros [H|[]]. discriminate.
Defined.

Lemma get_repo_metadata_wraps (E : env) access_token full_name s :
  GitHubService.get_repo_metadata E access_token full_name s
  = match get_repo_metadata_body E access_token full_name s with
    | (Ret metadata, s') => (Ret metadata, s')
    | (Raise cause, s') => (Raise (metadata_failure cause), s')
    end.
Proof. reflexivity. Qed.

Lemma details_failure_run (E : env) access_token full_name segment cause s :
  nth_error (split "/" full_name) 1 = Some segment ->
  request_result E (trace s) ("/repositories/" ++ segment) access_token = Raise cause ->
  get_repo_metadata_body E access_token full_name s
  = (Raise cause,
     {| db := db s;
        trace := (trace s ++ [get_request E ("/repositories/" ++ segment)
                                access_token])%list |}).
Proof.
  intros Hseg Hreq. unfold get_repo_metadata_body. rewrite Hseg.
  unfold GitHubService.get_repo_details.
  unfold bind at 1. unfold ret at 1. unfold bind at 1.
  rewrite make_request_run, Hreq. reflexivity.
Qed.

(** X7.  Whatever goes wrong inside [get_repo_metadata], the caller sees
    [Exception("Failed to get repo metadata: " + str(cause))], where the
    cause is the exception the body of the [try] raised, and the state is
    the one the body left; what the body returns is returned as it is.  A
    repository name without a slash is such a case (the cause is the index
    error of [split("/")[1]], and no request is made at all), a failing
    first request is another (the cause is what the request raised). *)
Theorem metadata_failure_is_wrapped
    (E : env) (access_token full_name : string) (s : state) :
  (forall e s',
      GitHubService.get_repo_metadata E access_token full_name s = (Raise e, s') ->
      exists cause,
        get_repo_metadata_body E access_token full_name s = (Raise cause, s') /\
        e = PyExc "Exception" ("Failed to get repo metadata: " ++ Py.exn_str cause)) /\
  (forall cause s',
      get_repo_metadata_body E access_token full_name s = (Raise cause, s') ->
      GitHubService.get_repo_metadata E access_token full_name s
      = (Raise (PyExc "Exception"
                  ("Failed to get repo metadata: " ++ Py.exn_str cause)), s')) /\
  (forall metadata s',
      get_repo_metadata_body E access_token full_name s = (Ret metadata, s') ->
      GitHubService.get_repo_metadata E access_token full_name s = (Ret metadata, s')) /\
  (~ In "/"%char (list_ascii_of_string full_name) ->
   GitHubService.get_repo_metadata E access_token full_name s
   = (Raise (PyExc "Exception" "Failed to get repo metadata: list index out of range"),
      s)) /\
  (forall segment cause,
      nth_error (split "/" full_name) 1 = Some segment ->
      request_result E (trace s) ("/repositories/" ++ segment) access_token
      = Raise cause ->
      GitHubService.get_repo_metadata E access_token full_name s
      = (Raise (PyExc "Exception"
                  ("Failed to get repo metadata: " ++ Py.exn_str cause)),
         {| db := db s;
            trace := (trace s ++ [get_request E ("/repositories/" ++ segment)
                                    access_token])%list |})).
Proof.
  rewrite get_repo_metadata_wraps.
  split; [|split; [|split; [|split]]].
  - intros e s' H.
    destruct (get_repo_metadata_body E access_token full_name s) as [[v|cause] s1];
      [discriminate|].
    inversion H; subst. exists cause. split; reflexivity.
  - intros cause s' H. now rewrite H.
  - intros metadata s' H. now rewrite H.
  - intros Hno. rewrite <- get_repo_metadata_wraps.
    pose proof (get_repo_metadata_run E access_token full_name s) as H.
    now rewrite (no_second_segment full_name Hno) in H.
  - intros segment cause Hseg Hreq.
    now rewrite (details_failure_run E access_token full_name segment cause s Hseg Hreq).
Qed.

Lemma metadata_failure_is_wrapped_witness :
  GitHubService.get_repo_metadata Scenario.E_live "ghp_abc" "solo" Scenario.st_ready
  = (Raise (PyExc "Exception" "Failed to get repo metadata: list index out of range"),
     Scenario.st_ready) /\
  GitHubService.get_repo_metadata Scenario.E_done "ghp_abc" "u/r" Scenario.st_ready
  = (Raise (PyExc "Exception"
              ("Failed to get repo metadata: "
                 ++ Py.exn_str (PyExc "HTTPStatusError" "Client error '404 Not Found'"))),
     {| db := db Scenario.st_ready;
        trace := (trace Scenario.st_ready
                    ++ [get_request Scenario.E_done ("/repositories/" ++ "r")
                          "ghp_abc"])%list |}).
Proof.
  split.
  - destruct (metadata_failure_is_wrapped Scenario.E_live "ghp_abc" "solo"
                Scenario.st_ready) as (_ & _ & _ & H & _).
    apply H. simpl. intros [H1|[H1|[H1|[H1|[]]]]]; discriminate.
  - destruct (metadata_failure_is_wrapped Scenario.E_done "ghp_abc" "u/r"
                Scenario.st_ready) as (_ & _ & _ & _ & H).
    apply (H "r" (PyExc "HTTPStatusError" "Client error '404 Not Found'")); reflexivity.
Defined.

(** ** The whole pipeline *)

Lemma process_completed_project_returns (E : env) repo access_token s s' :
  process_completed_project E repo access_token s = (Ret tt, s') ->
  exists segment metadata summary,
    nth_error (split "/" (Repository.full_name repo)) 1 = Some segment /\
    db s' = db s /\
    trace s'
    = (trace s
         ++ metadata_requests E access_token (Repository.full_name repo) segment
         ++ [Summarize metadata "professional";
             Print ("Generated summary for " ++ Repository.full_name repo ++ ": "
                    ++ summary)])%list.
Proof.
  unfold process_completed_project, try_except. intros H.
  pose proof (get_repo_metadata_run E access_token (Repository.full_name repo) s) as Hrun.
  unfold bind at 1 in H.
  destruct (GitHubService.get_repo_metadata E access_token (Repository.full_name repo) s)
    as [[metadata|e] s1] eqn:Hmd.
  - destruct (nth_error (split "/" (Repository.full_name repo)) 1) as [segment|];
      [|discriminate].
    cbv zeta in Hrun. cbn [fst snd] in Hrun.
    destruct Hrun as (Hdb & n & _ & Htr & Hn).
    rewrite (Hn metadata eq_refl) in Htr. cbn [firstn] in Htr.
    unfold bind, get_trace, emit, lift, print in H. cbn [db trace fst snd] in H.
    destruct (summarize_repository E (trace s1) metadata "professional")
      as [summary|e]; [|unfold bind, emit, raise in H; discriminate].
    inversion H; subst. exists segment, metadata, summary.
    split; [reflexivity|]. split; [exact Hdb|]. cbn [db trace].
    rewrite Htr. now rewrite <- !app_assoc.
  - unfold bind, print, emit, raise in H. discriminate.
Qed.

(** X8.  When the handler answers [{status: "processed", action:
    "summarization_triggered"}], the run after the owner's token has been
    decrypted consists of exactly six requests to GitHub, one call of the
    summarisation engine with the tone "professional", and one printed
    line: the README is fetched for the name in the payload, then the five
    requests of [get_repo_metadata] are made for the name stored in the
    database (the README a second time among them), and the summary is
    printed.  Nothing is written to the database after the event log
    entry. *)
Theorem summarization_run
    (E : env) (request : Request.t) (st : state)
    (payload repo_full_name : value) (repo_github_id : string)
    (repo : Repository.row) (encrypted access_token : string) :
  accepted_push E request (db st) payload repo_full_name repo_github_id repo ->
  readme_modified payload true ->
  token_ready E (db st) repo encrypted access_token ->
  fst (github_webhook E request st)
  = Ret (VDict [("status", VStr "processed"); ("action", VStr "summarization_triggered")]) ->
  let s2 := fetching_state E request st repo_github_id repo payload encrypted in
  let name := Py.str (repr_container E) repo_full_name in
  let st' := snd (github_webhook E request st) in
  exists segment metadata summary,
    nth_error (split "/" (Repository.full_name repo)) 1 = Some segment /\
    db st' = db s2 /\
    trace st'
    = (trace s2
         ++ [get_request E ("/repos/" ++ name ++ "/readme") access_token]
         ++ metadata_requests E access_token (Repository.full_name repo) segment
         ++ [Summarize metadata "professional";
             Print ("Generated summary for " ++ Repository.full_name repo ++ ": "
                    ++ summary)])%list.
Proof.
  intros Hacc Hmod Hready Hout s2 name st'. subst st'.
  assert (Heq : github_webhook E request st
                = completion_check E repo repo_full_name
                    (logged_state E request st repo_github_id repo payload)).
  { rewrite (accepted_push_run _ _ _ _ _ _ _ Hacc).
    now rewrite (readme_stage_touched _ _ _ _ _ Hmod). }
  unfold completion_check, try_except in Heq.
  rewrite (completion_body_run E repo repo_full_name encrypted access_token) in Heq
    by exact Hready.
  cbv zeta in Heq. fold name in Heq. unfold fetching_state in s2.
  destruct (is_completed _) in Heq; [|rewrite Heq in Hout; discriminate].
  unfold bind at 1 in Heq.
  match type of Heq with
  | context [process_completed_project E repo access_token ?s] =>
      destruct (process_completed_project E repo access_token s) as [[[]|e] s4] eqn:Hp
  end.
  - unfold ret in Heq. rewrite Heq. cbn [fst snd].
    destruct (process_completed_project_returns E repo access_token _ _ Hp)
      as (segment & metadata & summary & Hseg & Hdb & Htr).
    exists segment, metadata, summary. split; [exact Hseg|].
    cbn [db trace] in Hdb, Htr. subst s2. cbn [trace db].
    split; [exact Hdb|]. rewrite Htr.
    unfold get_request, readme_url. now rewrite <- !app_assoc.
  - rewrite Heq in Hout. unfold bind, print, emit, ret in Hout. discriminate.
Qed.

Lemma summarization_run_witness :
  let request := Scenario.unsigned (Json.dumps Scenario.payload_readme) in
  let s2 := fetching_state Scenario.E_live request Scenario.st_ready "123"
              Scenario.monitored Scenario.payload_readme "enc:ghp_abc" in
  exists segment metadata summary,
    nth_error (split "/" "u/r") 1 = Some segment /\
    db (snd (github_webhook Scenario.E_live request Scenario.st_ready)) = db s2 /\
    trace (snd (github_webhook Scenario.E_live request Scenario.st_ready))
    = (trace s2
         ++ [get_request Scenario.E_live "/repos/u/r/readme" "ghp_abc"]
         ++ metadata_requests Scenario.E_live "ghp_abc" "u/r" segment
         ++ [Summarize metadata "professional";
             Print ("Generated summary for u/r: " ++ summary)])%list.
Proof.
  intros request.
  apply (summarization_run Scenario.E_live request Scenario.st_ready
           Scenario.payload_readme (VStr "u/r") "123" Scenario.monitored
           "enc:ghp_abc" "ghp_abc").
  - repeat split.
    + exists (Json.dumps Scenario.payload_readme). split; reflexivity.
    + exists (VDict [("id", VInt 123); ("full_name", VStr "u/r")]), (VInt 123).
      repeat split. discriminate.
  - exists [VStr "README.md"; VStr "src/a.go"]. split; reflexivity.
  - exists {| User.id := 1; User.github_access_token := Some "enc:ghp_abc" |}.
    repeat split. discriminate.
  - vm_compute. reflexivity.
Defined.

(** ** Repeated deliveries *)

Lemma accepted_push_db
    (E : env) (request : Request.t) (st : state)
    (payload repo_full_name : value) (repo_github_id : string)
    (repo : Repository.row) :
  accepted_push E request (db st) payload repo_full_name repo_github_id repo ->
  db (snd (github_webhook E request st))
  = db (logged_state E request st repo_github_id repo payload).
Proof.
  intros Hacc. rewrite (accepted_push_run _ _ _ _ _ _ _ Hacc).
  destruct (readme_stage_quiet E repo repo_full_name payload
              (logged_state E request st repo_github_id repo payload)) as [Hd _].
  now rewrite <- Hd.
Qed.

(** X9.  Deliveries are not deduplicated.  When an accepted push is
    delivered a second time, it is accepted again and logged again: the
    event log ends with two rows that carry the same repository and the
    same payload, under consecutive ids. *)
Theorem redelivery_is_logged_again
    (E : env) (request : Request.t) (st : state)
    (payload repo_full_name : value) (repo_github_id : string)
    (repo : Repository.row) :
  accepted_push E request (db st) payload repo_full_name repo_github_id repo ->
  let st1 := snd (github_webhook E request st) in
  let st2 := snd (github_webhook E request st1) in
  accepted_push E request (db st1) payload repo_full_name repo_github_id repo /\
  exists first second,
    webhook_events (db st2) = (webhook_events (db st) ++ [first; second])%list /\
    WebhookEvent.id second = (WebhookEvent.id first + 1)%Z /\
    WebhookEvent.repository_id second = WebhookEvent.repository_id first /\
    WebhookEvent.payload second = WebhookEvent.payload first /\
    WebhookEvent.processed first = false /\
    WebhookEvent.processed second = false.
Proof.
  intros Hacc st1 st2.
  pose proof (accepted_push_db _ _ _ _ _ _ _ Hacc) as Hdb1. fold st1 in Hdb1.
  assert (Hacc1 : accepted_push E request (db st1) payload repo_full_name
                    repo_github_id repo).
  { destruct Hacc as (Hp & Hi & Hm). split; [exact Hp|]. split; [exact Hi|].
    unfold monitored_repository in *. rewrite Hdb1. exact Hm. }
  split; [exact Hacc1|].
  pose proof (accepted_push_db _ _ _ _ _ _ _ Hacc1) as Hdb2. fold st2 in Hdb2.
  exists (logged_row E request st repo_github_id repo payload),
         (logged_row E request st1 repo_github_id repo payload).
  rewrite Hdb2. cbn [logged_state db webhook_events]. rewrite Hdb1.
  cbn [logged_state db webhook_events webhook_events_seq logged_row
       WebhookEvent.id WebhookEvent.repository_id WebhookEvent.payload
       WebhookEvent.processed].
  rewrite <- app_assoc. repeat split. now rewrite Hdb1.
Qed.

Lemma redelivery_is_logged_again_witness :
  let request := Scenario.unsigned (Json.dumps Scenario.payload_source) in
  let st1 := snd (github_webhook Scenario.E_live request Scenario.st_ready) in
  let st2 := snd (github_webhook Scenario.E_live request st1) in
  map WebhookEvent.id (webhook_events (db st2)) = [1%Z; 2%Z] /\
  accepted_push Scenario.E_live request (db st1) Scenario.payload_source (VStr "u/r")
    "123" Scenario.monitored.
Proof.
  intros request st1 st2. split; [vm_compute; reflexivity|].
  apply (redelivery_is_logged_again Scenario.E_live request Scenario.st_ready
           Scenario.payload_source (VStr "u/r") "123" Scenario.monitored).
  repeat split.
  - exists (Json.dumps Scenario.payload_source). split; reflexivity.
  - exists (VDict [("id", VInt 123); ("full_name", VStr "u/r")]), (VInt 123).
    repeat split. discriminate.
Defined.

(* ================================================================== *)
(** * The repository listing of the client *)

Lemma omap_length {A B} (f : A -> outcome B) (l : list A) (l' : list B) :
  omap f l = Ret l' -> List.length l' = List.length l.
Proof.
  revert l'; induction l as [|x l IH]; intros l' H; simpl in H.
  - now inversion H.
  - destruct (f x) as [y|e]; [|discriminate]. simpl in H.
    destruct (omap f l) as [ys|e]; [|discriminate]. simpl in H.
    inversion H; subst. simpl. now rewrite (IH ys eq_refl).
Qed.

Lemma omap_forall {A B} (P : B -> Prop) (f : A -> outcome B) (l : list A) (l' : list B) :
  (forall x y, f x = Ret y -> P y) -> omap f l = Ret l' -> Forall P l'.
Proof.
  intros Hf. revert l'; induction l as [|x l IH]; intros l' H; simpl in H.
  - inversion H. constructor.
  - destruct (f x) as [y|e] eqn:Hx; [|discriminate]. simpl in H.
    destruct (omap f l) as [ys|e]; [|discriminate]. simpl in H.
    inversion H; subst. constructor; [exact (Hf _ _ Hx) | now apply IH].
Qed.



Section Pages.

Variable E : env.

Lemma fetch_pages_step access_token fuel page repos s :
  GitHubApi.fetch_pages E (S fuel) access_token page repos s
  = let s1 := {| db := db s;
                 trace := (trace s ++ [get_request E (GitHubApi.repos_endpoint page)
                                         access_token])%list |} in
    match request_result E (trace s) (GitHubApi.repos_endpoint page) access_token with
    | Raise e => (Raise e, s1)
    | Ret page_repos =>
        if negb (Py.truthy page_repos) then (Ret repos, s1)
        else
          match Py.iter page_repos with
          | Raise e => (Raise e, s1)
          | Ret items =>
              if (1000 <=? List.length (repos ++ items))%nat
              then (Ret (repos ++ items)%list, s1)
              else GitHubApi.fetch_pages E fuel access_token (page + 1)%Z
                     (repos ++ items)%list s1
          end
    end.
Proof.
  cbn [GitHubApi.fetch_pages]. unfold bind at 1. rewrite make_request_run.
  destruct (request_result E (trace s) _ access_token) as [page_repos|e];
    [|reflexivity].
  destruct (negb (Py.truthy page_repos)); [reflexivity|].
  unfold bind, lift. destruct (Py.iter page_repos); [|reflexivity].
  cbv zeta. destruct (1000 <=? _)%nat; reflexivity.
Qed.



Lemma fetch_pages_requests access_token fuel page repos s :
  let run := GitHubApi.fetch_pages E fuel access_token (Z.of_nat page) repos s in
  db (snd run) = db s /\
  exists k,
    (k <= fuel)%nat /\ (fuel = O \/ 1 <= k)%nat /\
    trace (snd run)
    = (trace s ++ map (page_request E access_token) (seq page k))%list.
Proof.
  revert page repos s. induction fuel as [|fuel IH]; intros page repos s.
  - cbn. split; [reflexivity|]. exists O. repeat split; auto.
    now rewrite app_nil_r.
  - cbv zeta. rewrite fetch_pages_step. cbv zeta.
    assert (Hone : forall (o : outcome (list value)),
               let r := (o, {| db := db s;
                               trace := (trace s
                                           ++ [get_request E
                                                 (GitHubApi.repos_endpoint (Z.of_nat page))
                                                 access_token])%list |}) in
               db (snd r) = db s /\
               exists k,
                 (k <= S fuel)%nat /\ (S fuel = O \/ 1 <= k)%nat /\
                 trace (snd r)
                 = (trace s ++ map (page_request E access_token) (seq page k))%list).
    { intros o. split; [reflexivity|]. exists 1%nat. repeat split; auto; lia. }
    destruct (request_result E (trace s) _ access_token) as [v|e]; [|apply Hone].
    destruct (negb (Py.truthy v)); [apply Hone|].
    destruct (Py.iter v) as [items|e]; [|apply Hone].
    destruct (1000 <=? _)%nat; [apply Hone|].
    replace (Z.of_nat page + 1)%Z with (Z.of_nat (S page)) by lia.
    match goal with
    | |- context [GitHubApi.fetch_pages E fuel access_token _ ?r ?s1] =>
        destruct (IH (S page) r s1) as [Hd (k & Hk & _ & Ht)]
    end.
    split; [exact Hd|]. exists (S k). repeat split; try lia.
    rewrite Ht. cbn [trace seq map]. unfold page_request at 2.
    now rewrite <- app_assoc.
Qed.

End Pages.


Lemma fetch_pages_size (E : env) access_token fuel page repos s l s' :
  page_size_honoured E ->
  (List.length repos < 1000)%nat ->
  GitHubApi.fetch_pages E fuel access_token page repos s = (Ret l, s') ->
  (List.length l <= 1099)%nat.
Proof.
  intros Hp. revert page repos s.
  induction fuel as [|fuel IH]; intros page repos s Hlt Hrun.
  - cbn in Hrun. inversion Hrun; subst. lia.
  - rewrite fetch_pages_step in Hrun. cbv zeta in Hrun.
    destruct (request_result E (trace s) _ access_token) as [v|e] eqn:Hreq;
      [|discriminate].
    destruct (negb (Py.truthy v)); [inversion Hrun; subst; lia|].
    destruct (Py.iter v) as [items|e] eqn:Hi; [|discriminate].
    pose proof (Hp _ _ _ _ _ Hreq Hi) as Hsize.
    destruct (Nat.leb_spec 1000 (List.length (repos ++ items))) as [_|Hlt'].
    + inversion Hrun; subst. rewrite length_app. lia.
    + exact (IH _ _ _ Hlt' Hrun).
Qed.

(** X11.  When GitHub honours [per_page=100], [get_user_repos] returns at
    most 1099 repositories: the loop stops at the first page that brings
    the list to a thousand. *)
Theorem get_user_repos_size
    (E : env) (access_token : string) (s s' : state) (repos : list value) :
  page_size_honoured E ->
  GitHubApi.get_user_repos E access_token s = (Ret repos, s') ->
  (List.length repos <= 1099)%nat.
Proof.
  intros Hp Hrun. unfold GitHubApi.get_user_repos in Hrun.
  rewrite then_lift_run in Hrun.
  destruct (GitHubApi.fetch_pages E 1000 access_token 1 [] s) as [[l|e] s1] eqn:Hf;
    [|discriminate].
  cbn in Hrun. inversion Hrun as [[Hm Hs]].
  rewrite (omap_length _ _ _ Hm).
  apply (fetch_pages_size E access_token 1000 1%Z [] s l s1 Hp); [simpl; lia | exact Hf].
Qed.

Lemma account_page_size : page_size_honoured Cases.E_account.
Proof.
  intros tr endpoint access_token v items Hreq Hi.
  unfold request_result, Cases.E_account, Scenario.deployment in Hreq.
  cbn [http_send GITHUB_API_URL] in Hreq.
  destruct (contains "page=1&" _); vm_compute in Hreq;
    inversion Hreq; subst; inversion Hi; subst; simpl; lia.
Qed.

Lemma get_user_repos_size_witness :
  (List.length [VDict Cases.formatted_a; VDict Cases.formatted_b] <= 1099)%nat.
Proof.
  apply (get_user_repos_size Cases.E_account "ghp_abc" (Scenario.start (Scenario.db_with None true))
           (snd (GitHubApi.get_user_repos Cases.E_account "ghp_abc"
                   (Scenario.start (Scenario.db_with None true))))).
  - exact account_page_size.
  - vm_compute. reflexivity.
Defined.

Lemma characters_are_no_contributors (l : list string) (formatted : list value) :
  omap GitHubService.format_contributor (map VStr l) = Ret formatted -> l = [].
Proof.
  destruct l as [|c cs]; [reflexivity|]. cbn. discriminate.
Qed.

(** X12.  [get_repo_contributors] makes one request and keeps the first
    ten entries of the answer at most, each cut down to its login, its
    number of contributions and its avatar. *)
Theorem contributors_are_capped
    (E : env) (access_token full_name : string) (s s' : state) (v : value) :
  GitHubService.get_repo_contributors E access_token full_name s = (Ret v, s') ->
  s' = {| db := db s;
          trace := (trace s ++ [get_request E ("/repos/" ++ full_name ++ "/contributors")
                                  access_token])%list |} /\
  exists formatted,
    v = VList formatted /\
    (List.length formatted <= 10)%nat /\
    Forall (fun c => exists login contributions avatar_url,
                c = VDict [("login", login); ("contributions", contributions);
                           ("avatar_url", avatar_url)])
           formatted.
Proof.
  intros Hrun. unfold GitHubService.get_repo_contributors in Hrun.
  rewrite then_lift_run, make_request_run in Hrun. cbn [fst snd] in Hrun.
  inversion Hrun as [[Hv Hs]]. split; [reflexivity|]. clear Hrun Hs.
  destruct (request_result E (trace s) _ access_token) as [contributors|e];
    [|discriminate]. cbn [obind] in Hv.
  destruct (Py.slice_to 10 contributors) as [top|e] eqn:Htop; [|discriminate].
  cbn [obind] in Hv.
  destruct (Py.iter top) as [items|e] eqn:Hit; [|discriminate]. cbn [obind] in Hv.
  destruct (omap GitHubService.format_contributor items) as [formatted|e] eqn:Hm;
    [|discriminate]. cbn [obind] in Hv. inversion Hv; subst v.
  exists formatted. split; [reflexivity|]. split.
  - rewrite (omap_length _ _ _ Hm).
    destruct contributors as [| | | |str|l|d];
      unfold Py.slice_to in Htop; try discriminate; inversion Htop; subst top;
      unfold Py.iter in Hit; inversion Hit; subst items.
    + rewrite (characters_are_no_contributors _ _ Hm). simpl. lia.
    + change (List.length (firstn 10 l) <= 10)%nat. rewrite length_firstn. lia.
  - refine (omap_forall _ _ _ _ _ Hm). intros x y Hx.
    unfold GitHubService.format_contributor in Hx.
    destruct (Py.getitem x "login") as [login|e]; [|discriminate].
    destruct (Py.getitem x "contributions") as [contributions|e]; [|discriminate].
    destruct (Py.getitem x "avatar_url") as [avatar_url|e]; [|discriminate].
    cbn in Hx. inversion Hx. now exists login, contributions, avatar_url.
Qed.

Lemma contributors_are_capped_witness :
  snd (GitHubService.get_repo_contributors Cases.E_team "ghp_abc" "u/r"
         (Scenario.start (Scenario.db_with None true)))
  = {| db := Scenario.db_with None true;
       trace := ([] ++ [get_request Cases.E_team ("/repos/" ++ "u/r" ++ "/contributors")
                          "ghp_abc"])%list |} /\
  exists formatted,
    VList (map (fun n =>
                  VDict [("login", VStr ("dev" ++ of_Z (Z.of_nat n)));
                         ("contributions", VInt (Z.of_nat (100 - n)));
                         ("avatar_url",
                          VStr "https://avatars.githubusercontent.com/u/1")])
               (seq 1 10))
    = VList formatted /\
    (List.length formatted <= 10)%nat /\
    Forall (fun c => exists login contributions avatar_url,
                c = VDict [("login", login); ("contributions", contributions);
                           ("avatar_url", avatar_url)])
           formatted.
Proof.
  apply (contributors_are_capped Cases.E_team "ghp_abc" "u/r"
           (Scenario.start (Scenario.db_with None true))).
  vm_compute. reflexivity.
Defined.

(* ================================================================== *)
(** * Registering the hook *)


Lemma client_delete_run
    (E : env) (http_post : list event -> string -> string -> option value -> outcome Response.t)
    endpoint access_token data s :
  GitHubApi._make_request E http_post endpoint access_token "DELETE" data s
  = (response <~ http_send E (trace s) "DELETE" (GITHUB_API_URL E ++ endpoint)
                   access_token;;
     GitHubService.check_response response,
     {| db := db s;
        trace := (trace s ++ [HttpRequest "DELETE" (GITHUB_API_URL E ++ endpoint)
                                access_token])%list |}).
Proof.
  unfold GitHubApi._make_request, bind, lift, get_trace, emit. cbn.
  destruct (http_send E _ _ _ _); reflexivity.
Qed.

(** With its defaults, [_make_request] is the request of the service
    above; a method other than the three sends nothing. *)
Lemma client_get_run
    (E : env) (http_post : list event -> string -> string -> option value -> outcome Response.t)
    endpoint access_token s :
  GitHubApi._make_request E http_post endpoint access_token "GET" None s
  = GitHubService._make_request E endpoint access_token s.
Proof.
  unfold GitHubApi._make_request, GitHubService._make_request,
    bind, lift, get_trace, emit. cbn.
  destruct (http_send E _ _ _ _); reflexivity.
Qed.

Lemma client_unsupported_method
    (E : env) (http_post : list event -> string -> string -> option value -> outcome Response.t)
    endpoint access_token method data s :
  method <> "GET" -> method <> "POST" -> method <> "DELETE" ->
  GitHubApi._make_request E http_post endpoint access_token method data s
  = (Raise (PyExc "ValueError" ("Unsupported method: " ++ method)), s).
Proof.
  intros Hg Hp Hd. apply String.eqb_neq in Hg, Hp, Hd.
  unfold GitHubApi._make_request, bind, get_trace, raise. cbn.
  now rewrite Hg, Hp, Hd.
Qed.


Lemma replace_aux_cons (old new : string) (c : ascii) (r : string) :
  replace_aux old new 0 (String c r)
  = if prefix old (String c r)
    then new ++ replace_aux old new (String.length old - 1) r
    else String c (replace_aux old new 0 r).
Proof. reflexivity. Qed.

Lemma replace_absent (old new s : string) :
  old <> EmptyString -> contains old s = false -> replace old new s = s.
Proof.
  intros Hne. unfold replace. destruct old as [|o old]; [contradiction|]. clear Hne.
  induction s as [|c r IH]; intros H; [reflexivity|].
  cbn [contains] in H. apply orb_false_iff in H as [Hp Hc].
  rewrite replace_aux_cons, Hp. now rewrite (IH Hc).
Qed.

(** The callback path does not overlap itself. *)
Lemma callback_path_has_no_border (u : string) :
  u <> EmptyString ->
  prefix "/auth/github/callback" (u ++ "/auth/github/callback") = true ->
  prefix "/auth/github/callback" u = true.
Proof.
  intros Hne. destruct u as [|c u]; [contradiction|]. clear Hne.
  do 20 (cbn [prefix append];
         destruct (ascii_dec _ c) as [e|_]; [subst c | discriminate];
         destruct u as [|c u]; [intros H; vm_compute in H; discriminate H|]).
  cbn [prefix append].
  destruct (ascii_dec _ c) as [e|_]; [subst c | discriminate].
  intros _. destruct u; reflexivity.
Qed.

Lemma replace_callback_path (base : string) :
  contains "/auth/github/callback" base = false ->
  replace "/auth/github/callback" "/webhooks/github" (base ++ "/auth/github/callback")
  = base ++ "/webhooks/github".
Proof.
  unfold replace.
  induction base as [|c base IH]; intros H; [vm_compute; reflexivity|].
  cbn [contains] in H. apply orb_false_iff in H as [Hp Hc].
  change (String c base ++ "/auth/github/callback")
    with (String c (base ++ "/auth/github/callback")).
  rewrite replace_aux_cons.
  destruct (prefix "/auth/github/callback" (String c (base ++ "/auth/github/callback")))
    eqn:Hq.
  - pose proof (callback_path_has_no_border (String c base) ltac:(discriminate) Hq) as Hb.
    rewrite Hb in Hp. discriminate.
  - rewrite (IH Hc). reflexivity.
Qed.

(** X14.  Where the hook points.  When the redirect URI ends in the
    callback path (and has it nowhere else), the hook is registered at
    the same base followed by "/webhooks/github", the route of the
    handler.  When the redirect URI does not have the callback path at
    all, the hook is registered at the redirect URI itself. *)
Theorem hook_address (E : env) (GITHUB_REDIRECT_URI : string) :
  (forall base,
     GITHUB_REDIRECT_URI = base ++ "/auth/github/callback" ->
     contains "/auth/github/callback" base = false ->
     config_entry "url" (GitHubApi.webhook_config E GITHUB_REDIRECT_URI)
     = Ret (VStr (base ++ "/webhooks/github"))) /\
  (contains "/auth/github/callback" GITHUB_REDIRECT_URI = false ->
   config_entry "url" (GitHubApi.webhook_config E GITHUB_REDIRECT_URI)
   = Ret (VStr GITHUB_REDIRECT_URI)).
Proof.
  assert (Hurl : config_entry "url" (GitHubApi.webhook_config E GITHUB_REDIRECT_URI)
                 = Ret (VStr (replace "/auth/github/callback" "/webhooks/github"
                                GITHUB_REDIRECT_URI))) by reflexivity.
  rewrite Hurl. split.
  - intros base -> Hc. now rewrite replace_callback_path.
  - intros Hc. rewrite replace_absent; [reflexivity | discriminate | exact Hc].
Qed.

Lemma hook_address_witness :
  config_entry "url" (GitHubApi.webhook_config Scenario.E_live Cases.redirect_uri)
  = Ret (VStr ("https://your-backend.railway.app/api/v1" ++ "/webhooks/github")) /\
  config_entry "url" (GitHubApi.webhook_config Scenario.E_live "http://localhost:8000/cb")
  = Ret (VStr "http://localhost:8000/cb").
Proof.
  split.
  - apply (proj1 (hook_address Scenario.E_live Cases.redirect_uri)
             "https://your-backend.railway.app/api/v1"); reflexivity.
  - apply (proj2 (hook_address Scenario.E_live "http://localhost:8000/cb")); reflexivity.
Defined.

(** X15.  The hook is registered with the secret the handler checks:
    a delivery signed with the "secret" of the hook description, the way
    GitHub signs, passes the signature check. *)
Theorem hook_deliveries_verify
    (E : env) (GITHUB_REDIRECT_URI secret : string) (request : Request.t) (st : state) :
  config_entry "secret" (GitHubApi.webhook_config E GITHUB_REDIRECT_URI)
  = Ret (VStr secret) ->
  signature_header request = Some (expected_signature (Request.body request) secret) ->
  signature_gate E request st
  = (Ret tt,
     {| db := db st;
        trace := (trace st ++ [HmacSha256 secret (Request.body request)])%list |}).
Proof.
  intros Hsecret Hsig. cbn in Hsecret. inversion Hsecret; subst secret.
  assert (Hp : passes_signature E request).
  { unfold passes_signature. rewrite Hsig. reflexivity. }
  rewrite (signature_gate_run E request st Hp).
  unfold gate_events. rewrite Hsig. reflexivity.
Qed.

Lemma hook_deliveries_verify_witness :
  signature_gate Scenario.E_live
    (Scenario.signed (Json.dumps Scenario.payload_source)
       (expected_signature (Json.dumps Scenario.payload_source) "your-webhook-secret"))
    Scenario.st_ready
  = (Ret tt,
     {| db := db Scenario.st_ready;
        trace := (trace Scenario.st_ready
                    ++ [HmacSha256 "your-webhook-secret"
                          (Request.body
                             (Scenario.signed (Json.dumps Scenario.payload_source)
                                (expected_signature (Json.dumps Scenario.payload_source)
                                   "your-webhook-secret")))])%list |}).
Proof.
  apply (hook_deliveries_verify Scenario.E_live Cases.redirect_uri "your-webhook-secret").
  - reflexivity.
  - reflexivity.
Defined.

(* ================================================================== *)
(** * [app/api/v1/repos.py] *)

Lemma bind_ret_inv {A B} (m : M A) (k : A -> M B) s b s' :
  (x <- m;; k x) s = (Ret b, s') ->
  exists a s1, m s = (Ret a, s1) /\ k a s1 = (Ret b, s').
Proof.
  unfold bind. destruct (m s) as [[a|e] s1]; [|discriminate].
  intros H. now exists a, s1.
Qed.

Lemma lift_ret_inv {A} (o : outcome A) s a s' :
  lift o s = (Ret a, s') -> o = Ret a /\ s' = s.
Proof.
  unfold lift. destruct o; intros H; inversion H; auto.
Qed.

Lemma query_user_run (user_id : Z) (s : state) :
  Repos.query_user user_id s
  = (Ret (user_row (db s) user_id),
     {| db := db s; trace := (trace s ++ [DbLoadUser (Some user_id)])%list |}).
Proof. reflexivity. Qed.

Lemma user_row_id (d : database) (user_id : Z) (user : User.row) :
  user_row d user_id = Some user -> User.id user = user_id.
Proof.
  intros H. apply find_some in H as [_ H]. now apply Z.eqb_eq in H.
Qed.

Lemma get_user_repos_db (E : env) access_token s :
  db (snd (GitHubApi.get_user_repos E access_token s)) = db s.
Proof.
  unfold GitHubApi.get_user_repos. rewrite then_lift_run. cbn [snd].
  exact (proj1 (fetch_pages_requests E access_token 1000 1 [] s)).
Qed.

Lemma list_repositories_body_db (E : env) (user : User.row) s :
  db (snd ((emit (DecryptToken (Repos.stored_token user));;
            access_token <- lift (decrypt_token E (Repos.stored_token user));;
            repos <- GitHubApi.get_user_repos E access_token;;
            d <- get_db;;
            marked <- lift (omap (Repos.mark_monitored E (Repos.monitored_repo_ids d user))
                              repos);;
            ret (VDict [("repositories", VList marked)])) s))
  = db s.
Proof.
  unfold bind at 1. unfold emit at 1. cbn iota.
  unfold bind at 1. unfold lift at 1.
  destruct (decrypt_token E _) as [access_token|e]; [|reflexivity].
  unfold bind at 1.
  pose proof (get_user_repos_db E access_token
                {| db := db s;
                   trace := (trace s ++ [DecryptToken (Repos.stored_token user)])%list |})
    as Hd.
  destruct (GitHubApi.get_user_repos E access_token _) as [[repos|e] s2];
    cbn [snd db] in Hd; [|exact Hd].
  unfold bind, get_db, lift, ret.
  destruct (omap _ repos); exact Hd.
Qed.

Lemma format_repo_has_id (repo formatted : value) :
  GitHubApi.format_repo repo = Ret formatted ->
  exists id, Py.getitem formatted "id" = Ret id /\ exists d, formatted = VDict d.
Proof.
  unfold GitHubApi.format_repo.
  repeat (match goal with
          | |- (_ <~ ?o;; _) = _ -> _ => destruct o; [cbn [obind]|discriminate]
          end).
  intros H. inversion H. eexists. split; [reflexivity|]. eexists; reflexivity.
Qed.

Lemma mark_monitored_total (E : env) (ids : list string) (repos : list value) :
  Forall (fun r => exists id, Py.getitem r "id" = Ret id /\ exists d, r = VDict d) repos ->
  exists marked,
    omap (Repos.mark_monitored E ids) repos = Ret marked /\
    List.length marked = List.length repos.
Proof.
  induction 1 as [|r l (id & Hid & d & ->) _ (marked & Hm & Hl)].
  - exists []. split; reflexivity.
  - eexists. cbn [omap]. unfold Repos.mark_monitored at 1. rewrite Hid. cbn [obind].
    rewrite Hm. cbn [obind]. split; [reflexivity|]. cbn. now rewrite Hl.
Qed.

Lemma get_user_repos_have_ids (E : env) access_token s repos :
  fst (GitHubApi.get_user_repos E access_token s) = Ret repos ->
  Forall (fun r => exists id, Py.getitem r "id" = Ret id /\ exists d, r = VDict d) repos.
Proof.
  unfold GitHubApi.get_user_repos. rewrite then_lift_run. cbn [fst].
  destruct (fst (GitHubApi.fetch_pages E 1000 access_token 1 [] s)) as [raw|e];
    [|discriminate].
  cbn [obind]. intros H. refine (omap_forall _ _ _ _ _ H).
  intros x y. apply format_repo_has_id.
Qed.

Lemma list_repositories_run (E : env) (user_id : Z) (user : User.row) (s : state) :
  user_row (db s) user_id = Some user ->
  Repos.no_token user = false ->
  fst (Repos.list_repositories E user_id s)
  = match decrypt_token E (Repos.stored_token user) with
    | Raise e => Raise (listing_failure e)
    | Ret access_token =>
        match GitHubApi.get_user_repos E access_token (listing_state user_id user s) with
        | (Raise e, _) => Raise (listing_failure e)
        | (Ret repos, s3) =>
            match omap (Repos.mark_monitored E (Repos.monitored_repo_ids (db s3) user))
                    repos with
            | Raise e => Raise (listing_failure e)
            | Ret marked => Ret (VDict [("repositories", VList marked)])
            end
        end
    end.
Proof.
  intros Hu Ht. unfold Repos.list_repositories.
  rewrite (bind_ret_run _ _ _ _ _ (query_user_run user_id s)), Hu, Ht.
  unfold try_except, listing_state.
  unfold bind at 1. unfold emit at 1. cbn iota.
  unfold bind at 1. unfold lift at 1. cbn [db trace].
  rewrite <- app_assoc. cbn [app].
  destruct (decrypt_token E (Repos.stored_token user)) as [access_token|e];
    [|reflexivity].
  unfold bind at 1.
  destruct (GitHubApi.get_user_repos E access_token _) as [[repos|e] s3];
    [|reflexivity].
  unfold bind, get_db, lift, ret.
  destruct (omap _ repos); reflexivity.
Qed.

(** X16.  [list_repositories] answers 200, 400 or 404 and nothing else:
    404 exactly when there is no such user, 400 "GitHub not connected"
    when the user has no stored token, and 400 "Failed to fetch
    repositories: " followed by [str(e)] for the exception [e] that the
    decryption of the token or the paging of GitHub raises; when both go
    through, the answer is 200 with one entry for each repository
    [get_user_repos] returned.  The database is not written, and without
    a user or without a stored token nothing is decrypted and GitHub is
    not asked. *)
Theorem list_repositories_statuses (E : env) (user_id : Z) (s : state) :
  let run := Repos.list_repositories E user_id s in
  db (snd run) = db s /\
  (status_code (fst run) = 200 \/ status_code (fst run) = 400
   \/ status_code (fst run) = 404)%Z /\
  (status_code (fst run) = 404%Z <-> user_row (db s) user_id = None) /\
  (forall user,
     user_row (db s) user_id = Some user -> Repos.no_token user = true ->
     fst run = Raise (HTTPException 400 "GitHub not connected")) /\
  ((forall user, user_row (db s) user_id = Some user -> Repos.no_token user = true) ->
   trace (snd run) = (trace s ++ [DbLoadUser (Some user_id)])%list) /\
  (forall user e,
     user_row (db s) user_id = Some user -> Repos.no_token user = false ->
     decrypt_token E (Repos.stored_token user) = Raise e ->
     fst run
     = Raise (HTTPException 400 ("Failed to fetch repositories: " ++ Py.exn_str e))) /\
  (forall user access_token e,
     user_row (db s) user_id = Some user -> Repos.no_token user = false ->
     decrypt_token E (Repos.stored_token user) = Ret access_token ->
     fst (GitHubApi.get_user_repos E access_token (listing_state user_id user s))
     = Raise e ->
     fst run
     = Raise (HTTPException 400 ("Failed to fetch repositories: " ++ Py.exn_str e))) /\
  (forall user access_token repos,
     user_row (db s) user_id = Some user -> Repos.no_token user = false ->
     decrypt_token E (Repos.stored_token user) = Ret access_token ->
     fst (GitHubApi.get_user_repos E access_token (listing_state user_id user s))
     = Ret repos ->
     exists marked,
       fst run = Ret (VDict [("repositories", VList marked)]) /\
       List.length marked = List.length repos).
Proof.
  cbv zeta.
  split; [|split; [|split; [|split; [|split; [|split; [|split]]]]]].
  - unfold Repos.list_repositories.
    rewrite (bind_ret_run _ _ _ _ _ (query_user_run user_id s)).
    destruct (user_row (db s) user_id) as [user|]; [|reflexivity].
    destruct (Repos.no_token user); [reflexivity|].
    unfold try_except.
    match goal with
    | |- context [match ?body ?s1 with _ => _ end] =>
        pose proof (list_repositories_body_db E user s1) as Hd;
        destruct (body s1) as [[v|e] s2]
    end; exact Hd.
  - destruct (user_row (db s) user_id) as [user|] eqn:Hu.
    + destruct (Repos.no_token user) eqn:Ht.
      * unfold Repos.list_repositories.
        rewrite (bind_ret_run _ _ _ _ _ (query_user_run user_id s)), Hu, Ht.
        right; left; reflexivity.
      * rewrite (list_repositories_run E user_id user s Hu Ht).
        destruct (decrypt_token E _); [|now right; left].
        destruct (GitHubApi.get_user_repos E _ _) as [[repos|e] s3]; [|now right; left].
        destruct (omap _ repos); [now left | now right; left].
    + unfold Repos.list_repositories.
      rewrite (bind_ret_run _ _ _ _ _ (query_user_run user_id s)), Hu.
      right; right; reflexivity.
  - destruct (user_row (db s) user_id) as [user|] eqn:Hu.
    + split; [|discriminate]. intros H. exfalso. revert H.
      destruct (Repos.no_token user) eqn:Ht.
      * unfold Repos.list_repositories.
        rewrite (bind_ret_run _ _ _ _ _ (query_user_run user_id s)), Hu, Ht.
        discriminate.
      * rewrite (list_repositories_run E user_id user s Hu Ht).
        destruct (decrypt_token E _); [|discriminate].
        destruct (GitHubApi.get_user_repos E _ _) as [[repos|e] s3]; [|discriminate].
        destruct (omap _ repos); discriminate.
    + split; [reflexivity|]. intros _. unfold Repos.list_repositories.
      rewrite (bind_ret_run _ _ _ _ _ (query_user_run user_id s)), Hu. reflexivity.
  - intros user Hu Ht. unfold Repos.list_repositories.
    rewrite (bind_ret_run _ _ _ _ _ (query_user_run user_id s)), Hu, Ht. reflexivity.
  - intros H. unfold Repos.list_repositories.
    rewrite (bind_ret_run _ _ _ _ _ (query_user_run user_id s)).
    destruct (user_row (db s) user_id) as [user|] eqn:Hu; [|reflexivity].
    rewrite (H user eq_refl). reflexivity.
  - intros user e Hu Ht Hdec.
    rewrite (list_repositories_run E user_id user s Hu Ht), Hdec. reflexivity.
  - intros user access_token e Hu Ht Hdec Hrepos.
    rewrite (list_repositories_run E user_id user s Hu Ht), Hdec.
    destruct (GitHubApi.get_user_repos E access_token _) as [o s3].
    cbn [fst] in Hrepos. subst o. reflexivity.
  - intros user access_token repos Hu Ht Hdec Hrepos.
    rewrite (list_repositories_run E user_id user s Hu Ht), Hdec.
    pose proof (get_user_repos_have_ids E access_token _ repos Hrepos) as Hids.
    destruct (GitHubApi.get_user_repos E access_token _) as [o s3].
    cbn [fst] in Hrepos. subst o.
    destruct (mark_monitored_total E (Repos.monitored_repo_ids (db s3) user) repos Hids)
      as (marked & Hm & Hl).
    exists marked. now rewrite Hm.
Qed.

Lemma list_repositories_statuses_witness :
  fst (Repos.list_repositories Scenario.E_offline 1 Scenario.st_ready)
  = Raise (HTTPException 400
             ("Failed to fetch repositories: "
                ++ Py.exn_str (PyExc "ConnectError" "All connection attempts failed"))) /\
  fst (Repos.list_repositories Scenario.E_live 1 Scenario.st_corrupt)
  = Raise (HTTPException 400
             ("Failed to fetch repositories: "
                ++ Py.exn_str (PyExc "InvalidToken" EmptyString))).
Proof.
  split.
  - destruct (list_repositories_statuses Scenario.E_offline 1 Scenario.st_ready)
      as (_ & _ & _ & _ & _ & _ & H & _).
    apply (H {| User.id := 1; User.github_access_token := Some "enc:ghp_abc" |}
             "ghp_abc"); reflexivity.
  - destruct (list_repositories_statuses Scenario.E_live 1 Scenario.st_corrupt)
      as (_ & _ & _ & _ & _ & H & _).
    apply (H {| User.id := 1; User.github_access_token := Some "garbage" |});
      reflexivity.
Defined.

Lemma lookup_set_entry (k : string) (v : value) (d : list (string * value)) :
  Py.lookup k (set_entry k v d) = Some v.
Proof.
  induction d as [|[k' v'] d IH]; cbn.
  - now rewrite String.eqb_refl.
  - destruct (String.eqb_spec k' k) as [->|Hne]; cbn.
    + now rewrite String.eqb_refl.
    + apply String.eqb_neq in Hne. now rewrite Hne.
Qed.

Lemma lookup_set_entry_other (k k0 : string) (v : value) (d : list (string * value)) :
  k0 <> k -> Py.lookup k0 (set_entry k v d) = Py.lookup k0 d.
Proof.
  intros Hne. induction d as [|[k' v'] d IH]; cbn.
  - destruct (String.eqb_spec k k0) as [->|_]; [contradiction | reflexivity].
  - destruct (String.eqb_spec k' k) as [->|Hk]; cbn.
    + destruct (String.eqb_spec k k0) as [->|_]; [contradiction | reflexivity].
    + now rewrite IH.
Qed.

Lemma mark_monitored_entries (E : env) (ids : list string) (repo marked : value) :
  Repos.mark_monitored E ids repo = Ret marked ->
  exists id,
    Py.getitem marked "id" = Ret id /\
    Py.getitem marked "is_monitored"
    = Ret (VBool (existsb (String.eqb (Py.str (repr_container E) id)) ids)).
Proof.
  unfold Repos.mark_monitored.
  destruct (Py.getitem repo "id") as [id|e] eqn:Hid; [|discriminate]. cbn [obind].
  destruct repo as [| | | | | |d]; try discriminate.
  intros H. inversion H; subst marked. exists id. cbn [Py.getitem] in *.
  rewrite lookup_set_entry, lookup_set_entry_other by discriminate.
  split; [exact Hid | reflexivity].
Qed.

Lemma monitored_repo_ids_spec (d : database) (user : User.row) (github_repo_id : string) :
  existsb (String.eqb github_repo_id) (Repos.monitored_repo_ids d user) = true
  <-> monitors d (User.id user) github_repo_id.
Proof.
  unfold Repos.monitored_repo_ids, Repos.user_repos, monitors.
  rewrite existsb_exists. split.
  - intros (x & Hin & Heq). apply String.eqb_eq in Heq. subst x.
    apply in_map_iff in Hin as (row & Hg & Hin).
    apply filter_In in Hin as [Hin Hm]. apply filter_In in Hin as [Hin Hu].
    exists row. repeat split; auto.
    destruct (Repository.user_id row) as [uid|]; [|discriminate].
    apply Z.eqb_eq in Hu. now subst.
  - intros (row & Hin & Hu & Hm & Hg). exists github_repo_id.
    split; [|apply String.eqb_refl].
    apply in_map_iff. exists row. split; [exact Hg|].
    apply filter_In. split; [|exact Hm].
    apply filter_In. split; [exact Hin|]. rewrite Hu. apply Z.eqb_refl.
Qed.

Lemma monitors_is_found (d : database) (user_id : Z) (github_repo_id : string) :
  monitors d user_id github_repo_id ->
  exists row, monitored_repository d github_repo_id = Some row.
Proof.
  intros (row & Hin & _ & Hm & Hg).
  destruct (monitored_repository d github_repo_id) as [r|] eqn:Hf; [now exists r|].
  pose proof (proj1 (monitored_repository_none d github_repo_id) Hf row Hin Hg).
  congruence.
Qed.

(** X17.  What the flags of [list_repositories] mean.  Every entry of
    the answer has an "id" and an "is_monitored"; the flag is set exactly
    when the user has a monitored row whose [github_repo_id] is [str(id)],
    and then a push for that id is a push the webhook handler finds a
    monitored repository for. *)
Theorem listed_flags_are_the_monitored_rows
    (E : env) (user_id : Z) (s s' : state) (answer : value) :
  Repos.list_repositories E user_id s = (Ret answer, s') ->
  exists marked,
    answer = VDict [("repositories", VList marked)] /\
    Forall (fun repo =>
              exists id flag,
                Py.getitem repo "id" = Ret id /\
                Py.getitem repo "is_monitored" = Ret (VBool flag) /\
                (flag = true
                 <-> monitors (db s) user_id (Py.str (repr_container E) id)) /\
                (flag = true ->
                 exists row,
                   monitored_repository (db s) (Py.str (repr_container E) id)
                   = Some row))
           marked.
Proof.
  unfold Repos.list_repositories. intros Hrun.
  rewrite (bind_ret_run _ _ _ _ _ (query_user_run user_id s)) in Hrun.
  destruct (user_row (db s) user_id) as [user|] eqn:Hu; [|discriminate].
  pose proof (user_row_id _ _ _ Hu) as Hid.
  destruct (Repos.no_token user); [discriminate|].
  unfold try_except in Hrun.
  match type of Hrun with
  | context [match ?body ?s1 with _ => _ end] =>
      destruct (body s1) as [[v|e] s2] eqn:Hbody; [|discriminate]
  end.
  inversion Hrun; subst v s2. clear Hrun.
  apply bind_ret_inv in Hbody as ([] & s1 & Hemit & Hbody).
  unfold emit in Hemit. inversion Hemit; subst s1. clear Hemit.
  apply bind_ret_inv in Hbody as (access_token & s1 & Hdec & Hbody).
  apply lift_ret_inv in Hdec as [Hdec ->].
  apply bind_ret_inv in Hbody as (repos & s2 & Hrepos & Hbody).
  pose proof (get_user_repos_db E access_token
                {| db := db s;
                   trace := (trace s ++ [DbLoadUser (Some user_id)]
                               ++ [DecryptToken (Repos.stored_token user)])%list |}) as Hd.
  rewrite <- app_assoc in Hrepos. rewrite Hrepos in Hd. cbn [snd db] in Hd.
  apply bind_ret_inv in Hbody as (d & s3 & Hget & Hbody).
  unfold get_db in Hget. inversion Hget; subst d s3. clear Hget.
  apply bind_ret_inv in Hbody as (marked & s3 & Hmark & Hbody).
  apply lift_ret_inv in Hmark as [Hmark ->].
  unfold ret in Hbody. inversion Hbody; subst.
  exists marked. split; [reflexivity|].
  refine (omap_forall _ _ _ _ _ Hmark). intros repo m Hm.
  apply mark_monitored_entries in Hm as (id & Hi & Hf).
  rewrite Hd in Hf.
  exists id, (existsb (String.eqb (Py.str (repr_container E) id))
                (Repos.monitored_repo_ids (db s) user)).
  split; [exact Hi|]. split; [exact Hf|].
  rewrite monitored_repo_ids_spec. split; [reflexivity|].
  apply monitors_is_found.
Qed.

Lemma listed_flags_are_the_monitored_rows_witness :
  exists marked,
    VDict [("repositories",
            VList [VDict (Cases.formatted_a ++ [("is_monitored", VBool true)]);
                   VDict (Cases.formatted_b ++ [("is_monitored", VBool false)])])]
    = VDict [("repositories", VList marked)] /\
    Forall (fun repo =>
              exists id flag,
                Py.getitem repo "id" = Ret id /\
                Py.getitem repo "is_monitored" = Ret (VBool flag) /\
                (flag = true
                 <-> monitors (db Scenario.st_ready) 1
                       (Py.str (repr_container Cases.E_account) id)) /\
                (flag = true ->
                 exists row,
                   monitored_repository (db Scenario.st_ready)
                     (Py.str (repr_container Cases.E_account) id)
                   = Some row))
           marked.
Proof.
  apply (listed_flags_are_the_monitored_rows Cases.E_account 1 Scenario.st_ready
           (snd (Repos.list_repositories Cases.E_account 1 Scenario.st_ready))).
  vm_compute. reflexivity.
Defined.

Lemma remove_webhook_run
    (E : env) (http_post : list event -> string -> string -> option value -> outcome Response.t)
    (user : User.row) (repo : Repository.row) (hook : option string) (s : state) :
  exists evs,
    Repos.remove_webhook E http_post user repo hook s
    = (Ret tt, {| db := db s; trace := (trace s ++ evs)%list |}) /\
    (evs = []
     \/ evs = [DecryptToken (Repos.stored_token user)]
     \/ exists access_token hook_id,
          hook = Some hook_id /\
          decrypt_token E (Repos.stored_token user) = Ret access_token /\
          evs = [DecryptToken (Repos.stored_token user);
                 unhook_request E access_token (Repository.full_name repo) hook_id]).
Proof.
  assert (Hnone : exists evs,
             (@ret unit tt) s
             = (Ret tt, {| db := db s; trace := (trace s ++ evs)%list |}) /\
             (evs = []
              \/ evs = [DecryptToken (Repos.stored_token user)]
              \/ exists access_token hook_id,
                   hook = Some hook_id /\
                   decrypt_token E (Repos.stored_token user) = Ret access_token /\
                   evs = [DecryptToken (Repos.stored_token user);
                          unhook_request E access_token (Repository.full_name repo)
                            hook_id])).
  { exists []. split; [|now left]. unfold ret. now rewrite app_nil_r, state_eta. }
  unfold Repos.remove_webhook.
  destruct hook as [[|c hook_id]|]; [exact Hnone| |exact Hnone].
  destruct (Repos.no_token user); [exact Hnone|]. clear Hnone.
  unfold try_except, bind at 1, emit at 1. cbn iota.
  unfold bind at 1, lift at 1.
  destruct (decrypt_token E (Repos.stored_token user)) as [access_token|e] eqn:Hdec.
  - unfold GitHubApi.delete_webhook, bind at 1. rewrite client_delete_run.
    exists [DecryptToken (Repos.stored_token user);
            unhook_request E access_token (Repository.full_name repo)
              (String c hook_id)].
    split.
    + unfold unhook_request. cbn [trace db]. rewrite <- app_assoc. cbn [app].
      destruct (_ <~ http_send E _ _ _ _;; _); reflexivity.
    + right; right. now exists access_token, (String c hook_id).
  - exists [DecryptToken (Repos.stored_token user)]. split; [reflexivity | now right; left].
Qed.

Lemma unique_key {A B} (key : A -> B) (l : list A) (a b : A) :
  NoDup (map key l) -> In a l -> In b l -> key a = key b -> a = b.
Proof.
  induction l as [|x l IH]; intros Hnd Ha Hb Hk; [contradiction|].
  cbn in Hnd. inversion Hnd as [|? ? Hnotin Hnd']; subst.
  destruct Ha as [->|Ha], Hb as [->|Hb].
  - reflexivity.
  - exfalso. apply Hnotin. rewrite Hk. now apply in_map.
  - exfalso. apply Hnotin. rewrite <- Hk. now apply in_map.
  - now apply IH.
Qed.

Lemma query_repository_row (d : database) (user : User.row) (repo_id : string)
    (repo : Repository.row) :
  Repos.query_repository d user repo_id = Some repo ->
  In repo (repositories d) /\
  Repository.user_id repo = Some (User.id user) /\
  Repository.github_repo_id repo = repo_id.
Proof.
  intros H. apply find_some in H as [Hin H]. apply andb_true_iff in H as [Hu Hg].
  split; [exact Hin|]. split; [|now apply String.eqb_eq].
  destruct (Repository.user_id repo) as [uid|]; [|discriminate].
  apply Z.eqb_eq in Hu. now subst.
Qed.

Lemma unmonitor_disables (d : database) (repo : Repository.row) :
  NoDup (map Repository.github_repo_id (repositories d)) ->
  In repo (repositories d) ->
  monitored_repository (Repos.unmonitor (Repository.id repo) d)
    (Repository.github_repo_id repo) = None.
Proof.
  intros Hnd Hin. apply monitored_repository_none. intros r Hr Hg.
  cbn [Repos.unmonitor repositories] in Hr.
  apply in_map_iff in Hr as (r0 & <- & Hr0).
  destruct (Z.eqb_spec (Repository.id r0) (Repository.id repo)) as [_|Hne];
    [reflexivity|].
  rewrite (unique_key Repository.github_repo_id _ r0 repo Hnd Hr0 Hin Hg) in Hne.
  contradiction.
Qed.

Lemma unmonitor_frame (d : database) (repo : Repository.row) (github_repo_id : string) :
  NoDup (map Repository.id (repositories d)) ->
  In repo (repositories d) ->
  github_repo_id <> Repository.github_repo_id repo ->
  monitored_repository (Repos.unmonitor (Repository.id repo) d) github_repo_id
  = monitored_repository d github_repo_id.
Proof.
  intros Hnd Hin Hne. unfold monitored_repository.
  cbn [Repos.unmonitor repositories].
  assert (Hrows : forall r, In r (repositories d) ->
                            Repository.id r = Repository.id repo -> r = repo).
  { intros r Hr Hk. exact (unique_key Repository.id _ r repo Hnd Hr Hin Hk). }
  revert Hrows. clear Hnd Hin.
  induction (repositories d) as [|r l IH]; intros Hrows; [reflexivity|].
  cbn [map find].
  assert (Htail : forall r', In r' l -> Repository.id r' = Repository.id repo -> r' = repo).
  { intros r' Hr'. apply Hrows. now right. }
  destruct (Z.eqb_spec (Repository.id r) (Repository.id repo)) as [Heq|Hdiff].
  - rewrite (Hrows r (or_introl eq_refl) Heq). cbn [Repository.github_repo_id].
    destruct (String.eqb_spec (Repository.github_repo_id repo) github_repo_id)
      as [Hsame|_]; [now symmetry in Hsame|].
    cbn [andb]. exact (IH Htail).
  - destruct (_ && _); [reflexivity|]. exact (IH Htail).
Qed.

Lemma stop_monitoring_run
    (E : env) (http_post : list event -> string -> string -> option value -> outcome Response.t)
    (repo_id : string) (user_id : Z) (s : Repos.store)
    (user : User.row) (repo : Repository.row) :
  user_row (db (Repos.app s)) user_id = Some user ->
  Repos.query_repository (db (Repos.app s)) user repo_id = Some repo ->
  exists evs,
    Repos.stop_monitoring_repository E http_post repo_id user_id s
    = (Ret (VDict [("message", VStr "Repository monitoring disabled")]),
       {| Repos.app :=
            {| db := Repos.unmonitor (Repository.id repo) (db (Repos.app s));
               trace := (trace (Repos.app s) ++ DbLoadUser (Some user_id) :: evs)%list |};
          Repos.webhook_id :=
            fun id => if (id =? Repository.id repo)%Z then None
                      else Repos.webhook_id s id |}) /\
    (evs = []
     \/ evs = [DecryptToken (Repos.stored_token user)]
     \/ exists access_token hook_id,
          Repos.webhook_id s (Repository.id repo) = Some hook_id /\
          decrypt_token E (Repos.stored_token user) = Ret access_token /\
          evs = [DecryptToken (Repos.stored_token user);
                 unhook_request E access_token (Repository.full_name repo) hook_id]).
Proof.
  intros Hu Hq. unfold Repos.stop_monitoring_repository.
  rewrite query_user_run, Hu. cbn [db]. rewrite Hq.
  destruct (remove_webhook_run E http_post user repo
              (Repos.webhook_id s (Repository.id repo))
              {| db := db (Repos.app s);
                 trace := (trace (Repos.app s) ++ [DbLoadUser (Some user_id)])%list |})
    as (evs & -> & Hevs).
  exists evs. split; [|exact Hevs].
  cbn [db trace]. now rewrite <- app_assoc.
Qed.

(** X18.  [stop_monitoring_repository] on a row of the user always goes
    through, whether the hook can be removed on GitHub or not: it answers
    200, the row is no longer monitored and has no hook id, the webhook
    handler no longer finds a monitored repository for that GitHub id, and
    what it finds for every other id is what it found before. *)
Theorem stop_monitoring_disables
    (E : env) (http_post : list event -> string -> string -> option value -> outcome Response.t)
    (repo_id : string) (user_id : Z) (s : Repos.store)
    (user : User.row) (repo : Repository.row) :
  repositories_keyed (db (Repos.app s)) ->
  user_row (db (Repos.app s)) user_id = Some user ->
  Repos.query_repository (db (Repos.app s)) user repo_id = Some repo ->
  let run := Repos.stop_monitoring_repository E http_post repo_id user_id s in
  fst run = Ret (VDict [("message", VStr "Repository monitoring disabled")]) /\
  monitored_repository (db (Repos.app (snd run))) repo_id = None /\
  Repos.webhook_id (snd run) (Repository.id repo) = None /\
  (forall other, other <> repo_id ->
     monitored_repository (db (Repos.app (snd run))) other
     = monitored_repository (db (Repos.app s)) other) /\
  users (db (Repos.app (snd run))) = users (db (Repos.app s)) /\
  webhook_events (db (Repos.app (snd run))) = webhook_events (db (Repos.app s)).
Proof.
  intros [Hid Hgid] Hu Hq. cbv zeta.
  destruct (stop_monitoring_run E http_post repo_id user_id s user repo Hu Hq)
    as (evs & -> & _).
  destruct (query_repository_row _ _ _ _ Hq) as (Hin & _ & <-).
  cbn [fst snd Repos.app Repos.webhook_id db].
  split; [reflexivity|]. split; [now apply unmonitor_disables|].
  split; [now rewrite Z.eqb_refl|].
  split; [intros other Hne; now apply unmonitor_frame|].
  split; reflexivity.
Qed.

Lemma stop_monitoring_disables_witness :
  let run := Repos.stop_monitoring_repository Scenario.E_offline Cases.post_hook
               "123" 1 (Cases.hooked Scenario.st_ready) in
  fst run = Ret (VDict [("message", VStr "Repository monitoring disabled")]) /\
  monitored_repository (db (Repos.app (snd run))) "123" = None /\
  Repos.webhook_id (snd run) (Repository.id Scenario.monitored) = None /\
  (forall other, other <> "123" ->
     monitored_repository (db (Repos.app (snd run))) other
     = monitored_repository (db (Repos.app (Cases.hooked Scenario.st_ready))) other) /\
  users (db (Repos.app (snd run)))
  = users (db (Repos.app (Cases.hooked Scenario.st_ready))) /\
  webhook_events (db (Repos.app (snd run)))
  = webhook_events (db (Repos.app (Cases.hooked Scenario.st_ready))).
Proof.
  apply (stop_monitoring_disables Scenario.E_offline Cases.post_hook "123" 1
           (Cases.hooked Scenario.st_ready)
           {| User.id := 1; User.github_access_token := Some "enc:ghp_abc" |}
           Scenario.monitored).
  - split; cbn; repeat constructor; auto.
  - reflexivity.
  - reflexivity.
Defined.

(** X19.  Once [stop_monitoring_repository] has gone through, a push for
    that repository is answered "ignored": the handler logs no event for
    it any more. *)
Theorem stopped_repository_is_ignored
    (E : env) (http_post : list event -> string -> string -> option value -> outcome Response.t)
    (repo_id : string) (user_id : Z) (s : Repos.store)
    (user : User.row) (repo : Repository.row)
    (request : Request.t) (payload repo_full_name : value) :
  repositories_keyed (db (Repos.app s)) ->
  user_row (db (Repos.app s)) user_id = Some user ->
  Repos.query_repository (db (Repos.app s)) user repo_id = Some repo ->
  push_event E request payload ->
  repository_info E payload repo_full_name repo_id ->
  let after := Repos.app (snd (Repos.stop_monitoring_repository E http_post
                                 repo_id user_id s)) in
  fst (github_webhook E request after) = Ret not_monitored /\
  webhook_events (db (snd (github_webhook E request after)))
  = webhook_events (db (Repos.app s)).
Proof.
  intros [_ Hgid] Hu Hq Hp Hi. cbv zeta.
  destruct (stop_monitoring_run E http_post repo_id user_id s user repo Hu Hq)
    as (evs & -> & _).
  destruct (query_repository_row _ _ _ _ Hq) as (Hin & _ & Hg).
  cbn [snd Repos.app].
  rewrite (push_event_run _ _ _ _ Hp), (handle_push_run _ _ _ _ _ Hi).
  cbv zeta. cbn [db]. rewrite <- Hg.
  rewrite (unmonitor_disables _ _ Hgid Hin). split; reflexivity.
Qed.

Lemma stopped_repository_is_ignored_witness :
  let after := Repos.app (snd (Repos.stop_monitoring_repository Scenario.E_offline
                                 Cases.post_hook "123" 1
                                 (Cases.hooked Scenario.st_ready))) in
  fst (github_webhook Scenario.E_offline
         (Scenario.unsigned (Json.dumps Scenario.payload_readme)) after)
  = Ret not_monitored /\
  webhook_events
    (db (snd (github_webhook Scenario.E_offline
                (Scenario.unsigned (Json.dumps Scenario.payload_readme)) after)))
  = webhook_events (db (Repos.app (Cases.hooked Scenario.st_ready))).
Proof.
  apply (stopped_repository_is_ignored Scenario.E_offline Cases.post_hook "123" 1
           (Cases.hooked Scenario.st_ready)
           {| User.id := 1; User.github_access_token := Some "enc:ghp_abc" |}
           Scenario.monitored
           (Scenario.unsigned (Json.dumps Scenario.payload_readme))
           Scenario.payload_readme (VStr "u/r")).
  - split; cbn; repeat constructor; auto.
  - reflexivity.
  - reflexivity.
  - repeat split. exists (Json.dumps Scenario.payload_readme). split; reflexivity.
  - exists (VDict [("id", VInt 123); ("full_name", VStr "u/r")]), (VInt 123).
    repeat split. discriminate.
Defined.

(** X20.  Nobody stops what is not theirs: when no row with that GitHub
    id belongs to the user (who may not exist at all),
    [stop_monitoring_repository] answers 404 and changes nothing: the
    tables and the hook ids are as they were, nothing is decrypted and
    GitHub is not asked. *)
Theorem foreign_repository_is_not_stopped
    (E : env) (http_post : list event -> string -> string -> option value -> outcome Response.t)
    (repo_id : string) (user_id : Z) (s : Repos.store) :
  (forall r, In r (repositories (db (Repos.app s))) ->
             Repository.github_repo_id r = repo_id ->
             Repository.user_id r <> Some user_id) ->
  let run := Repos.stop_monitoring_repository E http_post repo_id user_id s in
  status_code (fst run) = 404%Z /\
  db (Repos.app (snd run)) = db (Repos.app s) /\
  (forall id, Repos.webhook_id (snd run) id = Repos.webhook_id s id) /\
  trace (Repos.app (snd run))
  = (trace (Repos.app s) ++ [DbLoadUser (Some user_id)])%list.
Proof.
  intros Hforeign. cbv zeta. unfold Repos.stop_monitoring_repository.
  rewrite query_user_run.
  destruct (user_row (db (Repos.app s)) user_id) as [user|] eqn:Hu;
    [|repeat split].
  cbn [db].
  destruct (Repos.query_repository (db (Repos.app s)) user repo_id) as [repo|] eqn:Hq;
    [|repeat split].
  exfalso. destruct (query_repository_row _ _ _ _ Hq) as (Hin & Hown & Hg).
  apply (Hforeign repo Hin Hg). rewrite Hown. f_equal.
  exact (user_row_id _ _ _ Hu).
Qed.

Lemma foreign_repository_is_not_stopped_witness :
  let run := Repos.stop_monitoring_repository Scenario.E_live Cases.post_hook
               "123" 2 (Cases.hooked Cases.st_shared) in
  status_code (fst run) = 404%Z /\
  db (Repos.app (snd run)) = db (Repos.app (Cases.hooked Cases.st_shared)) /\
  (forall id, Repos.webhook_id (snd run) id
              = Repos.webhook_id (Cases.hooked Cases.st_shared) id) /\
  trace (Repos.app (snd run))
  = (trace (Repos.app (Cases.hooked Cases.st_shared)) ++ [DbLoadUser (Some 2%Z)])%list.
Proof.
  apply (foreign_repository_is_not_stopped Scenario.E_live Cases.post_hook "123" 2
           (Cases.hooked Cases.st_shared)).
  intros r [<-|[]] _. discriminate.
Defined.

Lemma remove_webhook_skipped
    (E : env) (http_post : list event -> string -> string -> option value -> outcome Response.t)
    (user : User.row) (repo : Repository.row) (hook : option string) (s : state) :
  hook = None \/ hook = Some EmptyString \/ Repos.no_token user = true ->
  Repos.remove_webhook E http_post user repo hook s = (Ret tt, s).
Proof.
  unfold Repos.remove_webhook. intros [->|[->|Ht]]; [reflexivity | reflexivity |].
  rewrite Ht. destruct hook as [[|c h]|]; reflexivity.
Qed.

(** X21.  [stop_monitoring_repository] asks GitHub at most once, and only
    to delete the hook of the row: the row has a hook id, the stored token
    decrypts, and the request is the DELETE of that hook of that
    repository with the decrypted token.  Without a hook id or without a
    stored token nothing is decrypted and nothing is sent. *)
Theorem stop_monitoring_requests
    (E : env) (http_post : list event -> string -> string -> option value -> outcome Response.t)
    (repo_id : string) (user_id : Z) (s : Repos.store)
    (user : User.row) (repo : Repository.row) :
  user_row (db (Repos.app s)) user_id = Some user ->
  Repos.query_repository (db (Repos.app s)) user repo_id = Some repo ->
  let run := Repos.stop_monitoring_repository E http_post repo_id user_id s in
  exists evs,
    trace (Repos.app (snd run))
    = (trace (Repos.app s) ++ DbLoadUser (Some user_id) :: evs)%list /\
    (evs = []
     \/ evs = [DecryptToken (Repos.stored_token user)]
     \/ exists access_token hook_id,
          Repos.webhook_id s (Repository.id repo) = Some hook_id /\
          decrypt_token E (Repos.stored_token user) = Ret access_token /\
          evs = [DecryptToken (Repos.stored_token user);
                 unhook_request E access_token (Repository.full_name repo) hook_id]) /\
    (Repos.webhook_id s (Repository.id repo) = None
     \/ Repos.webhook_id s (Repository.id repo) = Some EmptyString
     \/ Repos.no_token user = true ->
     evs = []).
Proof.
  intros Hu Hq. cbv zeta.
  destruct (stop_monitoring_run E http_post repo_id user_id s user repo Hu Hq)
    as (evs & Hrun & Hevs).
  exists evs. split; [now rewrite Hrun|]. split; [exact Hevs|].
  intros Hskip.
  unfold Repos.stop_monitoring_repository in Hrun.
  rewrite query_user_run, Hu in Hrun. cbn [db] in Hrun. rewrite Hq in Hrun.
  rewrite (remove_webhook_skipped E http_post user repo _ _ Hskip) in Hrun.
  inversion Hrun as [Ht].
  change (DbLoadUser (Some user_id) :: evs) with ([DbLoadUser (Some user_id)] ++ evs)%list in Ht.
  apply app_inv_head in Ht.
  change [DbLoadUser (Some user_id)] with ([DbLoadUser (Some user_id)] ++ [])%list in Ht at 1.
  apply app_inv_head in Ht. now symmetry.
Qed.

Lemma stop_monitoring_requests_witness :
  let run := Repos.stop_monitoring_repository Scenario.E_live Cases.post_hook
               "123" 1 (Cases.hooked Scenario.st_ready) in
  exists evs,
    trace (Repos.app (snd run))
    = (trace (Repos.app (Cases.hooked Scenario.st_ready))
         ++ DbLoadUser (Some 1%Z) :: evs)%list /\
    (evs = []
     \/ evs = [DecryptToken "enc:ghp_abc"]
     \/ exists access_token hook_id,
          Repos.webhook_id (Cases.hooked Scenario.st_ready)
            (Repository.id Scenario.monitored) = Some hook_id /\
          decrypt_token Scenario.E_live "enc:ghp_abc" = Ret access_token /\
          evs = [DecryptToken "enc:ghp_abc";
                 unhook_request Scenario.E_live access_token
                   (Repository.full_name Scenario.monitored) hook_id]) /\
    (Repos.webhook_id (Cases.hooked Scenario.st_ready) (Repository.id Scenario.monitored)
     = None
     \/ Repos.webhook_id (Cases.hooked Scenario.st_ready)
          (Repository.id Scenario.monitored) = Some EmptyString
     \/ Repos.no_token {| User.id := 1; User.github_access_token := Some "enc:ghp_abc" |}
        = true ->
     evs = []).
Proof.
  apply (stop_monitoring_requests Scenario.E_live Cases.post_hook "123" 1
           (Cases.hooked Scenario.st_ready)
           {| User.id := 1; User.github_access_token := Some "enc:ghp_abc" |}
           Scenario.monitored); reflexivity.
Defined.

(** X22.  [get_monitored_repositories] lists what the webhook handler
    follows: with [github_repo_id] unique, a row is in the answer exactly
    when it belongs to the user and is the row the handler finds for a
    push with its GitHub id.  The database is not written. *)
Theorem monitored_listing_matches_the_handler
    (user_id : Z) (s s' : state) (rows : list Repository.row) :
  NoDup (map Repository.github_repo_id (repositories (db s))) ->
  Repos.get_monitored_repositories user_id s = (Ret rows, s') ->
  db s' = db s /\
  forall r,
    In r rows <->
    (Repository.user_id r = Some user_id /\
     monitored_repository (db s) (Repository.github_repo_id r) = Some r).
Proof.
  intros Hnd Hrun. unfold Repos.get_monitored_repositories in Hrun.
  rewrite (bind_ret_run _ _ _ _ _ (query_user_run user_id s)) in Hrun.
  destruct (user_row (db s) user_id) as [user|] eqn:Hu; [|discriminate].
  pose proof (user_row_id _ _ _ Hu) as Hid.
  unfold bind, get_db, ret in Hrun. cbn [db] in Hrun.
  inversion Hrun; subst rows s'. clear Hrun.
  split; [reflexivity|]. intros r. rewrite filter_In. split.
  - intros [Hin H]. apply andb_true_iff in H as [Hown Hm].
    split.
    + destruct (Repository.user_id r) as [uid|]; [|discriminate].
      apply Z.eqb_eq in Hown. congruence.
    + destruct (monitored_repository (db s) (Repository.github_repo_id r)) as [r'|] eqn:Hf.
      * unfold monitored_repository in Hf. apply find_some in Hf as [Hin' Hf].
        apply andb_true_iff in Hf as [Hg _]. apply String.eqb_eq in Hg.
        f_equal. exact (unique_key Repository.github_repo_id _ r' r Hnd Hin' Hin Hg).
      * pose proof (proj1 (monitored_repository_none _ _) Hf r Hin eq_refl).
        congruence.
  - intros [Hown Hf]. unfold monitored_repository in Hf.
    apply find_some in Hf as [Hin Hf]. apply andb_true_iff in Hf as [_ Hm].
    split; [exact Hin|]. rewrite Hown, Hm, Hid, Z.eqb_refl. reflexivity.
Qed.

Lemma monitored_listing_matches_the_handler_witness :
  db (snd (Repos.get_monitored_repositories 1 Scenario.st_ready)) = db Scenario.st_ready /\
  forall r,
    In r [Scenario.monitored] <->
    (Repository.user_id r = Some 1%Z /\
     monitored_repository (db Scenario.st_ready) (Repository.github_repo_id r) = Some r).
Proof.
  apply (monitored_listing_matches_the_handler 1 Scenario.st_ready).
  - cbn. repeat constructor. auto.
  - reflexivity.
Defined.
